(** * InsightMiner: acquisition, deduplication and hand-off queue

    A shallow embedding of the parts of [insight_miner.py] that download
    Instagram media ([InstagramDownloader]), fingerprint images
    ([ImageHasher]), drain the processing queue and run a batch
    ([ContentProcessor]), and answer the browser extension
    ([LocalServer]).

    Conventions.
    - Python [str] values are [string]s of ASCII characters; [str.lower]
      is the ASCII lower-casing.
    - A Python exception is a value [exn] carrying [type(e).__name__] and
      [str(e)].  Only instances of [Exception] are modelled, which is what
      every [except Exception] and bare [except] of the source catches.
    - Code that talks to the outside (the instagrapi client, the file
      system, the key ring, the clock, the analysis services) is a field of
      an environment record: a state transformer over an arbitrary world
      [W] that may raise.  Every call of such a field is recorded in a
      trace, next to the records written to the audit log [auth_logger].
    - Calls to [logger] (the debug log) are left out, but for the
      evaluation of those of their arguments that can raise. *)

From Stdlib Require Import ZArith QArith Lia Bool List Ascii String DecimalString.
From stdpp Require Import base option list gmap strings.
Import ListNotations.

Local Open Scope Z_scope.

(** ** Python strings *)

Module PyStr.

Definition lower_ascii (c : ascii) : ascii :=
  let n := nat_of_ascii c in
  if (Nat.leb 65 n && Nat.leb n 90)%bool then ascii_of_nat (n + 32) else c.

(** [s.lower()] *)
Fixpoint lower (s : string) : string :=
  match s with
  | EmptyString => EmptyString
  | String c s' => String (lower_ascii c) (lower s')
  end.

(** [s.startswith(p)] *)
Fixpoint startswith (p s : string) : bool :=
  match p, s with
  | EmptyString, _ => true
  | String a p', String b s' => if Ascii.eqb a b then startswith p' s' else false
  | String _ _, EmptyString => false
  end.

(** [needle in hay] *)
Fixpoint contains (needle hay : string) : bool :=
  startswith needle hay ||
  match hay with
  | EmptyString => false
  | String _ hay' => contains needle hay'
  end.

(** [any(k in s for k in keys)] *)
Definition any_in (keys : list string) (s : string) : bool :=
  existsb (fun k => contains k s) keys.

(** [c.isspace()], the characters that [str.strip] removes: the space,
    the controls 9 to 13 (tab to carriage return) and 28 to 31 (the four
    separators), and the code points 133 (next line) and 160 (no-break
    space) *)
Definition is_space (c : ascii) : bool :=
  let n := nat_of_ascii c in
  (Nat.eqb n 32 || (Nat.leb 9 n && Nat.leb n 13) || (Nat.leb 28 n && Nat.leb n 31)
   || Nat.eqb n 133 || Nat.eqb n 160)%bool.

Fixpoint lstrip (s : string) : string :=
  match s with
  | String c s' => if is_space c then lstrip s' else s
  | EmptyString => EmptyString
  end.

Fixpoint rstrip (s : string) : string :=
  match s with
  | EmptyString => EmptyString
  | String c s' =>
      match rstrip s' with
      | EmptyString => if is_space c then EmptyString else String c EmptyString
      | r => String c r
      end
  end.

(** [s.strip()] *)
Definition strip (s : string) : string := rstrip (lstrip s).

(** [str(n)] for an [int] *)
Definition of_Z (z : Z) : string := NilZero.string_of_int (Z.to_int z).

(** truth value of a [str] *)
Definition truthy (s : string) : bool :=
  match s with EmptyString => false | _ => true end.

End PyStr.

(** ** JSON documents as Python values

    [json.load] and [response.json()] produce [None], [bool], [int],
    [float], [str], [list] and [dict] values.  A [float] is kept as the
    rational number it denotes.  A [dict] is the list of its items,
    looked up from the front. *)

#[warnings="-register-all"] Inductive json :=
| JNull
| JBool (b : bool)
| JInt (n : Z)
| JFloat (q : Q)
| JStr (s : string)
| JList (l : list json)
| JDict (d : list (string * json)).

Module Py.

(** truth value: [if v:] *)
Definition truthy (v : json) : bool :=
  match v with
  | JNull => false
  | JBool b => b
  | JInt n => negb (n =? 0)
  | JFloat q => negb (Qeq_bool q 0)
  | JStr s => PyStr.truthy s
  | JList l => match l with [] => false | _ => true end
  | JDict d => match d with [] => false | _ => true end
  end.

Fixpoint assoc (k : string) (d : list (string * json)) : option json :=
  match d with
  | [] => None
  | (k', v) :: d' => if String.eqb k k' then Some v else assoc k d'
  end.

(** [v.get(k, default)]: [None] stands for the [AttributeError] raised
    when [v] is not a [dict]. *)
Definition get (v : json) (k : string) (default : json) : option json :=
  match v with
  | JDict d => Some (match assoc k d with Some x => x | None => default end)
  | _ => None
  end.

(** [v[0]]: [None] stands for [IndexError], [KeyError] or [TypeError]. *)
Definition first (v : json) : option json :=
  match v with
  | JList (x :: _) => Some x
  | JStr (String c _) => Some (JStr (String c EmptyString))
  | _ => None
  end.

Fixpoint chars (s : string) : list json :=
  match s with
  | EmptyString => []
  | String c s' => JStr (String c EmptyString) :: chars s'
  end.

(** [for x in v]: the elements of a list, the characters of a string,
    the keys of a dict; [None] stands for [TypeError]. *)
Definition iter (v : json) : option (list json) :=
  match v with
  | JList l => Some l
  | JStr s => Some (chars s)
  | JDict d => Some (map (fun kv => JStr (fst kv)) d)
  | _ => None
  end.

(** [a == b]: numbers are compared by value, with [True == 1] and
    [False == 0]; lists are compared
    element by element, dicts item by item whatever the order. *)
Fixpoint eqb (a b : json) : bool :=
  match a, b with
  | JNull, JNull => true
  | JBool x, JBool y => Bool.eqb x y
  | JBool x, JInt n => n =? (if x then 1 else 0)
  | JInt n, JBool x => n =? (if x then 1 else 0)
  | JInt n, JInt m => n =? m
  | JBool x, JFloat q => Qeq_bool q (if x then 1 else 0)
  | JFloat q, JBool x => Qeq_bool q (if x then 1 else 0)
  | JInt n, JFloat q => Qeq_bool (inject_Z n) q
  | JFloat q, JInt n => Qeq_bool q (inject_Z n)
  | JFloat q, JFloat r => Qeq_bool q r
  | JStr s, JStr t => String.eqb s t
  | JList l, JList m =>
      (fix go (l m : list json) : bool :=
         match l, m with
         | [], [] => true
         | x :: l', y :: m' => eqb x y && go l' m'
         | _, _ => false
         end) l m
  | JDict d, JDict e =>
      (length d =? length e)%nat &&
      (fix go (d : list (string * json)) : bool :=
         match d with
         | [] => true
         | (k, v) :: d' =>
             match assoc k e with
             | Some w => eqb v w
             | None => false
             end && go d'
         end) d
  | _, _ => false
  end.

(** [x in l] for a list [l] *)
Definition mem (x : json) (l : list json) : bool := existsb (eqb x) l.

End Py.

(** ** Exceptions and the state-and-exception monad *)

Record exn := Exn { exn_type : string; exn_msg : string }.

Inductive outcome (A : Type) : Type :=
| Ret (a : A)
| Raise (e : exn).
Arguments Ret {A} a.
Arguments Raise {A} e.

(** One entry of the trace of a call: a call into the environment with
    the exception it raised, if any, or a record of the audit log. *)
Inductive event :=
| EvCall (op : string) (args : list string) (raised : option exn)
| EvAuth (tag : string) (fields : list json).

Record state (W : Type) := St { world : W; trace : list event }.
Arguments St {W} world trace.
Arguments world {W} s.
Arguments trace {W} s.

Definition M (W A : Type) : Type := state W -> outcome A * state W.

Definition ret {W A} (a : A) : M W A := fun s => (Ret a, s).

Definition bind {W A B} (m : M W A) (k : A -> M W B) : M W B :=
  fun s => match m s with
           | (Ret a, s') => k a s'
           | (Raise e, s') => (Raise e, s')
           end.

Definition raise {W A} (e : exn) : M W A := fun s => (Raise e, s).

(** [try: m  except Exception as e: h e] *)
Definition try_except {W A} (m : M W A) (h : exn -> M W A) : M W A :=
  fun s => match m s with
           | (Ret a, s') => (Ret a, s')
           | (Raise e, s') => h e s'
           end.

Declare Scope py_scope.
Delimit Scope py_scope with py.
Notation "x <- m ;; k" := (bind m (fun x => k))
  (at level 100, m at next level, right associativity) : py_scope.
Notation "m ;;; k" := (bind m (fun _ => k))
  (at level 100, right associativity) : py_scope.
Local Open Scope py_scope.

Definition raised_of {A} (o : outcome A) : option exn :=
  match o with Ret _ => None | Raise e => Some e end.

(** A call into the environment, recorded in the trace. *)
Definition call {W A} (op : string) (args : list string)
    (f : W -> outcome A * W) : M W A :=
  fun s => let '(o, w') := f (world s) in
           (o, St w' (trace s ++ [EvCall op args (raised_of o)])).

(** [auth_logger.info/warning/error(...)] *)
Definition auth_log {W} (tag : string) (fields : list json) : M W unit :=
  fun s => (Ret tt, St (world s) (trace s ++ [EvAuth tag fields])).

(** ** The retry engine: [InstagramDownloader._retry_download_with_backoff] *)

Module Retry.

Definition timeout_keywords : list string :=
  ["timeout"; "timed out"; "connection"; "read timeout"; "connectionerror"; "httperror"].

(** [any(keyword in str(e).lower() for keyword in timeout_keywords)] *)
Definition is_timeout_error (e : exn) : bool :=
  PyStr.any_in timeout_keywords (PyStr.lower (exn_msg e)).

(** [Exception(f"Download timeout after {max_retries} retries: {str(e)}")] *)
Definition timeout_exception (max_retries : Z) (e : exn) : exn :=
  Exn "Exception"
      ("Download timeout after " +:+ PyStr.of_Z max_retries +:+ " retries: " +:+ exn_msg e).

Definition unexpected_exit : exn := Exn "Exception" "Unexpected retry loop exit".

Section Engine.
Context {W A : Type}.
Variable download_func : M W A.
Variable max_retries : Z.

(** The body of [for attempt in range(max_retries)], from the
    iteration [attempt] with [remaining] iterations left.  The sleep
    [2 ** attempt + random.uniform(0.1, 1.0)] before a retry has no
    effect on the result. *)
Fixpoint attempts (remaining : nat) (attempt : Z) : M W A :=
  match remaining with
  | O => raise unexpected_exit
  | S remaining' =>
      let attempt_num := attempt + 1 in
      try_except
        (result <- download_func ;;
         auth_log "DOWNLOAD_SUCCESS"
           [JInt attempt_num; JInt max_retries] ;;;
         ret result)
        (fun e =>
           if is_timeout_error e then
             auth_log "DOWNLOAD_TIMEOUT"
               [JInt attempt_num; JInt max_retries; JStr (exn_type e)] ;;;
             if attempt <? max_retries - 1 then
               attempts remaining' (attempt + 1)
             else
               auth_log "DOWNLOAD_TIMEOUT_FINAL" [JInt max_retries] ;;;
               raise (timeout_exception max_retries e)
           else
             auth_log "DOWNLOAD_NON_TIMEOUT_ERROR"
               [JInt attempt_num; JStr (exn_type e)] ;;;
             raise e)
  end.

Definition _retry_download_with_backoff : M W A :=
  attempts (Z.to_nat max_retries) 0.
End Engine.

End Retry.

(** ** URL checks of [InstagramDownloader] *)

Module Url.

(** [_validate_instagram_url]; the argument is a [str], so only the
    emptiness test of [not url or not isinstance(url, str)] can fire.
    The check for a content pattern only logs a warning. *)
Definition _validate_instagram_url (url : string) : bool :=
  if negb (PyStr.truthy url) then false
  else
    let url := PyStr.strip url in
    let valid_domains := ["instagram.com"; "instagr.am"; "www.instagram.com"] in
    let has_domain := PyStr.any_in valid_domains (PyStr.lower url) in
    if negb has_domain then false
    else if negb (PyStr.startswith "http://" url || PyStr.startswith "https://" url)
         then false
         else true.

(** [_get_content_type_from_url] *)
Definition _get_content_type_from_url (url : string) : string :=
  let url_lower := PyStr.lower url in
  if PyStr.contains "/reel/" url_lower || PyStr.contains "/tv/" url_lower then "video"
  else if PyStr.contains "/p/" url_lower then "auto"
  else if PyStr.contains "/stories/" url_lower then "story"
  else "unknown".

End Url.

(** ** Candidate URLs: [_extract_all_download_urls_from_raw_data] *)

Module Extract.

(** [for version in versions: url = version.get("url"); if url: all_urls.append(url)] *)
Fixpoint primary_urls (versions : list json) (all_urls : list json)
    : option (list json) :=
  match versions with
  | [] => Some all_urls
  | version :: rest =>
      match Py.get version "url" JNull with
      | None => None
      | Some url =>
          primary_urls rest (if Py.truthy url then all_urls ++ [url] else all_urls)
      end
  end.

(** [for version in versions: url = version.get("url");
     if url and url not in all_urls: all_urls.append(url)] *)
Fixpoint carousel_version_urls (versions : list json) (all_urls : list json)
    : option (list json) :=
  match versions with
  | [] => Some all_urls
  | version :: rest =>
      match Py.get version "url" JNull with
      | None => None
      | Some url =>
          carousel_version_urls rest
            (if Py.truthy url && negb (Py.mem url all_urls)
             then all_urls ++ [url] else all_urls)
      end
  end.

(** [item.get("video_versions", [])] for videos,
    [item.get("image_versions2", {}).get("candidates", [])] for images *)
Definition versions_of (video : bool) (item : json) : option json :=
  if video then Py.get item "video_versions" (JList [])
  else
    match Py.get item "image_versions2" (JDict []) with
    | None => None
    | Some iv => Py.get iv "candidates" (JList [])
    end.

(** [for carousel_item in carousel_media:
       if carousel_item.get("media_type") == 2: ...]    (videos)
    [  if carousel_item.get("media_type") == 1: ...]    (images) *)
Fixpoint carousel_urls (video : bool) (carousel_media : list json)
    (all_urls : list json) : option (list json) :=
  match carousel_media with
  | [] => Some all_urls
  | carousel_item :: rest =>
      match Py.get carousel_item "media_type" JNull with
      | None => None
      | Some mt =>
          if Py.eqb mt (JInt (if video then 2 else 1)) then
            match versions_of video carousel_item with
            | None => None
            | Some vs =>
                match Py.iter vs with
                | None => None
                | Some versions =>
                    match carousel_version_urls versions all_urls with
                    | None => None
                    | Some all_urls' => carousel_urls video rest all_urls'
                    end
                end
            end
          else carousel_urls video rest all_urls
      end
  end.

(** The body of the [try] block; [None] when an exception is raised. *)
Definition extract_body (raw_data : json) (media_type : json) : option (list json) :=
  items ← Py.get raw_data "items" (JList []);
  if negb (Py.truthy items) then Some []
  else
    media_item ← Py.first items;
    let video := Py.eqb media_type (JInt 2) in
    vs ← versions_of video media_item;
    versions ← Py.iter vs;
    all_urls ← primary_urls versions [];
    cm ← Py.get media_item "carousel_media" (JList []);
    carousel_media ← Py.iter cm;
    carousel_urls video carousel_media all_urls.

(** [except Exception: return []] *)
Definition _extract_all_download_urls_from_raw_data
    (raw_data : json) (media_type : json) : list json :=
  match extract_body raw_data media_type with
  | Some all_urls => all_urls
  | None => []
  end.

End Extract.

(** ** [hashlib]: MD5 and SHA-256 over bytes

    Bytes are numbers below 256, words are numbers below [2^32]. *)

Module Hashlib.

Definition w32 (x : Z) : Z := x mod 4294967296.
Definition not32 (x : Z) : Z := Z.lxor x 4294967295.
Definition rotl32 (x n : Z) : Z :=
  w32 (Z.lor (Z.shiftl x n) (Z.shiftr x (32 - n))).
Definition rotr32 (x n : Z) : Z := rotl32 x (32 - n).

Definition nthZ (l : list Z) (i : Z) : Z := nth (Z.to_nat i) l 0.

(** [s.encode()] *)
Definition encode (s : string) : list Z :=
  map (fun b => Z.of_N (Byte.to_N b)) (list_byte_of_string s).

Definition of_bytes (bs : list Byte.byte) : list Z :=
  map (fun b => Z.of_N (Byte.to_N b)) bs.

Definition hex_digit (d : Z) : ascii :=
  ascii_of_nat (Z.to_nat (if d <? 10 then 48 + d else 87 + d)).

(** [digest.hex()] *)
Fixpoint hex_of_bytes (bs : list Z) : string :=
  match bs with
  | [] => EmptyString
  | b :: bs' => String (hex_digit (b / 16)) (String (hex_digit (b mod 16)) (hex_of_bytes bs'))
  end.

(** the message followed by [0x80] and zeros up to 56 modulo 64 *)
Definition pad_zeros (len : nat) : list Z :=
  repeat 0 ((119 - len mod 64) mod 64)%nat.

Definition le_bytes (n : nat) (x : Z) : list Z :=
  map (fun i => (x / 2 ^ (8 * Z.of_nat i)) mod 256) (seq 0 n).
Definition be_bytes (n : nat) (x : Z) : list Z := rev (le_bytes n x).

Definition le_word (bs : list Z) : Z :=
  fold_right (fun b acc => b + 256 * acc) 0 bs.
Definition be_word (bs : list Z) : Z :=
  fold_left (fun acc b => 256 * acc + b) bs 0.

(** the sixteen 32-bit words of block [i] of a padded message *)
Definition block_words (word : list Z -> Z) (msg : list Z) (i : nat) : list Z :=
  map (fun j => word (firstn 4 (skipn (64 * i + 4 * j) msg))) (seq 0 16).

Module MD5.
Definition K : list Z :=
  [0xd76aa478; 0xe8c7b756; 0x242070db; 0xc1bdceee; 0xf57c0faf; 0x4787c62a; 0xa8304613; 0xfd469501;
   0x698098d8; 0x8b44f7af; 0xffff5bb1; 0x895cd7be; 0x6b901122; 0xfd987193; 0xa679438e; 0x49b40821;
   0xf61e2562; 0xc040b340; 0x265e5a51; 0xe9b6c7aa; 0xd62f105d; 0x02441453; 0xd8a1e681; 0xe7d3fbc8;
   0x21e1cde6; 0xc33707d6; 0xf4d50d87; 0x455a14ed; 0xa9e3e905; 0xfcefa3f8; 0x676f02d9; 0x8d2a4c8a;
   0xfffa3942; 0x8771f681; 0x6d9d6122; 0xfde5380c; 0xa4beea44; 0x4bdecfa9; 0xf6bb4b60; 0xbebfbc70;
   0x289b7ec6; 0xeaa127fa; 0xd4ef3085; 0x04881d05; 0xd9d4d039; 0xe6db99e5; 0x1fa27cf8; 0xc4ac5665;
   0xf4292244; 0x432aff97; 0xab9423a7; 0xfc93a039; 0x655b59c3; 0x8f0ccc92; 0xffeff47d; 0x85845dd1;
   0x6fa87e4f; 0xfe2ce6e0; 0xa3014314; 0x4e0811a1; 0xf7537e82; 0xbd3af235; 0x2ad7d2bb; 0xeb86d391].

Definition S : list Z :=
  [7; 12; 17; 22; 7; 12; 17; 22; 7; 12; 17; 22; 7; 12; 17; 22;
   5; 9; 14; 20; 5; 9; 14; 20; 5; 9; 14; 20; 5; 9; 14; 20;
   4; 11; 16; 23; 4; 11; 16; 23; 4; 11; 16; 23; 4; 11; 16; 23;
   6; 10; 15; 21; 6; 10; 15; 21; 6; 10; 15; 21; 6; 10; 15; 21].

Definition round (m : list Z) (st : Z * Z * Z * Z) (i : nat) : Z * Z * Z * Z :=
  let '(a, b, c, d) := st in
  let i := Z.of_nat i in
  let '(f, g) :=
    if i <? 16 then (Z.lor (Z.land b c) (Z.land (not32 b) d), i)
    else if i <? 32 then (Z.lor (Z.land d b) (Z.land (not32 d) c), (5 * i + 1) mod 16)
    else if i <? 48 then (Z.lxor (Z.lxor b c) d, (3 * i + 5) mod 16)
    else (Z.lxor c (Z.lor b (not32 d)), (7 * i) mod 16) in
  let f := w32 (f + a + nthZ K i + nthZ m g) in
  (d, w32 (b + rotl32 f (nthZ S i)), b, c).

Definition block (msg : list Z) (st : Z * Z * Z * Z) (i : nat) : Z * Z * Z * Z :=
  let '(a0, b0, c0, d0) := st in
  let '(a, b, c, d) := fold_left (round (block_words le_word msg i)) (seq 0 64) st in
  (w32 (a0 + a), w32 (b0 + b), w32 (c0 + c), w32 (d0 + d)).

Definition digest (data : list Z) : list Z :=
  let len := length data in
  let msg := data ++ [128] ++ pad_zeros len ++ le_bytes 8 (8 * Z.of_nat len) in
  let '(a, b, c, d) :=
    fold_left (block msg) (seq 0 (length msg / 64))
      (0x67452301, 0xefcdab89, 0x98badcfe, 0x10325476) in
  le_bytes 4 a ++ le_bytes 4 b ++ le_bytes 4 c ++ le_bytes 4 d.
End MD5.

Module SHA256.

(** the first 64 primes *)
Definition is_prime (n : nat) : bool :=
  forallb (fun d => negb (n mod d =? 0)%nat) (seq 2 (Nat.sqrt n - 1)).

Definition primes : list Z := map Z.of_nat (List.filter is_prime (seq 2 310)).

(** the largest [r] below [2 ^ bits] above [r0] with [r ^ 3 <= n] *)
Fixpoint cube_root (bits : nat) (n r0 : Z) : Z :=
  match bits with
  | O => r0
  | S bits' =>
      let r := r0 + 2 ^ Z.of_nat bits' in
      if r * r * r <=? n then cube_root bits' n r else cube_root bits' n r0
  end.

(** the first 32 bits of the fractional parts of the cube roots of the
    first 64 primes *)
Definition K : list Z :=
  Eval vm_compute in map (fun p => w32 (cube_root 44 (p * 2 ^ 96) 0)) primes.

(** the first 32 bits of the fractional parts of the square roots of the
    first 8 primes *)
Definition H0 : list Z :=
  Eval vm_compute in map (fun p => w32 (Z.sqrt (p * 2 ^ 64))) (firstn 8 primes).

(** the message schedule, extended one word at a time *)
Definition extend (w : list Z) (i : nat) : list Z :=
  let i := Z.of_nat i in
  let w15 := nthZ w (i - 15) in
  let w2 := nthZ w (i - 2) in
  let s0 := Z.lxor (Z.lxor (rotr32 w15 7) (rotr32 w15 18)) (Z.shiftr w15 3) in
  let s1 := Z.lxor (Z.lxor (rotr32 w2 17) (rotr32 w2 19)) (Z.shiftr w2 10) in
  w ++ [w32 (nthZ w (i - 16) + s0 + nthZ w (i - 7) + s1)].

Definition round (w : list Z) (st : list Z) (i : nat) : list Z :=
  match st with
  | [a; b; c; d; e; f; g; h] =>
      let i := Z.of_nat i in
      let s1 := Z.lxor (Z.lxor (rotr32 e 6) (rotr32 e 11)) (rotr32 e 25) in
      let ch := Z.lxor (Z.land e f) (Z.land (not32 e) g) in
      let t1 := w32 (h + s1 + ch + nthZ K i + nthZ w i) in
      let s0 := Z.lxor (Z.lxor (rotr32 a 2) (rotr32 a 13)) (rotr32 a 22) in
      let maj := Z.lxor (Z.lxor (Z.land a b) (Z.land a c)) (Z.land b c) in
      let t2 := w32 (s0 + maj) in
      [w32 (t1 + t2); a; b; c; w32 (d + t1); e; f; g]
  | _ => st
  end.

Definition block (msg : list Z) (st : list Z) (i : nat) : list Z :=
  let w := fold_left extend (seq 16 48) (block_words be_word msg i) in
  map (fun p => w32 (fst p + snd p)) (combine st (fold_left (round w) (seq 0 64) st)).

Definition digest (data : list Z) : list Z :=
  let len := length data in
  let msg := data ++ [128] ++ pad_zeros len ++ be_bytes 8 (8 * Z.of_nat len) in
  flat_map (be_bytes 4) (fold_left (block msg) (seq 0 (length msg / 64)) H0).
End SHA256.

(** [hashlib.md5(data).hexdigest()] *)
Definition md5_hexdigest (data : list Z) : string := hex_of_bytes (MD5.digest data).

(** [hashlib.sha256(data).hexdigest()] *)
Definition sha256_hexdigest (data : list Z) : string := hex_of_bytes (SHA256.digest data).

End Hashlib.

(** ** Paths ([pathlib.Path] and [os.path] on normalised paths) *)

Module Path.

(** [p.name], [os.path.basename(p)] *)
Fixpoint name (p : string) : string :=
  match p with
  | EmptyString => EmptyString
  | String c p' =>
      if PyStr.contains "/" p' then name p'
      else if Ascii.eqb c "/" then p' else p
  end.

(** the part of [s] from its last dot on *)
Fixpoint from_last_dot (s : string) : option string :=
  match s with
  | EmptyString => None
  | String c s' =>
      match from_last_dot s' with
      | Some t => Some t
      | None => if Ascii.eqb c "." then Some s else None
      end
  end.

(** [p.suffix]: empty when the last dot of the name is its first or
    its last character *)
Definition suffix (p : string) : string :=
  match name p with
  | EmptyString => EmptyString
  | String _ rest =>
      match from_last_dot rest with
      | Some t => if (String.length t =? 1)%nat then EmptyString else t
      | None => EmptyString
      end
  end.

(** [p.stem] *)
Definition stem (p : string) : string :=
  let n := name p in
  substring 0 (String.length n - String.length (suffix p)) n.

(** [p.parent] *)
Definition parent (p : string) : string :=
  let k := (String.length p - String.length (name p))%nat in
  match k with
  | O => "."
  | 1%nat => "/"
  | S k' => substring 0 k' p
  end.

(** [folder / name], [os.path.join(folder, name)] *)
Definition join (folder n : string) : string := folder +:+ "/" +:+ n.

(** [fnmatch(name, prefix + "*" + ext)] *)
Definition matches (prefix ext n : string) : bool :=
  PyStr.startswith prefix n &&
  (String.length prefix + String.length ext <=? String.length n)%nat &&
  String.eqb (substring (String.length n - String.length ext) (String.length ext) n) ext.

End Path.

(** [v[k]], [d[k] = v], [v + 1] and [str(v)] on JSON values *)
Module PyOps.

Definition KeyError (k : string) : exn := Exn "KeyError" ("'" +:+ k +:+ "'").
Definition TypeError (m : string) : exn := Exn "TypeError" m.
Definition AttributeError (a : string) : exn :=
  Exn "AttributeError" ("object has no attribute '" +:+ a +:+ "'").
Definition FileNotFoundError (p : string) : exn :=
  Exn "FileNotFoundError" ("[Errno 2] No such file or directory: '" +:+ p +:+ "'").

Definition getitem {W} (v : json) (k : string) : M W json :=
  match v with
  | JDict d =>
      match Py.assoc k d with
      | Some x => ret x
      | None => raise (KeyError k)
      end
  | _ => raise (TypeError "indices must be integers")
  end.

Definition get {W} (v : json) (k : string) (default : json) : M W json :=
  match Py.get v k default with
  | Some x => ret x
  | None => raise (AttributeError "get")
  end.

Fixpoint setitem (k : string) (v : json) (d : list (string * json))
    : list (string * json) :=
  match d with
  | [] => [(k, v)]
  | (k', v') :: d' =>
      if String.eqb k k' then (k, v) :: d' else (k', v') :: setitem k v d'
  end.

(** [v + 1] *)
Definition add1 {W} (v : json) : M W json :=
  match v with
  | JInt n => ret (JInt (n + 1))
  | JBool b => ret (JInt ((if b then 1 else 0) + 1))
  | JFloat q => ret (JFloat (q + 1))
  | _ => raise (TypeError "unsupported operand type(s) for +")
  end.

(** [str(v)]; the text of a float, a list or a dict is given by [repr] *)
Definition str (repr : json -> string) (v : json) : string :=
  match v with
  | JNull => "None"
  | JBool true => "True"
  | JBool false => "False"
  | JInt n => PyStr.of_Z n
  | JStr s => s
  | _ => repr v
  end.

(** [hex(n)[2:]] for [n >= 0] *)
Fixpoint hex_digits (fuel : nat) (n : Z) (acc : string) : string :=
  match fuel with
  | O => acc
  | S fuel' =>
      if n =? 0 then acc
      else hex_digits fuel' (n / 16) (String (Hashlib.hex_digit (n mod 16)) acc)
  end.

Definition hex (n : Z) : string :=
  if n =? 0 then "0" else hex_digits (S (Z.to_nat (Z.log2 n))) n EmptyString.

End PyOps.

(** ** The deduplication engine and the queue drain: [ImageHasher] and
    [ContentProcessor]

    The file system is a finite map from paths to files.  A file holds raw
    bytes, or the JSON document that [json.dump] wrote into it; such a
    document is far below the size limits of [validate_file] and is never
    a decodable image.  The fingerprint cache is the dict
    [ImageHasher.hash_cache]; [hash_cache.json] is kept apart from the
    media folders.  Pillow, OpenCV, the OCR and vision services, the
    database and the clock form the environment. *)

Module Processor.

Inductive file :=
| Raw (data : list Byte.byte)
| Doc (doc : json).

Record machine (X : Type) := Machine {
  fs : gmap string file;
  hash_cache : gmap string json;
  hash_cache_json : option (gmap string json);
  ext : X
}.
Arguments Machine {X} fs hash_cache hash_cache_json ext.
Arguments fs {X} _.
Arguments hash_cache {X} _.
Arguments hash_cache_json {X} _.
Arguments ext {X} _.

Record env (X : Type) := Env {
  (** [Config.INPUT_FOLDER], [Config.VIDEO_FOLDER] *)
  INPUT_FOLDER : string;
  VIDEO_FOLDER : string;
  (** [self.supabase] is set *)
  supabase : bool;
  (** [Image.open(p).verify()] succeeds on these bytes *)
  pil_verify : list Byte.byte -> bool;
  (** [list(Image.open(p).convert('L').resize((8, 8), LANCZOS).getdata())] *)
  pil_grey8x8 : list Byte.byte -> option (list Z);
  (** the JPEG that [compress_image] saves *)
  pil_compress : list Byte.byte -> option (list Byte.byte);
  (** [cv2.VideoCapture(p).isOpened()] *)
  cv2_is_opened : list Byte.byte -> bool;
  (** [datetime.now().isoformat()] *)
  now_isoformat : X -> string * X;
  (** OCR, vision model and [combine_analysis_results] on a file *)
  ocr_and_vision : option file -> X -> outcome json * X;
  (** building the row of [save_analysis_only] and inserting it *)
  supabase_insert : string -> string -> string -> json -> X -> outcome unit * X;
  (** [process_video] up to the analysis and hash of the video: an early
      failure message, or the analysis, the hash and the number of
      analysed frames *)
  video_pipeline : option file -> X -> outcome (string + json * string * Z) * X;
  (** [str] of a float, a list or a dict *)
  py_repr : json -> string
}.

Definition TEMP_FOLDER : string := "temp_processing".
Definition SUPPORTED_IMAGE_FORMATS : list string := [".jpg"; ".jpeg"; ".png"; ".webp"; ".bmp"].
Definition SUPPORTED_VIDEO_FORMATS : list string := [".mp4"; ".avi"; ".mov"; ".mkv"; ".webm"].

Definition file_size (f : file) : Z :=
  match f with
  | Raw data => Z.of_nat (length data)
  | Doc _ => 0
  end.

Section Model.
Context {X : Type} (E : env X).

Abbreviation M' := (M (machine X)).

Definition get_world : M' (machine X) := fun s => (Ret (world s), s).
Definition modify (f : machine X -> machine X) : M' unit :=
  fun s => (Ret tt, St (f (world s)) (trace s)).

Definition call_ext {A} (op : string) (args : list string)
    (f : X -> outcome A * X) : M' A :=
  call op args
    (fun w => let '(o, x) := f (ext w) in
              (o, Machine (fs w) (hash_cache w) (hash_cache_json w) x)).

Definition now : M' string :=
  call_ext "datetime.now" []
    (fun x => let '(t, x') := now_isoformat X E x in (Ret t, x')).

(** [p.exists()] *)
Definition exists_ (p : string) : M' bool :=
  w <- get_world ;; ret (bool_decide (is_Some (fs w !! p))).

(** [open(p).read()], [p.stat()] *)
Definition read_file (p : string) : M' file :=
  w <- get_world ;;
  match fs w !! p with
  | Some f => ret f
  | None => raise (PyOps.FileNotFoundError p)
  end.

Definition write_file (p : string) (f : file) : M' unit :=
  modify (fun w => Machine (<[p := f]> (fs w)) (hash_cache w) (hash_cache_json w) (ext w)).

(** [os.remove(p)], [p.unlink()] *)
Definition remove (p : string) : M' unit :=
  w <- get_world ;;
  match fs w !! p with
  | Some _ =>
      modify (fun w => Machine (delete p (fs w)) (hash_cache w) (hash_cache_json w) (ext w))
  | None => raise (PyOps.FileNotFoundError p)
  end.

Definition set_cache (c : gmap string json) : M' unit :=
  modify (fun w => Machine (fs w) c (hash_cache_json w) (ext w)).

(** *** [ImageHasher] *)

(** ['1' if pixel > avg else '0'] with [avg = sum(pixels) / len(pixels)];
    the quotient is exact for the 64 pixels of the 8 by 8 grid *)
Definition bits (pixels : list Z) : list bool :=
  let total := fold_right Z.add 0 pixels in
  let n := Z.of_nat (length pixels) in
  map (fun pixel => total <? pixel * n) pixels.

(** [int(bits, 2)] *)
Definition int2 (bs : list bool) : Z :=
  fold_left (fun acc (b : bool) => 2 * acc + (if b then 1 else 0)) bs 0.

Definition perceptual_hash (pixels : list Z) : string := PyOps.hex (int2 (bits pixels)).

Definition combined_hash (data : list Byte.byte) (pixels : list Z) : string :=
  let file_hash := Hashlib.sha256_hexdigest (Hashlib.of_bytes data) in
  Hashlib.md5_hexdigest
    (Hashlib.encode (file_hash +:+ "_" +:+ perceptual_hash pixels)).

Definition image_error : exn :=
  Exn "UnidentifiedImageError" "cannot identify image file".

Definition calculate_image_hash (image_path : string) : M' string :=
  try_except
    (f <- read_file image_path ;;
     match f with
     | Raw data =>
         match pil_grey8x8 X E data with
         | Some [] => raise (Exn "ZeroDivisionError" "division by zero")
         | Some pixels => ret (combined_hash data pixels)
         | None => raise image_error
         end
     | Doc _ => raise image_error
     end)
    (fun _ =>
       t <- now ;;
       ret (Hashlib.md5_hexdigest (Hashlib.encode ("error_" +:+ t)))).

Definition is_duplicate (image_hash : string) : M' (bool * option json) :=
  try_except
    (w <- get_world ;;
     match hash_cache w !! image_hash with
     | Some existing_data =>
         _ <- PyOps.get existing_data "original_filename" (JStr "unknown") ;;
         count <- PyOps.get existing_data "duplicate_count" (JInt 0) ;;
         count' <- PyOps.add1 count ;;
         auth_log "DUPLICATE_DETECTED" [JStr (substring 0 12 image_hash); count'] ;;;
         ret (true, Some existing_data)
     | None => ret (false, None)
     end)
    (fun _ => ret (false, None)).

Definition save_hash_cache : M' unit :=
  modify (fun w => Machine (fs w) (hash_cache w) (Some (hash_cache w)) (ext w)).

Definition store_hash (image_hash : string) (analysis_data : list (string * json))
    : M' unit :=
  try_except
    (t <- now ;;
     w <- get_world ;;
     set_cache
       (<[image_hash :=
            JDict (PyOps.setitem "duplicate_count" (JInt 0)
                     (PyOps.setitem "first_seen" (JStr t) analysis_data))]>
          (hash_cache w)) ;;;
     save_hash_cache)
    (fun _ => ret tt).

Definition increment_duplicate_count (image_hash : string) : M' unit :=
  try_except
    (w <- get_world ;;
     match hash_cache w !! image_hash with
     | Some record =>
         count <- PyOps.getitem record "duplicate_count" ;;
         count' <- PyOps.add1 count ;;
         match record with
         | JDict d =>
             let d1 := PyOps.setitem "duplicate_count" count' d in
             set_cache (<[image_hash := JDict d1]> (hash_cache w)) ;;;
             t <- now ;;
             w1 <- get_world ;;
             set_cache
               (<[image_hash := JDict (PyOps.setitem "last_seen" (JStr t) d1)]>
                  (hash_cache w1)) ;;;
             save_hash_cache
         | _ => raise (PyOps.TypeError "object does not support item assignment")
         end
     | None => ret tt
     end)
    (fun _ => ret tt).

(** *** [ContentProcessor] *)

Definition mem (x : string) (l : list string) : bool := existsb (String.eqb x) l.

Definition validate_file (file_path : string) : M' (bool * string) :=
  try_except
    (let file_ext := PyStr.lower (Path.suffix file_path) in
     if mem file_ext SUPPORTED_IMAGE_FORMATS then
       f <- read_file file_path ;;
       if file_size f >? 10 * 1024 * 1024 then ret (false, "too_large")
       else
         match f with
         | Raw data =>
             if pil_verify X E data then ret (true, "image") else raise image_error
         | Doc _ => raise image_error
         end
     else if mem file_ext SUPPORTED_VIDEO_FORMATS then
       f <- read_file file_path ;;
       if file_size f >? 50 * 1024 * 1024 then ret (false, "too_large")
       else
         match f with
         | Raw data =>
             if cv2_is_opened X E data then ret (true, "video")
             else ret (false, "corrupted")
         | Doc _ => ret (false, "corrupted")
         end
     else ret (false, "unsupported"))
    (fun _ => ret (false, "corrupted")).

Definition compress_image (image_path : string) : M' (option string) :=
  try_except
    (f <- read_file image_path ;;
     match f with
     | Raw data =>
         match pil_compress X E data with
         | Some jpeg =>
             let compressed_path :=
               Path.join TEMP_FOLDER ("compressed_" +:+ Path.name image_path) in
             write_file compressed_path (Raw jpeg) ;;;
             ret (Some compressed_path)
         | None => raise image_error
         end
     | Doc _ => raise image_error
     end)
    (fun _ => ret None).

Definition create_error_analysis (error_msg : string) : json :=
  JDict [("category", JStr "Error"); ("confidence", JFloat 0);
         ("summary", JStr error_msg); ("key_points", JList []);
         ("useful_content", JStr ""); ("processing_method", JStr "error")].

Definition analyze_content_hybrid (image_path : string) : M' json :=
  try_except
    (w <- get_world ;;
     call_ext "ocr_and_vision" [image_path] (ocr_and_vision X E (fs w !! image_path)))
    (fun e => ret (create_error_analysis ("Analysis failed: " +:+ exn_msg e))).

Definition save_analysis_only (analysis : json)
    (original_filename file_type image_hash : string) : M' bool :=
  if negb (supabase X E) then ret false
  else
    try_except
      (call_ext "supabase_insert" [original_filename; file_type; image_hash]
         (supabase_insert X E original_filename file_type image_hash analysis) ;;;
       ret true)
      (fun _ => ret false).

Definition process_image_with_hash (image_path image_hash : string)
    : M' (bool * string) :=
  try_except
    (compressed <- compress_image image_path ;;
     match compressed with
     | None => ret (false, "Compression failed")
     | Some compressed_path =>
         analysis <- analyze_content_hybrid compressed_path ;;
         category <- PyOps.getitem analysis "category" ;;
         if Py.eqb category (JStr "Error") then
           remove compressed_path ;;;
           ret (false, "Analysis failed")
         else
           success <- save_analysis_only analysis (Path.name image_path) "image" image_hash ;;
           (if success then
              category <- PyOps.getitem analysis "category" ;;
              confidence <- PyOps.getitem analysis "confidence" ;;
              summary <- PyOps.getitem analysis "summary" ;;
              store_hash image_hash
                [("original_filename", JStr (Path.name image_path));
                 ("category", category); ("confidence", confidence);
                 ("summary", summary)]
            else ret tt) ;;;
           remove compressed_path ;;;
           if success then
             remove image_path ;;;
             ret (true, "Image processed - analysis saved (no image stored)")
           else ret (false, "Database save failed")
     end)
    (fun e => ret (false, "Image processing error: " +:+ exn_msg e)).

Definition process_video (video_path : string) : M' (bool * string) :=
  try_except
    (w <- get_world ;;
     r <- call_ext "video_pipeline" [video_path]
            (video_pipeline X E (fs w !! video_path)) ;;
     match r with
     | inl message => ret (false, message)
     | inr (video_analysis, video_hash, frames) =>
         saved <- save_analysis_only video_analysis (Path.name video_path) "video" video_hash ;;
         if saved then
           remove video_path ;;;
           ret (true, "Video processed (" +:+ PyStr.of_Z frames +:+ " frames, audio transcribed)")
         else ret (false, "Saving video analysis failed.")
     end)
    (fun e => ret (false, "Video processing error: " +:+ exn_msg e)).

Definition process_single_file (file_path : string) : M' (bool * string) :=
  try_except
    (valid <- validate_file file_path ;;
     let '(is_valid, file_type) := valid in
     if negb is_valid then ret (false, "Invalid file: " +:+ file_type)
     else if String.eqb file_type "image" then
       image_hash <- calculate_image_hash file_path ;;
       dup <- is_duplicate image_hash ;;
       let '(is_dup, existing_data) := dup in
       if is_dup then
         increment_duplicate_count image_hash ;;;
         remove file_path ;;;
         original <- PyOps.get (default JNull existing_data) "original_filename" (JStr "unknown") ;;
         ret (true, "Duplicate detected - skipped (original: "
                      +:+ PyOps.str (py_repr X E) original +:+ ")")
       else process_image_with_hash file_path image_hash
     else process_video file_path)
    (fun e => ret (false, "Processing error: " +:+ exn_msg e)).

(** [folder.glob('.processing_*.json')] *)
Definition glob_flags (folder : string) (files : gmap string file) : list string :=
  filter (fun p => String.eqb (Path.parent p) folder
                   && Path.matches ".processing_" ".json" (Path.name p) = true)
         (map fst (map_to_list files)).

(** The body of [for flag_file in flag_files] *)
Definition process_flag (flag_file : string) : M' unit :=
  try_except
    (f <- read_file flag_file ;;
     flag_data <- match f with
                  | Doc doc => ret doc
                  | Raw _ => raise (Exn "JSONDecodeError" "Expecting value")
                  end ;;
     processed <- PyOps.get flag_data "processed" (JBool false) ;;
     if Py.truthy processed then remove flag_file
     else
       fp <- PyOps.getitem flag_data "file_path" ;;
       file_path <- match fp with
                    | JStr p => ret p
                    | _ => raise (PyOps.TypeError "expected str, bytes or os.PathLike object")
                    end ;;
       present <- exists_ file_path ;;
       if negb present then remove flag_file
       else
         result <- process_single_file file_path ;;
         let '(success, message) := result in
         if success then
           auth_log "INSTAGRAM_CONTENT_PROCESSED" [JStr (Path.name file_path)] ;;;
           remove flag_file
         else
           auth_log "INSTAGRAM_CONTENT_PROCESSING_FAILED"
             [JStr (Path.name file_path); JStr message] ;;;
           match flag_data with
           | JDict d =>
               write_file flag_file
                 (Doc (JDict (PyOps.setitem "processing_error" (JStr message)
                                (PyOps.setitem "processed" (JBool true) d))))
           | _ => raise (PyOps.TypeError "object does not support item assignment")
           end)
    (fun _ => try_except (remove flag_file) (fun _ => ret tt)).

Fixpoint process_flags (flag_files : list string) : M' unit :=
  match flag_files with
  | [] => ret tt
  | flag_file :: rest => process_flag flag_file ;;; process_flags rest
  end.

(** One folder of [folders_to_check]; a folder that does not exist
    holds no flag file. *)
Definition process_folder (folder : string) : M' unit :=
  w <- get_world ;;
  process_flags (glob_flags folder (fs w)).

Definition process_instagram_queue : M' unit :=
  try_except
    (process_folder (INPUT_FOLDER X E) ;;;
     process_folder (VIDEO_FOLDER X E))
    (fun _ => ret tt).

End Model.

End Processor.

(** ** The downloader: [InstagramDownloader]

    The instagrapi client, its HTTP session, the key ring, the file
    system, the clock and the analysis of a downloaded file form the
    environment.  An object such as the media descriptor is the list of
    its attributes. *)

Module Downloader.

Definition pyobj : Type := list (string * json).

(** an HTTP response: [status_code] and the outcome of [response.json()] *)
Record response := Response {
  status_code : Z;
  json_body : outcome json
}.

(** the header sets sent with a request *)
Inductive headers :=
| SessionHeaders      (* none given: those of the session *)
| CdnHeaders          (* the set built by [_download_file_direct_http] *)
| EnhancedHeaders.    (* the set built by [_retry_with_enhanced_auth] *)

Record env (W : Type) := Env {
  (** [self.client] is set *)
  client : bool;
  (** [Config] *)
  VIDEO_FOLDER : string;
  INPUT_FOLDER : string;
  TEMP_FOLDER : string;
  INSTAGRAM_RETRY_ATTEMPTS : Z;
  (** [keyring.get_password("InsightMiner", key)] *)
  keyring_get_password : string -> W -> outcome (option string) * W;
  (** instagrapi *)
  load_settings : string -> W -> outcome unit * W;
  account_info : W -> outcome string * W;
  get_timeline_feed : W -> outcome unit * W;
  login : option string -> option string -> W -> outcome unit * W;
  dump_settings : string -> W -> outcome unit * W;
  media_pk_from_url : string -> W -> outcome string * W;
  media_info : string -> W -> outcome pyobj * W;
  video_download : string -> string -> W -> outcome (option string) * W;
  photo_download : string -> string -> W -> outcome (option string) * W;
  (** [self.client.private.get(url, headers=...)] *)
  private_get : string -> headers -> W -> outcome response * W;
  (** [pathlib] and [open] *)
  path_exists : string -> W -> outcome bool * W;
  mkdir : string -> W -> outcome unit * W;
  mkdir_parents : string -> W -> outcome unit * W;
  rename : string -> string -> W -> outcome unit * W;
  glob : string -> string -> W -> outcome (list string) * W;
  stat_size : string -> W -> outcome Z * W;
  unlink_missing_ok : string -> W -> outcome unit * W;
  rmdir : string -> W -> outcome unit * W;
  (** [for chunk in response.iter_content(8192): f.write(chunk)] *)
  write_response : response -> string -> W -> outcome unit * W;
  (** [with open(p, 'w') as f: json.dump(doc, f, indent=2)] *)
  write_json : string -> json -> W -> outcome unit * W;
  (** [datetime.now().isoformat()] *)
  now_isoformat : W -> string * W;
  (** the analysis of [_detect_post_download_metadata] *)
  analyze_downloaded_file : string -> W -> outcome (list (string * json)) * W
}.

Definition session_file : string := "instagram_session.json".

(** *** Attributes *)

Definition getattr {W} (o : pyobj) (a : string) : M W json :=
  match Py.assoc a o with
  | Some v => ret v
  | None => raise (Exn "AttributeError" ("object has no attribute '" +:+ a +:+ "'"))
  end.

Definition getattr_default (o : pyobj) (a : string) (default : json) : json :=
  match Py.assoc a o with Some v => v | None => default end.

Definition setattr (o : pyobj) (a : string) (v : json) : pyobj := PyOps.setitem a v o.

(** *** [MinimalMediaInfo._extract_code_from_url] *)

Definition is_code_char (c : ascii) : bool :=
  let n := nat_of_ascii c in
  ((65 <=? n) && (n <=? 90) || (97 <=? n) && (n <=? 122)
   || (48 <=? n) && (n <=? 57) || (n =? 95) || (n =? 45))%nat.

Fixpoint span_code (s : string) : string * string :=
  match s with
  | EmptyString => (EmptyString, EmptyString)
  | String c s' =>
      if is_code_char c then
        let '(run, rest) := span_code s' in (String c run, rest)
      else (EmptyString, s)
  end.

Fixpoint drop (n : nat) (s : string) : string :=
  match n, s with
  | S n', String _ s' => drop n' s'
  | _, _ => s
  end.

(** a match of [lit([A-Za-z0-9_-]+)/] at the start of [s] *)
Definition match_here (lit s : string) : option string :=
  if PyStr.startswith lit s then
    let '(run, rest) := span_code (drop (String.length lit) s) in
    if PyStr.truthy run && PyStr.startswith "/" rest then Some run else None
  else None.

(** [re.search(lit + "([A-Za-z0-9_-]+)/", s).group(1)] *)
Fixpoint search (lit s : string) : option string :=
  match match_here lit s with
  | Some code => Some code
  | None =>
      match s with
      | EmptyString => None
      | String _ s' => search lit s'
      end
  end.

Definition _extract_code_from_url (url : string) : string :=
  match search "/p/" url with
  | Some code => code
  | None =>
      match search "/reel/" url with
      | Some code => code
      | None =>
          match search "/reels/" url with
          | Some code => code
          | None => "unknown"
          end
      end
  end.

(** [MinimalMediaInfo(media_pk, media_type, url)] *)
Definition MinimalMediaInfo (media_pk : string) (media_type : Z) (url : string) : pyobj :=
  [("pk", JStr media_pk); ("id", JStr media_pk); ("media_type", JInt media_type);
   ("code", JStr (_extract_code_from_url url)); ("user", JNull);
   ("is_fallback", JBool true)].

(** [s.replace(old, new)] for a non-empty [old] *)
Fixpoint replace_go (old new : string) (skip : nat) (s : string) : string :=
  match s with
  | EmptyString => EmptyString
  | String c s' =>
      match skip with
      | S skip' => replace_go old new skip' s'
      | O =>
          if PyStr.startswith old s
          then new +:+ replace_go old new (String.length old - 1) s'
          else String c (replace_go old new 0 s')
      end
  end.
Definition replace (old new s : string) : string := replace_go old new 0 s.

(** a value that has a [len] *)
Definition has_len (v : json) : bool :=
  match v with JStr _ | JList _ | JDict _ => true | _ => false end.

(** a value that can be sliced: [v[:80]] *)
Definition sliceable (v : json) : bool :=
  match v with JStr _ | JList _ => true | _ => false end.

Section Model.
Context {W : Type} (E : env W).

Abbreviation M' := (M W).

Definition opt_args (o : option string) : string :=
  match o with Some s => s | None => "None" end.

(** *** [Config] credentials *)

Definition get_instagram_credentials : M' (option string * option string) :=
  try_except
    (username <- call "keyring.get_password" ["instagram_username"]
                   (keyring_get_password W E "instagram_username") ;;
     password <- call "keyring.get_password" ["instagram_password"]
                   (keyring_get_password W E "instagram_password") ;;
     match username, password with
     | Some u, Some p =>
         if PyStr.truthy u && PyStr.truthy p then ret (Some u, Some p)
         else ret (None, None)
     | _, _ => ret (None, None)
     end)
    (fun _ => ret (None, None)).

Definition INSTAGRAM_USERNAME : M' (option string) :=
  c <- get_instagram_credentials ;; ret (fst c).

Definition INSTAGRAM_PASSWORD : M' (option string) :=
  c <- get_instagram_credentials ;; ret (snd c).

Definition opt_json (o : option string) : json :=
  match o with Some s => JStr s | None => JNull end.

(** *** Session *)

(** [get_session_status()["status"]] *)
Definition get_session_status : M' string :=
  if negb (client W E) then ret "unavailable"
  else
    try_except
      (session_exists <- call "Path.exists" [session_file] (path_exists W E session_file) ;;
       if session_exists then
         try_except
           (call "client.load_settings" [session_file] (load_settings W E session_file) ;;;
            _ <- call "client.account_info" [] (account_info W E) ;;
            ret "active")
           (fun _ => ret "expired")
       else ret "not_logged_in")
      (fun _ => ret "error").

Definition login_failure_message (error_msg : string) : string :=
  let m := PyStr.lower error_msg in
  if PyStr.contains "checkpoint_required" m
  then "Login challenge required. Please login manually first."
  else if PyStr.contains "rate limit" m then "Rate limited. Please try again later."
  else if PyStr.contains "password" m
  then "Invalid credentials. Please check username/password."
  else "Login failed: " +:+ error_msg.

Definition fresh_login : M' (bool * string) :=
  user <- INSTAGRAM_USERNAME ;;
  auth_log "INSTAGRAM_LOGIN_ATTEMPT" [opt_json user] ;;;
  username <- INSTAGRAM_USERNAME ;;
  password <- INSTAGRAM_PASSWORD ;;
  call "client.login" [opt_args username; opt_args password]
    (login W E username password) ;;;
  call "client.dump_settings" [session_file] (dump_settings W E session_file) ;;;
  saved <- call "Path.exists" [session_file] (path_exists W E session_file) ;;
  (if saved then
     _ <- call "Path.stat" [session_file] (stat_size W E session_file) ;; ret tt
   else ret tt) ;;;
  auth_log "INSTAGRAM_LOGIN_SUCCESS" [] ;;;
  ret (true, "Login successful").

Definition setup_session : M' (bool * string) :=
  if negb (client W E) then ret (false, "Instagram client not available")
  else
    username <- INSTAGRAM_USERNAME ;;
    password <- match username with
                | Some _ => INSTAGRAM_PASSWORD
                | None => ret None
                end ;;
    match username, password with
    | Some _, Some _ =>
        _ <- INSTAGRAM_USERNAME ;;
        try_except
          (session_found <- call "Path.exists" [session_file] (path_exists W E session_file) ;;
           if session_found then
             loaded <-
               try_except
                 (call "client.load_settings" [session_file]
                    (load_settings W E session_file) ;;;
                  call "client.get_timeline_feed" [] (get_timeline_feed W E) ;;;
                  auth_log "INSTAGRAM_SESSION_LOADED_SUCCESSFULLY" [] ;;;
                  ret true)
                 (fun _ => ret false) ;;
             if loaded then ret (true, "Session loaded successfully")
             else fresh_login
           else fresh_login)
          (fun e =>
             _ <- call "Path.exists" [session_file] (path_exists W E session_file) ;;
             auth_log "INSTAGRAM_LOGIN_FAILED" [JStr (exn_type e); JStr (exn_msg e)] ;;;
             ret (false, login_failure_message (exn_msg e)))
    | _, _ => ret (false, "Instagram credentials not configured")
    end.

(** *** Reconstruction of the media descriptor *)

(** One probe of [_detect_media_type_fallback]: a download into the
    probe folder; [true] when it left a file, which is removed. *)
Definition probe (op : string)
    (download : string -> string -> W -> outcome (option string) * W)
    (media_pk temp_path : string) : M' bool :=
  try_except
    (result <- call op [media_pk; temp_path] (download media_pk temp_path) ;;
     match result with
     | Some file =>
         found <- call "Path.exists" [file] (path_exists W E file) ;;
         if found then
           call "Path.unlink" [file] (unlink_missing_ok W E file) ;;;
           ret true
         else ret false
     | None => ret false
     end)
    (fun _ => ret false).

Definition _detect_media_type_fallback (media_pk url : string) : M' Z :=
  try_except
    (if PyStr.contains "/reel/" url || PyStr.contains "/reels/" url then ret 2
     else if PyStr.contains "/p/" url then ret 2
     else
       probed <-
         try_except
           (let temp_path := Path.join (TEMP_FOLDER W E) ("probe_" +:+ media_pk) in
            call "Path.mkdir" [temp_path] (mkdir W E temp_path) ;;;
            is_video <- probe "client.video_download" (video_download W E) media_pk temp_path ;;
            if is_video then ret (Some 2)
            else
              is_photo <- probe "client.photo_download" (photo_download W E) media_pk temp_path ;;
              if is_photo then ret (Some 1)
              else
                call "Path.rmdir" [temp_path] (rmdir W E temp_path) ;;;
                ret None)
           (fun _ => ret None) ;;
       match probed with
       | Some media_type => ret media_type
       | None => ret 2
       end)
    (fun _ => ret 2).

Definition _create_minimal_media_info (media_pk url : string) : M' (option pyobj) :=
  try_except
    (media_type <- _detect_media_type_fallback media_pk url ;;
     let minimal_info := MinimalMediaInfo media_pk media_type url in
     auth_log "MINIMAL_MEDIA_INFO_CREATED" [JStr media_pk; JInt media_type] ;;;
     ret (Some minimal_info))
    (fun e =>
       auth_log "MINIMAL_MEDIA_INFO_CREATION_FAILED" [JStr media_pk; JStr (exn_msg e)] ;;;
       ret None).

(** [if "ValidationError" in error_type or "validation" in error_msg.lower()] *)
Definition is_validation_error (e : exn) : bool :=
  PyStr.contains "ValidationError" (exn_type e)
  || PyStr.contains "validation" (PyStr.lower (exn_msg e)).

(** Lines 753 to 802 of [download_single_reel]: the media descriptor
    and [use_fallback], or the message of an early [return False, ...] *)
Definition retrieve_media_info (media_pk url : string) : M' (string + pyobj * bool) :=
  try_except
    (media_info <- call "client.media_info" [media_pk] (media_info W E media_pk) ;;
     media_type <- getattr media_info "media_type" ;;
     auth_log "MEDIA_INFO_RETRIEVED" [JStr media_pk; media_type] ;;;
     ret (inr (media_info, false)))
    (fun info_error =>
       if is_validation_error info_error then
         auth_log "VALIDATION_ERROR_FALLBACK_ACTIVATED"
           [JStr media_pk; JStr (exn_type info_error)] ;;;
         minimal <- _create_minimal_media_info media_pk url ;;
         match minimal with
         | Some media_info =>
             media_type <- getattr media_info "media_type" ;;
             auth_log "FALLBACK_MEDIA_INFO_CREATED" [JStr media_pk; media_type] ;;;
             ret (inr (media_info, true))
         | None =>
             auth_log "FALLBACK_MEDIA_INFO_FAILED" [JStr media_pk] ;;;
             ret (inl "ValidationError: Could not parse metadata and fallback failed")
         end
       else
         auth_log "MEDIA_INFO_FAILED" [JStr media_pk; JStr (exn_msg info_error)] ;;;
         ret (inl ("Failed to get media info: " +:+ exn_msg info_error))).

(** *** The raw-protocol fallback download *)

Definition _get_raw_media_data (media_pk : string) : M' (option json) :=
  try_except
    (let url := "https://i.instagram.com/api/v1/media/" +:+ media_pk +:+ "/info/" in
     response <- call "client.private.get" [url] (private_get W E url SessionHeaders) ;;
     if status_code response =? 200 then
       match json_body response with
       | Ret raw_data =>
           items <- PyOps.get raw_data "items" (JList []) ;;
           if has_len items then ret (Some raw_data)
           else raise (PyOps.TypeError "object has no len()")
       | Raise e => raise e
       end
     else ret None)
    (fun _ => ret None).

Definition _write_downloaded_file (resp : response) (file_path : string) : M' bool :=
  try_except
    (call "Path.mkdir" [Path.parent file_path] (mkdir_parents W E (Path.parent file_path)) ;;;
     call "write" [file_path] (write_response W E resp file_path) ;;;
     _ <- call "Path.stat" [file_path] (stat_size W E file_path) ;;
     ret true)
    (fun _ => ret false).

(** a request for a candidate URL; a candidate that is not a [str]
    makes the request raise *)
Definition get_candidate (url : json) (h : headers) : M' response :=
  match url with
  | JStr u => call "client.private.get" [u] (private_get W E u h)
  | _ => raise (Exn "MissingSchema" "Invalid URL")
  end.

(** [for fresh_url in fresh_urls: if fresh_url != original_url: ...] *)
Fixpoint try_fresh_urls (fresh_urls : list json) (original_url : json)
    (file_path : string) : M' bool :=
  match fresh_urls with
  | [] => ret false
  | fresh_url :: rest =>
      if negb (Py.eqb fresh_url original_url) then
        if sliceable fresh_url then
          resp <- get_candidate fresh_url CdnHeaders ;;
          if status_code resp =? 200 then _write_downloaded_file resp file_path
          else try_fresh_urls rest original_url file_path
        else raise (PyOps.TypeError "object is not subscriptable")
      else try_fresh_urls rest original_url file_path
  end.

Definition _retry_with_fresh_url (original_url : json) (file_path : string) : M' bool :=
  try_except
    (let filename := Path.stem file_path in
     if PyStr.contains "instagram_" filename then
       let media_pk := replace "instagram_" "" filename in
       fresh_data <- _get_raw_media_data media_pk ;;
       match fresh_data with
       | Some data =>
           if Py.truthy data then
             let media_type := if String.eqb (Path.suffix file_path) ".mp4" then 2 else 1 in
             let fresh_urls :=
               Extract._extract_all_download_urls_from_raw_data data (JInt media_type) in
             try_fresh_urls fresh_urls original_url file_path
           else ret false
       | None => ret false
       end
     else ret false)
    (fun _ => ret false).

Definition _retry_with_enhanced_auth (url : json) (file_path : string) : M' bool :=
  try_except
    (try_except
       (_ <- call "client.private.get" ["https://www.instagram.com/"]
               (private_get W E "https://www.instagram.com/" SessionHeaders) ;;
        ret tt)
       (fun _ => ret tt) ;;;
     resp <- get_candidate url EnhancedHeaders ;;
     if status_code resp =? 200 then _write_downloaded_file resp file_path
     else ret false)
    (fun _ => ret false).

Definition _download_file_direct_http (url : json) (file_path : string) : M' bool :=
  try_except
    (if negb (sliceable url) then raise (PyOps.TypeError "object is not subscriptable")
     else
       resp <- get_candidate url CdnHeaders ;;
       if status_code resp =? 200 then _write_downloaded_file resp file_path
       else if status_code resp =? 404 then _retry_with_fresh_url url file_path
       else if status_code resp =? 403 then _retry_with_enhanced_auth url file_path
       else ret false)
    (fun _ => ret false).

(** [for url in urls: ...] of [_download_with_url_fallbacks] *)
Fixpoint try_urls (urls : list json) (file_path : string) : M' bool :=
  match urls with
  | [] => ret false
  | url :: rest =>
      success <- try_except
                   (ok <- _download_file_direct_http url file_path ;; ret ok)
                   (fun _ => ret false) ;;
      if success then ret true else try_urls rest file_path
  end.

Definition _download_with_url_fallbacks (urls : list json) (file_path : string) : M' bool :=
  try_except (try_urls urls file_path) (fun _ => ret false).

Definition _fallback_download_direct (media_pk : string) (media_type : json)
    (folder_path : string) : M' (bool * string * option string) :=
  try_except
    (let safe_filename := "instagram_" +:+ media_pk in
     raw_media_data <- _get_raw_media_data media_pk ;;
     match raw_media_data with
     | None => ret (false, "Failed to fetch raw media data", None)
     | Some data =>
         if negb (Py.truthy data) then ret (false, "Failed to fetch raw media data", None)
         else
           let download_urls :=
             Extract._extract_all_download_urls_from_raw_data data media_type in
           match download_urls with
           | [] => ret (false, "Could not extract any download URLs from raw data", None)
           | _ =>
               let download_path :=
                 if Py.eqb media_type (JInt 2)
                 then Path.join folder_path (safe_filename +:+ ".mp4")
                 else Path.join folder_path (safe_filename +:+ ".jpg") in
               success <- _download_with_url_fallbacks download_urls download_path ;;
               found <- (if success
                         then call "Path.exists" [download_path] (path_exists W E download_path)
                         else ret false) ;;
               if found then
                 ret (true, "Downloaded via raw API fallback: " +:+ Path.name download_path,
                      Some download_path)
               else ret (false, "Raw API download failed", None)
           end
     end)
    (fun e => ret (false, "Fallback download error: " +:+ exn_msg e, None)).

(** *** Post-download steps *)

Definition _detect_post_download_metadata (file_path : string)
    : M' (list (string * json)) :=
  try_except
    (call "analyze_downloaded_file" [file_path] (analyze_downloaded_file W E file_path))
    (fun _ => ret []).

(** [for key, value in enhanced_metadata.items(): setattr(media_info, key, value)] *)
Definition set_attributes (media_info : pyobj) (items : list (string * json)) : pyobj :=
  fold_left (fun o kv => setattr o (fst kv) (snd kv)) items media_info.

Definition flag_file_of (file_path : string) : string :=
  Path.join (Path.parent file_path) (".processing_" +:+ Path.stem file_path +:+ ".json").

Definition _trigger_content_processing (file_path source_url : string)
    (media_info : pyobj) : M' unit :=
  try_except
    (media_type <- getattr media_info "media_type" ;;
     t <- call "datetime.now" [] (fun w => let '(t, w') := now_isoformat W E w in (Ret t, w')) ;;
     let processing_flag :=
       JDict [("file_path", JStr file_path);
              ("source", JStr "instagram_download");
              ("source_url", JStr source_url);
              ("media_pk", getattr_default media_info "pk" JNull);
              ("media_type", media_type);
              ("download_timestamp", JStr t);
              ("processed", JBool false)] in
     let flag_file := flag_file_of file_path in
     call "json.dump" [flag_file] (write_json W E flag_file processing_flag) ;;;
     auth_log "CONTENT_PROCESSING_QUEUED" [JStr (Path.name file_path)])
    (fun e =>
       auth_log "CONTENT_PROCESSING_QUEUE_FAILED"
         [JStr (Path.name file_path); JStr (exn_msg e)]).

(** *** The structured download *)

(** Lines 844 to 905 of [download_single_reel]: the download through
    instagrapi under the retry engine, for the extension [ext] and
    the instagrapi call [download]; the path of the file, or the
    message of an early [return False, ...] *)
Definition structured_download (kind : string) (op : string)
    (download : string -> string -> W -> outcome (option string) * W)
    (ext media_pk folder_path : string) : M' (string + string) :=
  let safe_filename := "instagram_" +:+ media_pk in
  let download_path := Path.join folder_path (safe_filename +:+ ext) in
  try_except
    (downloaded_file <-
       Retry._retry_download_with_backoff
         (call op [media_pk; folder_path] (download media_pk folder_path))
         (INSTAGRAM_RETRY_ATTEMPTS W E) ;;
     found <- match downloaded_file with
              | Some file => call "Path.exists" [file] (path_exists W E file)
              | None => ret false
              end ;;
     if found then
       let final_path := Path.join folder_path (safe_filename +:+ ext) in
       (if negb (String.eqb (default "" downloaded_file) final_path)
        then call "Path.rename" [default "" downloaded_file; final_path]
               (rename W E (default "" downloaded_file) final_path)
        else ret tt) ;;;
       ret (inr final_path)
     else
       let pattern := "*" +:+ media_pk +:+ "*" in
       downloaded_files <- call "Path.glob" [folder_path; pattern]
                             (glob W E folder_path pattern) ;;
       match downloaded_files with
       | first :: _ =>
           call "Path.rename" [first; download_path] (rename W E first download_path) ;;;
           ret (inr download_path)
       | [] => ret (inl (kind +:+ " download completed but file not found"))
       end)
    (fun download_error =>
       ret (inl (kind +:+ " download failed: " +:+ exn_msg download_error))).

(** *** [download_single_reel] *)

(** The message of the [except Exception as e] that closes the call *)
Definition boundary_message (error_msg : string) : string :=
  if PyStr.contains "not found" (PyStr.lower error_msg) then "Content not found or private"
  else if PyStr.contains "rate limit" (PyStr.lower error_msg)
  then "Rate limited. Please try again later."
  else "Download failed: " +:+ error_msg.

(** truth value of the optional [download_folder] argument *)
Definition folder_given (download_folder : option string) : bool :=
  match download_folder with
  | Some f => PyStr.truthy f
  | None => false
  end.

(** Lines 709 to 751: session, URL check and primary key; the primary
    key, or the message of an early [return False, ...] *)
Definition prepare (url : string) : M' (string + string) :=
  session_status <- get_session_status ;;
  session <- (if negb (String.eqb session_status "active") then setup_session
              else ret (true, "")) ;;
  if negb (fst session) then ret (inl ("Login required: " +:+ snd session))
  else if negb (Url._validate_instagram_url url) then ret (inl "Invalid Instagram URL format")
  else
    try_except
      (media_pk <- call "client.media_pk_from_url" [url] (media_pk_from_url W E url) ;;
       auth_log "MEDIA_PK_EXTRACTED" [JStr url; JStr media_pk] ;;;
       ret (inr media_pk))
      (fun pk_error =>
         let error_msg := "Failed to extract media PK from URL: " +:+ exn_msg pk_error in
         auth_log "MEDIA_PK_EXTRACTION_FAILED" [JStr url; JStr error_msg] ;;;
         ret (inl error_msg)).

(** Lines 826 to 905: the download itself; the path of the file, or the
    message of an early [return False, ...] *)
Definition acquire (media_pk : string) (media_type : json) (use_fallback : bool)
    (folder_path : string) : M' (string + string) :=
  if use_fallback then
    r <- _fallback_download_direct media_pk media_type folder_path ;;
    let '(success, message, download_path) := r in
    if negb success then ret (inl ("Fallback download failed: " +:+ message))
    else
      match download_path with
      | Some p => ret (inr p)
      | None => raise (PyOps.AttributeError "exists")
      end
  else if Py.eqb media_type (JInt 2) then
    structured_download "Video" "client.video_download" (video_download W E)
      ".mp4" media_pk folder_path
  else
    structured_download "Photo" "client.photo_download" (photo_download W E)
      ".jpg" media_pk folder_path.

(** Lines 907 to 932: the check of the file, the metadata of a fallback
    download and the processing flag *)
Definition conclude (url download_path : string) (media_info : pyobj)
    (use_fallback : bool) : M' (bool * string) :=
  found <- call "Path.exists" [download_path] (path_exists W E download_path) ;;
  if found then
    file_size <- call "Path.stat" [download_path] (stat_size W E download_path) ;;
    auth_log "INSTAGRAM_DOWNLOAD_SUCCESS"
      [JStr url; JStr (Path.name download_path); JInt file_size] ;;;
    media_info <-
      (if use_fallback then
         enhanced_metadata <- _detect_post_download_metadata download_path ;;
         match enhanced_metadata with
         | [] => ret media_info
         | _ =>
             auth_log "POST_DOWNLOAD_METADATA_ENHANCED"
               [JStr (Path.name download_path); JDict enhanced_metadata] ;;;
             ret (set_attributes media_info enhanced_metadata)
         end
       else ret media_info) ;;
    _trigger_content_processing download_path url media_info ;;;
    ret (true, "Downloaded: " +:+ Path.name download_path)
  else ret (false, "Download failed - file not found at expected location").

(** Lines 804 to 821: the folder of the download *)
Definition route (media_type : json) (download_folder : option string) : string :=
  let target_folder :=
    if Py.eqb media_type (JInt 2) then VIDEO_FOLDER W E else INPUT_FOLDER W E in
  if folder_given download_folder then default "" download_folder else target_folder.

(** Lines 804 to 932: routing, download and hand-off, once the media
    descriptor is known *)
Definition deliver (url : string) (download_folder : option string) (media_pk : string)
    (media_info : pyobj) (use_fallback : bool) : M' (bool * string) :=
  media_type <- getattr media_info "media_type" ;;
  let folder_path := route media_type download_folder in
  call "Path.mkdir" [folder_path] (mkdir W E folder_path) ;;;
  downloaded <- acquire media_pk media_type use_fallback folder_path ;;
  match downloaded with
  | inl message => ret (false, message)
  | inr download_path => conclude url download_path media_info use_fallback
  end.

(** The body of the [try] block of [download_single_reel] *)
Definition download_body (url : string) (download_folder : option string)
    : M' (bool * string) :=
  prepared <- prepare url ;;
  match prepared with
  | inl message => ret (false, message)
  | inr media_pk =>
      info <- retrieve_media_info media_pk url ;;
      match info with
      | inl message => ret (false, message)
      | inr (media_info, use_fallback) =>
          deliver url download_folder media_pk media_info use_fallback
      end
  end.

Definition download_single_reel (url : string) (download_folder : option string)
    : M' (bool * string) :=
  if negb (client W E) then ret (false, "Instagram client not available")
  else
    try_except
      (download_body url download_folder)
      (fun e =>
         auth_log "INSTAGRAM_DOWNLOAD_FAILED" [JStr url; JStr (exn_msg e)] ;;;
         ret (false, boundary_message (exn_msg e))).

End Model.

End Downloader.

(** ** Observations on runs *)

Definition is_call (op : string) (ev : event) : bool :=
  match ev with
  | EvCall o _ _ => String.eqb o op
  | EvAuth _ _ => false
  end.

(** the number of calls of [op] recorded in a trace *)
Fixpoint calls_of (op : string) (tr : list event) : nat :=
  match tr with
  | [] => 0
  | ev :: tr' => (if is_call op ev then 1 else 0) + calls_of op tr'
  end.

Definition is_auth (tag : string) (ev : event) : bool :=
  match ev with
  | EvAuth t _ => String.eqb t tag
  | EvCall _ _ _ => false
  end.

(** the trace holds an audit record with this tag *)
Definition logged (tag : string) (tr : list event) : bool := existsb (is_auth tag) tr.

(** Successive invocations of [f] from the world [w], each raising an
    error that the retry engine classifies as retryable; [es] lists the
    errors in the order raised and [w'] is the world they leave. *)
Inductive retryable_failures {W A : Type} (f : W -> outcome A * W)
    : W -> list exn -> W -> Prop :=
| RF_nil (w : W) : retryable_failures f w [] w
| RF_cons (w w1 w2 : W) (e : exn) (es : list exn) :
    f w = (Raise e, w1) ->
    Retry.is_timeout_error e = true ->
    retryable_failures f w1 es w2 ->
    retryable_failures f w (e :: es) w2.

(** [out] is [acc] followed by values none of which equals, in the sense
    of [==], a value before it *)
Inductive extended_without_repeat (acc : list json) : list json -> Prop :=
| EWR_refl : extended_without_repeat acc acc
| EWR_step (out : list json) (u : json) :
    extended_without_repeat acc out ->
    Py.truthy u = true ->
    Py.mem u out = false ->
    extended_without_repeat acc (out ++ [u]).

(** Every event that a run of [m] adds to the trace satisfies [q]. *)
Definition emits {W A : Type} (q : event -> bool) (m : M W A) : Prop :=
  forall s r s', m s = (r, s') ->
    exists evs, trace s' = trace s ++ evs /\ forallb q evs = true.

(** an event that is neither a structured metadata call nor a record of
    [_create_minimal_media_info] *)
Definition quiet (ev : event) : bool :=
  negb (is_call "client.media_info" ev)
  && negb (is_auth "MINIMAL_MEDIA_INFO_CREATED" ev)
  && negb (is_auth "MINIMAL_MEDIA_INFO_CREATION_FAILED" ev).

(** [_create_minimal_media_info] ran: it leaves one of its two records *)
Definition reconstruction_attempted (tr : list event) : bool :=
  logged "MINIMAL_MEDIA_INFO_CREATED" tr || logged "MINIMAL_MEDIA_INFO_CREATION_FAILED" tr.

(** no event of the list is a structured metadata call *)
Definition media_call_free (evs : list event) : bool :=
  forallb (fun ev => negb (is_call "client.media_info" ev)) evs.

(** The events [evs] of a call that ended with [r] tie reconstruction to
    a validation-class failure of the structured metadata call. *)
Definition correlated (r : outcome (bool * string)) (evs : list event) : Prop :=
  (reconstruction_attempted evs = true <->
   exists pk e, In (EvCall "client.media_info" [pk] (Some e)) evs /\
                Downloader.is_validation_error e = true) /\
  (forall pk e,
      In (EvCall "client.media_info" [pk] (Some e)) evs ->
      Downloader.is_validation_error e = false ->
      r = Ret (false, "Failed to get media info: " +:+ exn_msg e) /\
      reconstruction_attempted evs = false).

(** no event of the list concerns the processing flag *)
Definition flag_free (ev : event) : bool :=
  negb (is_call "json.dump" ev)
  && negb (is_auth "CONTENT_PROCESSING_QUEUED" ev)
  && negb (is_auth "CONTENT_PROCESSING_QUEUE_FAILED" ev).



(** ** Scenarios *)

Module Scenario.

Definition read_timeout : exn :=
  Exn "ReadTimeout" "HTTPSConnectionPool(host='i.instagram.com', port=443): Read timed out.".

Definition media_not_found : exn :=
  Exn "MediaNotFound" "Media not found or unavailable".

(** an operation that times out whenever it is invoked; the world
    counts the invocations *)
Definition always_times_out (n : nat) : outcome string * nat :=
  (Raise read_timeout, S n).

(** an operation that times out twice and then fails for good *)
Definition fails_for_good (n : nat) : outcome string * nat :=
  if (n <? 2)%nat then (Raise read_timeout, S n) else (Raise media_not_found, S n).

(** a raw metadata document whose two quality variants carry the same URL *)
Definition repeated_variant : json :=
  JDict [("items", JList [JDict
    [("media_type", JInt 2);
     ("video_versions", JList
        [JDict [("type", JInt 101); ("width", JInt 720); ("height", JInt 1280);
                ("url", JStr "https://scontent.cdninstagram.com/v/t50/clip.mp4")];
         JDict [("type", JInt 102); ("width", JInt 720); ("height", JInt 1280);
                ("url", JStr "https://scontent.cdninstagram.com/v/t50/clip.mp4")]])]]);
         ("status", JStr "ok")].

(** *** An environment for the processor

    The clock is the external state.  A file is an image when it starts
    with the JPEG marker [FF D8]; its 8 by 8 grey grid repeats its
    bytes.  The vision service and the database are up or down. *)

Definition is_jpeg (data : list Byte.byte) : bool :=
  match data with
  | Byte.xff :: Byte.xd8 :: _ => true
  | _ => false
  end.

Definition grey_grid (data : list Byte.byte) : list Z :=
  map (fun i => Hashlib.nthZ (Hashlib.of_bytes data) (Z.of_nat (i mod length data)))
      (seq 0 64).

Definition timestamp (tick : nat) : string :=
  "2024-05-01T10:00:00.00000" +:+ PyStr.of_Z (Z.of_nat tick).

Definition tech_analysis : json :=
  JDict [("category", JStr "Tech"); ("confidence", JFloat (9 # 10));
         ("summary", JStr "A diagram of a build pipeline"); ("key_points", JList []);
         ("useful_content", JStr ""); ("processing_method", JStr "hybrid")].

Definition proc_env (vision_up db_up : bool) : Processor.env nat :=
  {| Processor.INPUT_FOLDER := "input_images";
     Processor.VIDEO_FOLDER := "input_videos";
     Processor.supabase := true;
     Processor.pil_verify := is_jpeg;
     Processor.pil_grey8x8 := fun data => if is_jpeg data then Some (grey_grid data) else None;
     Processor.pil_compress := fun data => if is_jpeg data then Some data else None;
     Processor.cv2_is_opened := fun _ => false;
     Processor.now_isoformat := fun tick => (timestamp tick, S tick);
     Processor.ocr_and_vision := fun _ tick =>
       if vision_up then (Ret tech_analysis, tick)
       else (Raise (Exn "ConnectionError" "Ollama is not reachable"), tick);
     Processor.supabase_insert := fun _ _ _ _ tick =>
       if db_up then (Ret tt, tick)
       else (Raise (Exn "APIError" "insert into content_items failed"), tick);
     Processor.video_pipeline := fun _ tick =>
       (Ret (inl "No frames could be extracted and no audio was found."), tick);
     Processor.py_repr := fun _ => "..." |}.

(** the bytes of a small JPEG-marked file, and of a text file *)
Definition photo_bytes : list Byte.byte :=
  [Byte.xff; Byte.xd8; Byte.xff; Byte.xe0; Byte.x00; Byte.x10; Byte.x4a; Byte.x46;
   Byte.x49; Byte.x46; Byte.x00; Byte.x01].

Definition text_bytes : list Byte.byte := list_byte_of_string "not an image".

Definition machine0 (files : list (string * Processor.file)) : state (Processor.machine nat) :=
  St (Processor.Machine (list_to_map files) ∅ None 0%nat) [].

(** *** An environment for the downloader

    The world lists the files on disk and counts the requests for raw
    metadata.  The session is active.  The first raw document offers two
    URLs, of which the first has expired (404) and the second is refused
    (403); the document fetched again offers the expired URL and a fresh
    one, which succeeds.  The outcome of the structured metadata call,
    whether flag files can be written and whether folders can be created
    are parameters. *)

Record net := Net { files : list string; raw_fetches : nat }.

Definition media_pk : string := "3141592653589793238".
Definition reel_url : string := "https://www.instagram.com/reel/Cxyz123AbC/".
Definition info_url : string :=
  "https://i.instagram.com/api/v1/media/3141592653589793238/info/".
Definition url_expired : string := "https://scontent.cdninstagram.com/v/t50/hd.mp4?oe=65A0".
Definition url_refused : string := "https://scontent.cdninstagram.com/v/t50/sd.mp4?oe=65A0".
Definition url_fresh : string := "https://scontent.cdninstagram.com/v/t50/hd.mp4?oe=65B7".

Definition raw_document (urls : list string) : json :=
  JDict [("items", JList [JDict
    [("media_type", JInt 2);
     ("video_versions", JList (map (fun u => JDict [("width", JInt 720); ("url", JStr u)]) urls))]]);
         ("status", JStr "ok")].

Definition validation_error : exn :=
  Exn "ValidationError"
      "1 validation error for Media clips_metadata.original_sound_info Input should be a valid dictionary".

Definition permission_error : exn :=
  Exn "PermissionError" "[Errno 13] Permission denied".

Definition on_disk (p : string) (w : net) : bool := existsb (String.eqb p) (files w).

Definition add_file (p : string) (w : net) : net := Net (p :: files w) (raw_fetches w).

Definition dl_env (metadata : outcome Downloader.pyobj)
    (flags_writable folders_writable : bool) : Downloader.env net :=
  {| Downloader.client := true;
     Downloader.VIDEO_FOLDER := "input_videos";
     Downloader.INPUT_FOLDER := "input_images";
     Downloader.TEMP_FOLDER := "temp_processing";
     Downloader.INSTAGRAM_RETRY_ATTEMPTS := 3;
     Downloader.keyring_get_password := fun key w => (Ret (Some ("secret_" +:+ key)), w);
     Downloader.load_settings := fun _ w => (Ret tt, w);
     Downloader.account_info := fun w => (Ret "insight_user", w);
     Downloader.get_timeline_feed := fun w => (Ret tt, w);
     Downloader.login := fun _ _ w => (Ret tt, w);
     Downloader.dump_settings := fun p w => (Ret tt, add_file p w);
     Downloader.media_pk_from_url := fun _ w => (Ret media_pk, w);
     Downloader.media_info := fun _ w => (metadata, w);
     Downloader.video_download := fun pk folder w =>
       let p := Path.join folder ("insight_user_" +:+ pk +:+ ".mp4") in
       (Ret (Some p), add_file p w);
     Downloader.photo_download := fun pk folder w =>
       let p := Path.join folder ("insight_user_" +:+ pk +:+ ".jpg") in
       (Ret (Some p), add_file p w);
     Downloader.private_get := fun url _ w =>
       if String.eqb url info_url then
         (Ret (Downloader.Response 200
                 (Ret (if (raw_fetches w =? 0)%nat
                       then raw_document [url_expired; url_refused]
                       else raw_document [url_expired; url_fresh]))),
          Net (files w) (S (raw_fetches w)))
       else if String.eqb url url_expired then
         (Ret (Downloader.Response 404 (Raise (Exn "JSONDecodeError" "Expecting value"))), w)
       else if String.eqb url url_refused then
         (Ret (Downloader.Response 403 (Raise (Exn "JSONDecodeError" "Expecting value"))), w)
       else (Ret (Downloader.Response 200 (Raise (Exn "JSONDecodeError" "Expecting value"))), w);
     Downloader.path_exists := fun p w => (Ret (on_disk p w), w);
     Downloader.mkdir := fun _ w =>
       if folders_writable then (Ret tt, w) else (Raise permission_error, w);
     Downloader.mkdir_parents := fun _ w => (Ret tt, w);
     Downloader.rename := fun a b w =>
       (Ret tt, Net (map (fun p => if String.eqb p a then b else p) (files w)) (raw_fetches w));
     Downloader.glob := fun _ _ w => (Ret [], w);
     Downloader.stat_size := fun p w =>
       if on_disk p w then (Ret 1048576, w) else (Raise (PyOps.FileNotFoundError p), w);
     Downloader.unlink_missing_ok := fun p w =>
       (Ret tt, Net (List.filter (fun q => negb (String.eqb q p)) (files w)) (raw_fetches w));
     Downloader.rmdir := fun _ w => (Ret tt, w);
     Downloader.write_response := fun _ p w => (Ret tt, add_file p w);
     Downloader.write_json := fun p _ w =>
       if flags_writable then (Ret tt, add_file p w) else (Raise permission_error, w);
     Downloader.now_isoformat := fun w => ("2024-05-01T10:00:00.000000", w);
     Downloader.analyze_downloaded_file := fun _ w =>
       (Ret [("file_size", JInt 1048576); ("file_extension", JStr ".mp4");
             ("has_audio", JBool true)], w) |}.

Definition net0 : state net := St (Net ["instagram_session.json"] 0) [].

(** a queue of one flag, for a file that is not a decodable image *)
Definition notes_flag : json :=
  JDict [("file_path", JStr "input_images/notes.jpg");
         ("source", JStr "instagram_download");
         ("source_url", JStr "https://www.instagram.com/p/Cabc123/");
         ("media_pk", JStr "2718281828459045235");
         ("media_type", JInt 1);
         ("download_timestamp", JStr "2024-05-01T09:59:00.000000");
         ("processed", JBool false)].

Definition notes_queue : state (Processor.machine nat) :=
  machine0 [("input_images/notes.jpg", Processor.Raw text_bytes);
            ("input_images/.processing_notes.json", Processor.Doc notes_flag)].

(** two files with the same bytes, waiting in the input folder *)
Definition twins : state (Processor.machine nat) :=
  machine0 [("input_images/a.jpg", Processor.Raw photo_bytes);
            ("input_images/b.jpg", Processor.Raw photo_bytes)].

End Scenario.

(** ** Further observations *)

(** every character of [s] satisfies [p] *)
Fixpoint all_chars (p : ascii -> bool) (s : string) : bool :=
  match s with
  | EmptyString => true
  | String c s' => p c && all_chars p s'
  end.

(** a character of a lower-case hexadecimal numeral *)
Definition is_hex_char (c : ascii) : bool :=
  let n := nat_of_ascii c in
  ((48 <=? n) && (n <=? 57) || (97 <=? n) && (n <=? 102))%nat.

(** a decimal digit *)
Definition is_digit_char (c : ascii) : bool :=
  let n := nat_of_ascii c in ((48 <=? n) && (n <=? 57))%nat.

(** a printing character other than the space *)
Definition is_visible_char (c : ascii) : bool :=
  let n := nat_of_ascii c in ((33 <=? n) && (n <=? 126))%nat.

(** every run of [m] from [s] ends in an outcome and a state that
    satisfy [Q] *)
Definition wp {W A : Type} (m : M W A) (s : state W)
    (Q : outcome A -> state W -> Prop) : Prop :=
  forall r s', m s = (r, s') -> Q r s'.

(** an event that is a call of one of [ops] or an audit record with one
    of [tags] *)
Definition only (ops tags : list string) (ev : event) : bool :=
  match ev with
  | EvCall op _ _ => existsb (String.eqb op) ops
  | EvAuth tag _ => existsb (String.eqb tag) tags
  end.

(** Successive calls of [_download_file_direct_http] for the candidates
    [urls], from the state [s], each answering [False]; [s'] is the state
    they leave. *)
Inductive failed_candidates {W : Type} (E : Downloader.env W) (file_path : string)
    : list json -> state W -> state W -> Prop :=
| FC_nil (s : state W) : failed_candidates E file_path [] s s
| FC_cons (url : json) (urls : list json) (s s1 s2 : state W) :
    Downloader._download_file_direct_http E url file_path s = (Ret false, s1) ->
    failed_candidates E file_path urls s1 s2 ->
    failed_candidates E file_path (url :: urls) s s2.

(** the processing flag that [_trigger_content_processing] hands to
    [json.dump] for a downloaded file *)
Definition queued_flag_items (file_path source_url : string) (media_pk media_type : json)
    (download_timestamp : string) : list (string * json) :=
  [("file_path", JStr file_path);
   ("source", JStr "instagram_download");
   ("source_url", JStr source_url);
   ("media_pk", media_pk);
   ("media_type", media_type);
   ("download_timestamp", JStr download_timestamp);
   ("processed", JBool false)].

Definition queued_flag (file_path source_url : string) (media_pk media_type : json)
    (download_timestamp : string) : json :=
  JDict (queued_flag_items file_path source_url media_pk media_type download_timestamp).

(** ** Further scenarios *)

Module Cases.

(** an operation that times out twice and then returns the path of the
    file it saved *)
Definition times_out_twice (n : nat) : outcome string * nat :=
  if (n <? 2)%nat then (Raise Scenario.read_timeout, S n)
  else (Ret "input_videos/clip.mp4", S n).

(** an environment with another value of [INSTAGRAM_RETRY_ATTEMPTS] *)
Definition with_retry_attempts {W : Type} (n : Z) (E : Downloader.env W) : Downloader.env W :=
  {| Downloader.client := Downloader.client W E;
     Downloader.VIDEO_FOLDER := Downloader.VIDEO_FOLDER W E;
     Downloader.INPUT_FOLDER := Downloader.INPUT_FOLDER W E;
     Downloader.TEMP_FOLDER := Downloader.TEMP_FOLDER W E;
     Downloader.INSTAGRAM_RETRY_ATTEMPTS := n;
     Downloader.keyring_get_password := Downloader.keyring_get_password W E;
     Downloader.load_settings := Downloader.load_settings W E;
     Downloader.account_info := Downloader.account_info W E;
     Downloader.get_timeline_feed := Downloader.get_timeline_feed W E;
     Downloader.login := Downloader.login W E;
     Downloader.dump_settings := Downloader.dump_settings W E;
     Downloader.media_pk_from_url := Downloader.media_pk_from_url W E;
     Downloader.media_info := Downloader.media_info W E;
     Downloader.video_download := Downloader.video_download W E;
     Downloader.photo_download := Downloader.photo_download W E;
     Downloader.private_get := Downloader.private_get W E;
     Downloader.path_exists := Downloader.path_exists W E;
     Downloader.mkdir := Downloader.mkdir W E;
     Downloader.mkdir_parents := Downloader.mkdir_parents W E;
     Downloader.rename := Downloader.rename W E;
     Downloader.glob := Downloader.glob W E;
     Downloader.stat_size := Downloader.stat_size W E;
     Downloader.unlink_missing_ok := Downloader.unlink_missing_ok W E;
     Downloader.rmdir := Downloader.rmdir W E;
     Downloader.write_response := Downloader.write_response W E;
     Downloader.write_json := Downloader.write_json W E;
     Downloader.now_isoformat := Downloader.now_isoformat W E;
     Downloader.analyze_downloaded_file := Downloader.analyze_downloaded_file W E |}.

(** the structured metadata of a reel *)
Definition reel_info : Downloader.pyobj :=
  [("pk", JStr Scenario.media_pk); ("id", JStr "3141592653589793238_1789");
   ("media_type", JInt 2); ("code", JStr "Cxyz123AbC")].

End Cases.

(** ** The endpoint of the browser extension: [LocalServer]

    The handler of [POST /download].  [body] is what
    [request.get_json()] gives: a document, or the error it raises.  A
    reply is the pair that the handler returns: the items handed to
    [jsonify] and the HTTP status, 200 when the handler names none. *)

Module Server.

Record reply := Reply { status : Z; items : list (string * json) }.

(** ['url' in data]: a key of a dict, an element of a list, a part of a
    string; [None] stands for the [TypeError] of a value that is not
    iterable *)
Definition has_url (data : json) : option bool :=
  match data with
  | JDict d => Some (bool_decide (is_Some (Py.assoc "url" d)))
  | JList l => Some (Py.mem (JStr "url") l)
  | JStr s => Some (PyStr.contains "url" s)
  | _ => None
  end.

(** [type(v).__name__] *)
Definition type_name (v : json) : string :=
  match v with
  | JNull => "NoneType"
  | JBool _ => "bool"
  | JInt _ => "int"
  | JFloat _ => "float"
  | JStr _ => "str"
  | JList _ => "list"
  | JDict _ => "dict"
  end.

Definition not_iterable (data : json) : exn :=
  PyOps.TypeError ("argument of type '" +:+ type_name data +:+ "' is not iterable").

(** the URL that passes [_validate_instagram_url]: a value that is not a
    [str] fails [isinstance(url, str)] *)
Definition accepted_url (url : json) : option string :=
  match url with
  | JStr u => if Url._validate_instagram_url u then Some u else None
  | _ => None
  end.

Section Model.
Context {W : Type} (E : Downloader.env W).

(** [request.get_json()] *)
Definition get_json (body : outcome json) : M W json := fun s => (body, s).

Definition download_content (body : outcome json) : M W reply :=
  try_except
    (data <- get_json body ;;
     missing <- (if negb (Py.truthy data) then ret true
                 else match has_url data with
                      | Some found => ret (negb found)
                      | None => raise (not_iterable data)
                      end) ;;
     if (missing : bool) then
       ret (Reply 400 [("success", JBool false); ("message", JStr "Missing URL in request")])
     else
       url <- PyOps.getitem data "url" ;;
       _ <- PyOps.get data "type" (JStr "auto") ;;
       match accepted_url url with
       | None =>
           ret (Reply 400 [("success", JBool false); ("message", JStr "Invalid Instagram URL")])
       | Some u =>
           result <- Downloader.download_single_reel E u None ;;
           let '(success, message) := result in
           if (success : bool) then
             ret (Reply 200 [("success", JBool true); ("message", JStr message);
                             ("folder", JStr "auto-routed")])
           else
             ret (Reply 500 [("success", JBool false); ("message", JStr message)])
       end)
    (fun e =>
       ret (Reply 500 [("success", JBool false);
                       ("message", JStr ("Server error: " +:+ exn_msg e))])).

End Model.

End Server.

(** ** A batch run: [ContentProcessor.process_batch]

    The Streamlit widgets and the check of the Ollama service are calls
    into the environment.  The dict of results is a record of its
    counters and its list of errors; a run that stops before the loop
    answers the text of its ["error"]. *)

Module Batch.

Record ui (X : Type) := Ui {
  (** [self.config.MAX_BATCH_SIZE] *)
  MAX_BATCH_SIZE : Z;
  (** [self.check_ollama_status()] *)
  check_ollama_status : X -> outcome bool * X;
  (** a call of [st], of the progress bar or of the status text *)
  st_call : string -> list string -> X -> outcome unit * X
}.

Record results := Results {
  processed : Z;
  failed : Z;
  errors : list string;
  images_processed : Z;
  videos_processed : Z;
  duplicates_skipped : Z
}.

Definition fresh_results : results := Results 0 0 [] 0 0 0.

(** [results["failed"] += 1; results["errors"].append(error)] *)
Definition record_failure (r : results) (error : string) : results :=
  Results (processed r) (failed r + 1) (errors r ++ [error])
          (images_processed r) (videos_processed r) (duplicates_skipped r).

(** the updates of the counters after a success *)
Definition record_success (r : results) (message file_path : string)
    (image_files : list string) : results :=
  if PyStr.contains "duplicate" (PyStr.lower message) then
    Results (processed r + 1) (failed r) (errors r)
            (images_processed r) (videos_processed r) (duplicates_skipped r + 1)
  else if Processor.mem file_path image_files then
    Results (processed r + 1) (failed r) (errors r)
            (images_processed r + 1) (videos_processed r) (duplicates_skipped r)
  else
    Results (processed r + 1) (failed r) (errors r)
            (images_processed r) (videos_processed r + 1) (duplicates_skipped r).

(** [l[:n]] *)
Definition slice_to {A} (n : Z) (l : list A) : list A :=
  if 0 <=? n then firstn (Z.to_nat n) l
  else firstn (length l - Z.to_nat (- n)) l.

(** [folder_path.glob("*")], files only *)
Definition glob_files (folder : string) (files : gmap string Processor.file) : list string :=
  filter (fun p => String.eqb (Path.parent p) folder = true) (map fst (map_to_list files)).

Section Model.
Context {X : Type} (E : Processor.env X) (U : ui X).

Abbreviation M' := (M (Processor.machine X)).

Definition st (op : string) (args : list string) : M' unit :=
  Processor.call_ext op args (st_call X U op args).

(** the body of [for file_path in folder_path.glob("*")] over the files
    of one folder *)
Fixpoint collect (paths : list string) (image_files video_files : list string)
    : M' (list string * list string) :=
  match paths with
  | [] => ret (image_files, video_files)
  | file_path :: rest =>
      valid <- Processor.validate_file E file_path ;;
      let '(is_valid, file_type) := valid in
      if (is_valid : bool) then
        if String.eqb file_type "image" then
          collect rest (image_files ++ [file_path]) video_files
        else if String.eqb file_type "video" then
          collect rest image_files (video_files ++ [file_path])
        else collect rest image_files video_files
      else collect rest image_files video_files
  end.

Definition collect_folder (folder : string) (image_files video_files : list string)
    : M' (list string * list string) :=
  w <- Processor.get_world ;;
  collect (glob_files folder (Processor.fs w)) image_files video_files.

(** One iteration of [for i, file_path in enumerate(all_files)].  The
    counters are updated in place, so the handler of an error raised by
    the status text after a success works on the counters already
    increased. *)
Definition process_one (total : nat) (image_files : list string) (i : Z)
    (file_path : string) (r : results) : M' results :=
  r' <- try_except
          (st "status_text.text"
              ["Processing"; Path.name file_path; PyStr.of_Z (i + 1);
               PyStr.of_Z (Z.of_nat total)] ;;;
           result <- Processor.process_single_file E file_path ;;
           let '(success, message) := result in
           if (success : bool) then
             let r1 := record_success r message file_path image_files in
             try_except
               (st "status_text.text" [message; Path.name file_path] ;;; ret r1)
               (fun _ => ret (record_failure r1 (Path.name file_path +:+ ": Unexpected error")))
           else ret (record_failure r (Path.name file_path +:+ ": " +:+ message)))
          (fun _ => ret (record_failure r (Path.name file_path +:+ ": Unexpected error"))) ;;
  st "progress_bar.progress" [PyStr.of_Z (i + 1); PyStr.of_Z (Z.of_nat total)] ;;;
  ret r'.

Fixpoint process_files (total : nat) (image_files : list string) (i : Z)
    (files : list string) (r : results) : M' results :=
  match files with
  | [] => ret r
  | file_path :: rest =>
      r' <- process_one total image_files i file_path r ;;
      process_files total image_files (i + 1) rest r'
  end.

Definition process_batch : M' (string + results) :=
  ollama <- Processor.call_ext "check_ollama_status" [] (check_ollama_status X U) ;;
  if negb ollama then ret (inl "Ollama not available")
  else if negb (Processor.supabase X E) then ret (inl "Database not configured")
  else
    found <- collect_folder (Processor.INPUT_FOLDER X E) [] [] ;;
    found <- collect_folder (Processor.VIDEO_FOLDER X E) (fst found) (snd found) ;;
    let '(image_files, video_files) := found in
    let all_files := image_files ++ video_files in
    match all_files with
    | [] => ret (inl "No valid files found")
    | _ =>
        all_files <-
          (if Z.of_nat (length all_files) >? MAX_BATCH_SIZE X U then
             st "st.warning" [PyStr.of_Z (MAX_BATCH_SIZE X U)] ;;;
             ret (slice_to (MAX_BATCH_SIZE X U) all_files)
           else ret all_files) ;;
        st "st.progress" ["0"] ;;;
        st "st.empty" [] ;;;
        r <- process_files (length all_files) image_files 0 all_files fresh_results ;;
        ret (inr r)
    end.

End Model.

End Batch.

(** ** Scenarios of batch runs and videos *)

Module Runs.

(** widgets that work, an Ollama service that answers, and a limit *)
Definition widgets (limit : Z) : Batch.ui nat :=
  {| Batch.MAX_BATCH_SIZE := limit;
     Batch.check_ollama_status := fun tick => (Ret true, tick);
     Batch.st_call := fun _ _ tick => (Ret tt, tick) |}.

(** the same with an Ollama service that is down *)
Definition no_ollama : Batch.ui nat :=
  {| Batch.MAX_BATCH_SIZE := 50;
     Batch.check_ollama_status := fun tick => (Ret false, tick);
     Batch.st_call := fun _ _ tick => (Ret tt, tick) |}.

(** an environment in which every video opens and gives three frames *)
Definition video_env : Processor.env nat :=
  let E := Scenario.proc_env true true in
  {| Processor.INPUT_FOLDER := Processor.INPUT_FOLDER nat E;
     Processor.VIDEO_FOLDER := Processor.VIDEO_FOLDER nat E;
     Processor.supabase := Processor.supabase nat E;
     Processor.pil_verify := Processor.pil_verify nat E;
     Processor.pil_grey8x8 := Processor.pil_grey8x8 nat E;
     Processor.pil_compress := Processor.pil_compress nat E;
     Processor.cv2_is_opened := fun _ => true;
     Processor.now_isoformat := Processor.now_isoformat nat E;
     Processor.ocr_and_vision := Processor.ocr_and_vision nat E;
     Processor.supabase_insert := Processor.supabase_insert nat E;
     Processor.video_pipeline := fun _ tick =>
       (Ret (inr (Scenario.tech_analysis, "9e107d9d372bb6826bd81d3542a419d6", 3)), tick);
     Processor.py_repr := Processor.py_repr nat E |}.

Definition clip : state (Processor.machine nat) :=
  Scenario.machine0 [("input_videos/clip.mp4", Processor.Raw Scenario.photo_bytes)].

(** the processing environment with one folder for images and videos *)
Definition one_folder_env : Processor.env nat :=
  let E := Scenario.proc_env true true in
  {| Processor.INPUT_FOLDER := Processor.INPUT_FOLDER nat E;
     Processor.VIDEO_FOLDER := Processor.INPUT_FOLDER nat E;
     Processor.supabase := Processor.supabase nat E;
     Processor.pil_verify := Processor.pil_verify nat E;
     Processor.pil_grey8x8 := Processor.pil_grey8x8 nat E;
     Processor.pil_compress := Processor.pil_compress nat E;
     Processor.cv2_is_opened := Processor.cv2_is_opened nat E;
     Processor.now_isoformat := Processor.now_isoformat nat E;
     Processor.ocr_and_vision := Processor.ocr_and_vision nat E;
     Processor.supabase_insert := Processor.supabase_insert nat E;
     Processor.video_pipeline := Processor.video_pipeline nat E;
     Processor.py_repr := Processor.py_repr nat E |}.

End Runs.


(** ** Observations on letter case and on the passes of the queue *)

(** [url] holds [pat] spelled in some letter case: a segment of [url]
    whose lower-casing is [pat] *)
Definition holds_in_any_case (pat url : string) : Prop :=
  exists pre seg post, url = pre +:+ seg +:+ post /\ PyStr.lower seg = pat.




(** * Properties *)

(** ** The digests agree with [hashlib] on test vectors *)

Example md5_empty : Hashlib.md5_hexdigest []
  = "d41d8cd98f00b204e9800998ecf8427e".
Proof. vm_compute. reflexivity. Qed.
Example md5_abc : Hashlib.md5_hexdigest (Hashlib.encode "abc")
  = "900150983cd24fb0d6963f7d28e17f72".
Proof. vm_compute. reflexivity. Qed.
Example md5_long : Hashlib.md5_hexdigest (repeat 97 70)
  = "0f5c6c4e740bfcc08c3c26ccb2673d46".
Proof. vm_compute. reflexivity. Qed.
Example sha_empty : Hashlib.sha256_hexdigest []
  = "e3b0c44298fc1c149afbf4c8996fb92427ae41e4649b934ca495991b7852b855".
Proof. vm_compute. reflexivity. Qed.
Example sha_abc : Hashlib.sha256_hexdigest (Hashlib.encode "abc")
  = "ba7816bf8f01cfea414140de5dae2223b00361a396177a9cb410ff61f20015ad".
Proof. vm_compute. reflexivity. Qed.
Example sha_long : Hashlib.sha256_hexdigest (repeat 97 70)
  = "6bd5e5034855a11241f0dee8fc72850ffd9955b28347a86428b5fa19119f6ad0".
Proof. vm_compute. reflexivity. Qed.

(** ** Strings *)

Lemma lower_app (a b : string) :
  PyStr.lower (a +:+ b) = PyStr.lower a +:+ PyStr.lower b.
Proof. induction a as [|c a IH]; simpl; [reflexivity | now rewrite IH]. Qed.

Lemma startswith_app (p s : string) : PyStr.startswith p (p +:+ s) = true.
Proof.
  induction p as [|c p IH]; simpl; [reflexivity |].
  now rewrite Ascii.eqb_refl.
Qed.

Lemma contains_here (n s : string) :
  PyStr.startswith n s = true -> PyStr.contains n s = true.
Proof. intros H. destruct s; simpl in *; rewrite H; reflexivity. Qed.

Lemma contains_skip (n : string) (c : ascii) (s : string) :
  PyStr.contains n s = true -> PyStr.contains n (String c s) = true.
Proof. intros H. cbn [PyStr.contains]. rewrite H. apply orb_true_r. Qed.

Lemma contains_app (n pre post : string) :
  PyStr.contains n (pre +:+ n +:+ post) = true.
Proof.
  induction pre as [|c pre IH].
  - change ("" +:+ n +:+ post) with (n +:+ post).
    apply contains_here, startswith_app.
  - change (String c pre +:+ n +:+ post) with (String c (pre +:+ n +:+ post)).
    apply contains_skip, IH.
Qed.

(** ** The content-type classifier *)

Lemma content_type_video (url : string) :
  PyStr.contains "/reel/" (PyStr.lower url) || PyStr.contains "/tv/" (PyStr.lower url) = true ->
  Url._get_content_type_from_url url = "video".
Proof. intros H. unfold Url._get_content_type_from_url. now rewrite H. Qed.

(** C8, as stated, fails: a post URL is classified as ["auto"], which is
    none of video, image, story, unknown. *)
Lemma content_type_post_is_auto :
  Url._get_content_type_from_url "https://www.instagram.com/p/Cabc123/" = "auto" /\
  ~ In (Url._get_content_type_from_url "https://www.instagram.com/p/Cabc123/")
       ["video"; "image"; "story"; "unknown"].
Proof.
  split; [reflexivity |].
  change (Url._get_content_type_from_url "https://www.instagram.com/p/Cabc123/") with "auto".
  simpl. intros [H | [H | [H | [H | []]]]]; discriminate H.
Qed.

Lemma startswith_prefix (p s : string) :
  PyStr.startswith p s = true -> exists rest, s = p +:+ rest.
Proof.
  revert s. induction p as [|a p IH]; intros s H; [now exists s |].
  destruct s as [|b s]; [discriminate H |]. cbn [PyStr.startswith] in H.
  destruct (Ascii.eqb a b) eqn:Hab; [| discriminate H].
  apply Ascii.eqb_eq in Hab. subst b. destruct (IH s H) as [rest ->]. now exists rest.
Qed.

Lemma contains_segment (n s : string) :
  PyStr.contains n s = true -> exists pre post, s = pre +:+ n +:+ post.
Proof.
  induction s as [|c s IH]; cbn [PyStr.contains]; intros H.
  - rewrite orb_false_r in H. destruct (startswith_prefix n "" H) as [rest Hr].
    exists "", rest. exact Hr.
  - apply orb_true_iff in H as [H | H].
    + destruct (startswith_prefix n _ H) as [rest Hr]. exists "", rest. exact Hr.
    + destruct (IH H) as (pre & post & ->). now exists (String c pre), post.
Qed.

Lemma lower_cut (a b u : string) :
  PyStr.lower u = a +:+ b ->
  exists u1 u2, u = u1 +:+ u2 /\ PyStr.lower u1 = a /\ PyStr.lower u2 = b.
Proof.
  revert u. induction a as [|x a IH]; intros u H.
  - exists "", u. repeat split. exact H.
  - destruct u as [|c u]; [discriminate H |].
    change (String x a +:+ b) with (String x (a +:+ b)) in H.
    cbn [PyStr.lower] in H. injection H as Hc Hu.
    destruct (IH u Hu) as (u1 & u2 & -> & H1 & H2).
    exists (String c u1), u2. repeat split; [| exact H2]. cbn [PyStr.lower]. now rewrite Hc, H1.
Qed.

(** the test [pat in url.lower()] finds [pat] in any letter case *)
Lemma contains_lower_iff (pat url : string) :
  PyStr.contains pat (PyStr.lower url) = true <-> holds_in_any_case pat url.
Proof.
  split.
  - intros H. destruct (contains_segment _ _ H) as (a & b & Hab).
    destruct (lower_cut _ _ _ Hab) as (pre & rest & -> & Hpre & Hrest).
    destruct (lower_cut _ _ _ Hrest) as (seg & post & -> & Hseg & Hpost).
    now exists pre, seg, post.
  - intros (pre & seg & post & -> & Hseg).
    rewrite !lower_app, Hseg. apply contains_app.
Qed.

(** C8, amended: for every URL the classifier answers one of video, auto,
    story, unknown, never image.  The answer is video exactly when the
    URL holds [/reel/] or [/tv/] spelled in any letter case; it is auto
    exactly when the URL holds neither and holds [/p/] in some letter
    case, and story exactly when it holds none of the three and holds
    [/stories/]. *)
Theorem content_type_range (url : string) :
  let kind := Url._get_content_type_from_url url in
  let video := holds_in_any_case "/reel/" url \/ holds_in_any_case "/tv/" url in
  In kind ["video"; "auto"; "story"; "unknown"] /\
  kind <> "image" /\
  (kind = "video" <-> video) /\
  (kind = "auto" <-> ~ video /\ holds_in_any_case "/p/" url) /\
  (kind = "story" <->
   ~ video /\ ~ holds_in_any_case "/p/" url /\ holds_in_any_case "/stories/" url) /\
  (kind = "unknown" <->
   ~ video /\ ~ holds_in_any_case "/p/" url /\ ~ holds_in_any_case "/stories/" url).
Proof.
  cbv zeta. unfold Url._get_content_type_from_url.
  rewrite <- !contains_lower_iff.
  destruct (PyStr.contains "/reel/" (PyStr.lower url));
    destruct (PyStr.contains "/tv/" (PyStr.lower url));
    destruct (PyStr.contains "/p/" (PyStr.lower url));
    destruct (PyStr.contains "/stories/" (PyStr.lower url)); cbn [orb In].
  all: repeat split; try tauto; try discriminate; try (intros; exfalso; intuition discriminate);
    try (intuition discriminate).
Qed.

(** ** The retry engine *)

Lemma calls_of_app (op : string) (tr1 tr2 : list event) :
  calls_of op (tr1 ++ tr2) = (calls_of op tr1 + calls_of op tr2)%nat.
Proof. induction tr1 as [|ev tr1 IH]; simpl; [reflexivity | rewrite IH; lia]. Qed.

Lemma is_call_refl (op : string) (args : list string) (r : option exn) :
  is_call op (EvCall op args r) = true.
Proof. simpl. apply String.eqb_refl. Qed.

Section RetryFacts.
Context {W A : Type}.
Variable f : W -> outcome A * W.
Variables (op : string) (args : list string).
Variable N : Z.

Local Abbreviation run := (Retry.attempts (A := A) (call op args f) N).

(** a retryable failure before the last iteration: the loop goes on *)
Lemma attempt_retry (r : nat) (attempt : Z) (w w1 : W) (e : exn) (tr : list event) :
  f w = (Raise e, w1) ->
  Retry.is_timeout_error e = true ->
  attempt < N - 1 ->
  exists tr1,
    run (S r) attempt (St w tr) = run r (attempt + 1) (St w1 tr1) /\
    calls_of op tr1 = (calls_of op tr + 1)%nat.
Proof.
  intros Hf He Hlt.
  eexists. split.
  - cbn [Retry.attempts]. unfold try_except, bind, call, auth_log, ret.
    cbn [world trace]. rewrite Hf. cbn [raised_of]. rewrite He.
    cbn [world trace]. apply Z.ltb_lt in Hlt. rewrite Hlt. reflexivity.
  - cbn [world trace]. rewrite !calls_of_app. cbn [calls_of is_call]. rewrite String.eqb_refl. simpl. lia.
Qed.

(** a retryable failure in the last iteration: the terminal error *)
Lemma attempt_exhausted (r : nat) (attempt : Z) (w w1 : W) (e : exn) (tr : list event) :
  f w = (Raise e, w1) ->
  Retry.is_timeout_error e = true ->
  N - 1 <= attempt ->
  exists tr1,
    run (S r) attempt (St w tr) = (Raise (Retry.timeout_exception N e), St w1 tr1) /\
    calls_of op tr1 = (calls_of op tr + 1)%nat.
Proof.
  intros Hf He Hge.
  eexists. split.
  - cbn [Retry.attempts]. unfold try_except, bind, call, auth_log, ret, raise.
    cbn [world trace]. rewrite Hf. cbn [raised_of]. rewrite He.
    cbn [world trace]. apply Z.ltb_ge in Hge. rewrite Hge. reflexivity.
  - cbn [world trace]. rewrite !calls_of_app. cbn [calls_of is_call]. rewrite String.eqb_refl. simpl. lia.
Qed.

(** an error that is not retryable is raised again at once *)
Lemma attempt_fatal (r : nat) (attempt : Z) (w w1 : W) (e : exn) (tr : list event) :
  f w = (Raise e, w1) ->
  Retry.is_timeout_error e = false ->
  exists tr1,
    run (S r) attempt (St w tr) = (Raise e, St w1 tr1) /\
    calls_of op tr1 = (calls_of op tr + 1)%nat.
Proof.
  intros Hf He.
  eexists. split.
  - cbn [Retry.attempts]. unfold try_except, bind, call, auth_log, ret, raise.
    cbn [world trace]. rewrite Hf. cbn [raised_of]. rewrite He. reflexivity.
  - cbn [world trace]. rewrite !calls_of_app. cbn [calls_of is_call]. rewrite String.eqb_refl. simpl. lia.
Qed.

Lemma attempts_all_retryable :
  (forall w, exists e w', f w = (Raise e, w') /\ Retry.is_timeout_error e = true) ->
  forall (r : nat) (attempt : Z) (w : W) (tr : list event),
    attempt + Z.of_nat (S r) = N ->
    exists es e_last w' tr',
      retryable_failures f w (es ++ [e_last]) w' /\
      length (es ++ [e_last]) = S r /\
      run (S r) attempt (St w tr) = (Raise (Retry.timeout_exception N e_last), St w' tr') /\
      calls_of op tr' = (calls_of op tr + S r)%nat.
Proof.
  intros Hall. induction r as [|r IH]; intros attempt w tr Hsum.
  - destruct (Hall w) as (e & w1 & Hf & He).
    destruct (attempt_exhausted 0 attempt w w1 e tr Hf He) as (tr1 & Hrun & Hc); [lia |].
    exists [], e, w1, tr1. repeat split; [| exact Hrun | exact Hc].
    simpl. econstructor; [exact Hf | exact He | constructor].
  - destruct (Hall w) as (e & w1 & Hf & He).
    destruct (attempt_retry (S r) attempt w w1 e tr Hf He) as (tr1 & Hrun & Hc); [lia |].
    destruct (IH (attempt + 1) w1 tr1) as (es & e_last & w' & tr' & Hrf & Hlen & Hrun' & Hc');
      [lia |].
    exists (e :: es), e_last, w', tr'. repeat split.
    + simpl. econstructor; eassumption.
    + simpl. now rewrite Hlen.
    + now rewrite Hrun.
    + lia.
Qed.

Lemma attempts_fatal_after (w : W) (es : list exn) (wk : W) :
  retryable_failures f w es wk ->
  forall (wk' : W) (e : exn) (r : nat) (attempt : Z) (tr : list event),
    f wk = (Raise e, wk') ->
    Retry.is_timeout_error e = false ->
    (length es < r)%nat ->
    attempt + Z.of_nat r = N ->
    exists tr',
      run r attempt (St w tr) = (Raise e, St wk' tr') /\
      calls_of op tr' = (calls_of op tr + length es + 1)%nat.
Proof.
  intros Hrf.
  induction Hrf as [w | w w1 w2 e0 es Hf0 He0 Hrest IH];
    intros wk' e r attempt tr Hf He Hlen Hsum.
  - destruct r as [|r]; [simpl in Hlen; lia |].
    destruct (attempt_fatal r attempt w wk' e tr Hf He) as (tr1 & Hrun & Hc).
    exists tr1. split; [exact Hrun | simpl; lia].
  - destruct r as [|r]; [simpl in Hlen; lia |]. simpl in Hlen.
    destruct (attempt_retry r attempt w w1 e0 tr Hf0 He0) as (tr1 & Hrun & Hc); [lia |].
    destruct (IH wk' e r (attempt + 1) tr1 Hf He) as (tr' & Hrun' & Hc');
      [lia | lia |].
    exists tr'. split; [now rewrite Hrun | simpl; lia].
Qed.
End RetryFacts.

Lemma timeout_exception_is_timeout (N : Z) (e : exn) :
  Retry.is_timeout_error (Retry.timeout_exception N e) = true.
Proof.
  unfold Retry.is_timeout_error, Retry.timeout_exception. cbn [exn_msg].
  rewrite lower_app.
  match goal with
  | |- context [PyStr.lower "Download timeout after " +:+ ?rest] =>
      change (PyStr.lower "Download timeout after " +:+ rest)
        with ("download " +:+ "timeout" +:+ " after " +:+ rest)
  end.
  unfold Retry.timeout_keywords, PyStr.any_in. cbn [existsb].
  rewrite contains_app. reflexivity.
Qed.

(** C3: with [max_retries = N >= 1], when every invocation raises a
    retryable error the operation is invoked exactly [N] times and the
    engine raises the terminal error ["Download timeout after N retries:
    ..."], which the engine's own classifier tells apart from every error
    it re-raises as fatal; and when, after any number of retryable
    failures below [N], an invocation raises an error that is not
    retryable, that error is raised again at once, with no further
    invocation. *)
Theorem retry_exhausts_or_aborts {W A : Type} (f : W -> outcome A * W)
    (op : string) (args : list string) (N : Z) (s : state W) :
  1 <= N ->
  ((forall w, exists e w', f w = (Raise e, w') /\ Retry.is_timeout_error e = true) ->
   exists es e_last w' tr',
     retryable_failures f (world s) (es ++ [e_last]) w' /\
     Z.of_nat (length (es ++ [e_last])) = N /\
     Retry._retry_download_with_backoff (call op args f) N s
       = (Raise (Retry.timeout_exception N e_last), St w' tr') /\
     Z.of_nat (calls_of op tr') = Z.of_nat (calls_of op (trace s)) + N /\
     (forall e, Retry.is_timeout_error e = false -> Retry.timeout_exception N e_last <> e))
  /\
  (forall es wk e wk',
     retryable_failures f (world s) es wk ->
     Z.of_nat (length es) < N ->
     f wk = (Raise e, wk') ->
     Retry.is_timeout_error e = false ->
     exists tr',
       Retry._retry_download_with_backoff (A := A) (call op args f) N s = (Raise e, St wk' tr') /\
       calls_of op tr' = (calls_of op (trace s) + length es + 1)%nat).
Proof.
  intros HN. destruct s as [w tr]. unfold Retry._retry_download_with_backoff. split.
  - intros Hall.
    destruct (Z.to_nat N) as [|r] eqn:HNr; [lia |].
    destruct (attempts_all_retryable f op args N Hall r 0 w tr) as
      (es & e_last & w' & tr' & Hrf & Hlen & Hrun & Hc); [lia |].
    exists es, e_last, w', tr'. repeat split; try assumption.
    + rewrite Hlen. lia.
    + cbn [trace]. rewrite Hc. lia.
    + intros e He Heq. rewrite <- Heq, timeout_exception_is_timeout in He. discriminate He.
  - intros es wk e wk' Hrf Hlen Hf He. cbn [world] in Hrf.
    apply (attempts_fatal_after f op args N w es wk Hrf wk' e (Z.to_nat N) 0 tr Hf He); lia.
Qed.

Lemma retry_exhausts_or_aborts_witness :
  1 <= 3 /\
  (exists e_last tr',
      Retry._retry_download_with_backoff (call "download_func" [] Scenario.always_times_out) 3
        (St 0%nat []) = (Raise (Retry.timeout_exception 3 e_last), St 3%nat tr') /\
      calls_of "download_func" tr' = 3%nat) /\
  (exists tr',
      Retry._retry_download_with_backoff (call "download_func" [] Scenario.fails_for_good) 5
        (St 0%nat []) = (Raise Scenario.media_not_found, St 3%nat tr') /\
      calls_of "download_func" tr' = 3%nat).
Proof.
  split; [lia |]. split.
  - destruct (retry_exhausts_or_aborts Scenario.always_times_out "download_func" [] 3
                (St 0%nat [])) as [Ha _]; [lia |].
    destruct Ha as (es & e_last & w' & tr' & _ & _ & Hrun & Hc & _).
    { intros w. eexists _, _. split; reflexivity. }
    assert (Hw : w' = 3%nat) by (vm_compute in Hrun; congruence).
    subst w'. exists e_last, tr'. split; [exact Hrun |].
    cbn [trace calls_of] in Hc. lia.
  - destruct (retry_exhausts_or_aborts (A := string) Scenario.fails_for_good "download_func" [] 5
                (St 0%nat [])) as [_ Hb]; [lia |].
    destruct (Hb [Scenario.read_timeout; Scenario.read_timeout] 2%nat
                Scenario.media_not_found 3%nat) as (tr' & Hrun & Hc).
    + repeat (econstructor; try reflexivity).
    + simpl. lia.
    + reflexivity.
    + reflexivity.
    + exists tr'. split; [exact Hrun | exact Hc].
Defined.

(** ** Candidate URLs *)

Lemma ewr_trans (a b c : list json) :
  extended_without_repeat a b -> extended_without_repeat b c -> extended_without_repeat a c.
Proof. intros Hab Hbc. induction Hbc; [assumption | now constructor]. Qed.

Lemma carousel_version_urls_ewr (versions : list json) :
  forall acc out,
    Extract.carousel_version_urls versions acc = Some out ->
    extended_without_repeat acc out.
Proof.
  induction versions as [|v versions IH]; intros acc out H; simpl in H.
  - injection H as <-. constructor.
  - destruct (Py.get v "url" JNull) as [url|]; [| discriminate H].
    destruct (Py.truthy url) eqn:Ht; simpl in H; [| now apply IH].
    destruct (Py.mem url acc) eqn:Hm; simpl in H; [now apply IH |].
    apply IH in H. eapply ewr_trans; [| exact H].
    apply EWR_step; [constructor | exact Ht | exact Hm].
Qed.

Lemma carousel_urls_ewr (video : bool) (carousel_media : list json) :
  forall acc out,
    Extract.carousel_urls video carousel_media acc = Some out ->
    extended_without_repeat acc out.
Proof.
  induction carousel_media as [|item rest IH]; intros acc out H; simpl in H.
  - injection H as <-. constructor.
  - destruct (Py.get item "media_type" JNull) as [mt|]; [| discriminate H].
    destruct (Py.eqb mt _); [| now apply IH].
    destruct (Extract.versions_of video item) as [vs|]; [| discriminate H].
    destruct (Py.iter vs) as [versions|]; [| discriminate H].
    destruct (Extract.carousel_version_urls versions acc) as [acc'|] eqn:Hc; [| discriminate H].
    eapply ewr_trans; [eapply carousel_version_urls_ewr; exact Hc | now apply IH].
Qed.

Lemma ewr_prefix (acc out : list json) :
  extended_without_repeat acc out -> exists extra, out = acc ++ extra.
Proof.
  induction 1 as [|out u _ [extra ->] _ _].
  - exists []. now rewrite app_nil_r.
  - exists (extra ++ [u]). now rewrite app_assoc.
Qed.

(** Order: the candidates are the URLs of the primary variants, in the
    order of the document, followed by carousel URLs, each of which is
    new when it is added. *)
Lemma extract_order (raw_data media_type : json) (out : list json) :
  Extract.extract_body raw_data media_type = Some out ->
  out = [] \/
  exists media_item vs versions primary,
    Extract.versions_of (Py.eqb media_type (JInt 2)) media_item = Some vs /\
    Py.iter vs = Some versions /\
    Extract.primary_urls versions [] = Some primary /\
    extended_without_repeat primary out.
Proof.
  unfold Extract.extract_body. intros H.
  destruct (Py.get raw_data "items" (JList [])) as [items|]; [| discriminate H]. simpl in H.
  destruct (Py.truthy items); simpl in H; [| left; congruence].
  destruct (Py.first items) as [media_item|]; [| discriminate H]. simpl in H.
  destruct (Extract.versions_of _ media_item) as [vs|] eqn:Hvs; [| discriminate H]. simpl in H.
  destruct (Py.iter vs) as [versions|] eqn:Hit; [| discriminate H]. simpl in H.
  destruct (Extract.primary_urls versions []) as [primary|] eqn:Hp; [| discriminate H]. simpl in H.
  destruct (Py.get media_item "carousel_media" (JList [])) as [cm|]; [| discriminate H]. simpl in H.
  destruct (Py.iter cm) as [carousel_media|]; [| discriminate H]. simpl in H.
  right. exists media_item, vs, versions, primary. repeat split; try assumption.
  eapply carousel_urls_ewr. exact H.
Qed.

(** C7 at the failing input: two quality variants with one URL give a
    candidate list that holds this URL twice. *)
Theorem extract_keeps_repeated_variant :
  Extract._extract_all_download_urls_from_raw_data Scenario.repeated_variant (JInt 2)
    = [JStr "https://scontent.cdninstagram.com/v/t50/clip.mp4";
       JStr "https://scontent.cdninstagram.com/v/t50/clip.mp4"] /\
  ~ NoDup (Extract._extract_all_download_urls_from_raw_data Scenario.repeated_variant (JInt 2)).
Proof.
  assert (H : Extract._extract_all_download_urls_from_raw_data Scenario.repeated_variant (JInt 2)
              = [JStr "https://scontent.cdninstagram.com/v/t50/clip.mp4";
                 JStr "https://scontent.cdninstagram.com/v/t50/clip.mp4"])
    by (vm_compute; reflexivity).
  split; [exact H |]. rewrite H. intros Hnd.
  apply NoDup_cons in Hnd as [Hnotin _]. apply Hnotin. constructor.
Qed.

(** ** Fingerprints *)

Ltac mred :=
  cbv beta iota zeta delta
    [bind ret raise try_except call auth_log raised_of
     Processor.read_file Processor.get_world Processor.modify Processor.exists_
     Processor.write_file Processor.remove Processor.set_cache Processor.save_hash_cache
     Processor.now Processor.call_ext];
  cbn [world trace fst snd Processor.fs Processor.hash_cache Processor.hash_cache_json
       Processor.ext].

Lemma calculate_image_hash_decodable {X : Type} (E : Processor.env X) (image_path : string)
    (data : list Byte.byte) (pixels : list Z) (s : state (Processor.machine X)) :
  Processor.fs (world s) !! image_path = Some (Processor.Raw data) ->
  Processor.pil_grey8x8 X E data = Some pixels ->
  pixels <> [] ->
  Processor.calculate_image_hash E image_path s = (Ret (Processor.combined_hash data pixels), s).
Proof.
  intros Hfs Hgrey Hne. unfold Processor.calculate_image_hash. mred.
  rewrite Hfs, Hgrey. destruct pixels; [contradiction | reflexivity].
Qed.

(** C9, as stated, fails: a file that Pillow cannot decode is hashed from
    the clock, so two calls over the same bytes give two fingerprints. *)
Lemma fingerprint_of_undecodable_file_changes :
  let E := Scenario.proc_env true true in
  let p := "input_images/notes.jpg" in
  let s0 := Scenario.machine0 [(p, Processor.Raw Scenario.text_bytes)] in
  exists h1 s1 h2 s2,
    Processor.calculate_image_hash E p s0 = (Ret h1, s1) /\
    Processor.calculate_image_hash E p s1 = (Ret h2, s2) /\
    Processor.fs (world s0) !! p = Some (Processor.Raw Scenario.text_bytes) /\
    Processor.fs (world s1) !! p = Some (Processor.Raw Scenario.text_bytes) /\
    h1 = "5bce6c38444cf6e3eff3c407f6b643bf" /\
    h2 = "24465f7808f89dbbc38cc0376f420e68" /\
    h1 <> h2.
Proof.
  cbv zeta. do 4 eexists.
  split; [vm_compute; reflexivity |].
  split; [vm_compute; reflexivity |].
  split; [vm_compute; reflexivity |].
  split; [vm_compute; reflexivity |].
  split; [reflexivity |]. split; [reflexivity |]. discriminate.
Qed.

(** C9, amended: for a file that Pillow decodes, the fingerprint is a
    function of the bytes of the file alone; two calls, in whatever states
    of the clock and of the cache, return the same string and leave the
    state as it is. *)
Theorem fingerprint_deterministic {X : Type} (E : Processor.env X) (image_path : string)
    (data : list Byte.byte) (pixels : list Z) (s s' : state (Processor.machine X)) :
  Processor.fs (world s) !! image_path = Some (Processor.Raw data) ->
  Processor.fs (world s') !! image_path = Some (Processor.Raw data) ->
  Processor.pil_grey8x8 X E data = Some pixels ->
  pixels <> [] ->
  exists h,
    Processor.calculate_image_hash E image_path s = (Ret h, s) /\
    Processor.calculate_image_hash E image_path s' = (Ret h, s') /\
    h = Hashlib.md5_hexdigest
          (Hashlib.encode
             (Hashlib.sha256_hexdigest (Hashlib.of_bytes data) +:+ "_"
              +:+ Processor.perceptual_hash pixels)).
Proof.
  intros Hs Hs' Hgrey Hne. exists (Processor.combined_hash data pixels).
  split; [| split]; [now apply calculate_image_hash_decodable..| reflexivity].
Qed.

Lemma fingerprint_deterministic_witness :
  let E := Scenario.proc_env true true in
  let p := "input_images/a.jpg" in
  let s := Scenario.machine0 [(p, Processor.Raw Scenario.photo_bytes)] in
  let s' := St (Processor.Machine (Processor.fs (world s)) ∅ None 7%nat) [] in
  Processor.fs (world s) !! p = Some (Processor.Raw Scenario.photo_bytes) /\
  Processor.pil_grey8x8 nat E Scenario.photo_bytes = Some (Scenario.grey_grid Scenario.photo_bytes) /\
  exists h,
    Processor.calculate_image_hash E p s = (Ret h, s) /\
    Processor.calculate_image_hash E p s' = (Ret h, s') /\
    h = "122db951459e3ef8912cd926fe277223".
Proof.
  cbv zeta.
  split; [vm_compute; reflexivity |]. split; [reflexivity |].
  destruct (fingerprint_deterministic (Scenario.proc_env true true) "input_images/a.jpg"
              Scenario.photo_bytes (Scenario.grey_grid Scenario.photo_bytes)
              (Scenario.machine0 [("input_images/a.jpg", Processor.Raw Scenario.photo_bytes)])
              (St (Processor.Machine
                     (Processor.fs (world (Scenario.machine0
                        [("input_images/a.jpg", Processor.Raw Scenario.photo_bytes)]))) ∅ None 7%nat) []))
    as (h & H1 & H2 & Hh).
  - vm_compute; reflexivity.
  - vm_compute; reflexivity.
  - reflexivity.
  - vm_compute; discriminate.
  - exists h. split; [exact H1 |]. split; [exact H2 |]. rewrite Hh. vm_compute. reflexivity.
Defined.

(** ** Footprints of the downloader *)

Lemma emits_ret {W A} (q : event -> bool) (a : A) : emits (W := W) q (ret a).
Proof. intros s r s' H. injection H as <- <-. exists []. now rewrite app_nil_r. Qed.

Lemma emits_raise {W A} (q : event -> bool) (e : exn) : emits (W := W) (A := A) q (raise e).
Proof. intros s r s' H. injection H as <- <-. exists []. now rewrite app_nil_r. Qed.

Lemma emits_bind {W A B} (q : event -> bool) (m : M W A) (k : A -> M W B) :
  emits q m -> (forall a, emits q (k a)) -> emits q (bind m k).
Proof.
  intros Hm Hk s r s' H. unfold bind in H.
  destruct (m s) as [[a | e] s1] eqn:Hms; destruct (Hm _ _ _ Hms) as (evs1 & Ht1 & Hq1).
  - destruct (Hk a _ _ _ H) as (evs2 & Ht2 & Hq2).
    exists (evs1 ++ evs2). rewrite Ht2, Ht1, app_assoc, forallb_app, Hq1, Hq2. now split.
  - injection H as <- <-. now exists evs1.
Qed.

Lemma emits_try {W A} (q : event -> bool) (m : M W A) (h : exn -> M W A) :
  emits q m -> (forall e, emits q (h e)) -> emits q (try_except m h).
Proof.
  intros Hm Hh s r s' H. unfold try_except in H.
  destruct (m s) as [[a | e] s1] eqn:Hms; destruct (Hm _ _ _ Hms) as (evs1 & Ht1 & Hq1).
  - injection H as <- <-. now exists evs1.
  - destruct (Hh e _ _ _ H) as (evs2 & Ht2 & Hq2).
    exists (evs1 ++ evs2). rewrite Ht2, Ht1, app_assoc, forallb_app, Hq1, Hq2. now split.
Qed.

Lemma emits_call {W A} (q : event -> bool) (op : string) (args : list string)
    (f : W -> outcome A * W) :
  (forall o, q (EvCall op args o) = true) -> emits q (call op args f).
Proof.
  intros Hq s r s' H. unfold call in H. destruct (f (world s)) as [o w'].
  injection H as <- <-. eexists. split; [reflexivity |]. simpl. now rewrite Hq.
Qed.

Lemma emits_auth {W} (q : event -> bool) (tag : string) (fields : list json) :
  q (EvAuth tag fields) = true -> emits (W := W) q (auth_log tag fields).
Proof.
  intros Hq s r s' H. injection H as <- <-. eexists. split; [reflexivity |].
  simpl. now rewrite Hq.
Qed.

Create HintDb emits.

Ltac emits_step :=
  first
    [ apply emits_ret
    | apply emits_raise
    | apply emits_auth; reflexivity
    | apply emits_call; intros ?; reflexivity
    | solve [auto with emits nocore]
    | apply emits_bind; [| intros ?]
    | apply emits_try; [| intros ?]
    | match goal with
      | |- emits _ (match ?x with _ => _ end) => destruct x
      end ].

Ltac emits_auto := repeat emits_step.

Section Footprints.
Context {W : Type} (E : Downloader.env W).

Lemma getattr_quiet (o : Downloader.pyobj) (a : string) :
  emits (W := W) quiet (Downloader.getattr o a).
Proof. unfold Downloader.getattr. emits_auto. Qed.
Hint Resolve getattr_quiet : emits.

Lemma get_quiet (v : json) (k : string) (d : json) : emits (W := W) quiet (PyOps.get v k d).
Proof. unfold PyOps.get. emits_auto. Qed.
Hint Resolve get_quiet : emits.

Lemma credentials_quiet : emits quiet (Downloader.get_instagram_credentials E).
Proof. unfold Downloader.get_instagram_credentials. emits_auto. Qed.
Hint Resolve credentials_quiet : emits.

Lemma username_quiet : emits quiet (Downloader.INSTAGRAM_USERNAME E).
Proof. unfold Downloader.INSTAGRAM_USERNAME. emits_auto. Qed.
Lemma password_quiet : emits quiet (Downloader.INSTAGRAM_PASSWORD E).
Proof. unfold Downloader.INSTAGRAM_PASSWORD. emits_auto. Qed.
Hint Resolve username_quiet password_quiet : emits.

Lemma get_session_status_quiet : emits quiet (Downloader.get_session_status E).
Proof. unfold Downloader.get_session_status. emits_auto. Qed.

Lemma fresh_login_quiet : emits quiet (Downloader.fresh_login E).
Proof. unfold Downloader.fresh_login. emits_auto. Qed.
Hint Resolve get_session_status_quiet fresh_login_quiet : emits.

Lemma setup_session_quiet : emits quiet (Downloader.setup_session E).
Proof. unfold Downloader.setup_session. emits_auto. Qed.
Hint Resolve setup_session_quiet : emits.

Lemma prepare_quiet (url : string) : emits quiet (Downloader.prepare E url).
Proof. unfold Downloader.prepare. emits_auto. Qed.

Hint Resolve prepare_quiet : emits.

Lemma probe_quiet (op : string)
    (download : string -> string -> W -> outcome (option string) * W) (pk temp : string) :
  (forall args o, quiet (EvCall op args o) = true) ->
  emits quiet (Downloader.probe E op download pk temp).
Proof.
  intros Hop. unfold Downloader.probe.
  apply emits_try; [| intros ?; emits_auto].
  apply emits_bind; [apply emits_call; intros; apply Hop | intros ?; emits_auto].
Qed.

Lemma detect_media_type_quiet (pk url : string) :
  emits quiet (Downloader._detect_media_type_fallback E pk url).
Proof.
  unfold Downloader._detect_media_type_fallback.
  assert (Hv : emits quiet (Downloader.probe E "client.video_download"
                              (Downloader.video_download W E) pk
                              (Path.join (Downloader.TEMP_FOLDER W E) ("probe_" +:+ pk))))
    by (apply probe_quiet; reflexivity).
  assert (Hp : emits quiet (Downloader.probe E "client.photo_download"
                              (Downloader.photo_download W E) pk
                              (Path.join (Downloader.TEMP_FOLDER W E) ("probe_" +:+ pk))))
    by (apply probe_quiet; reflexivity).
  emits_auto.
Qed.
Hint Resolve detect_media_type_quiet : emits.

Lemma get_raw_media_data_quiet (pk : string) :
  emits quiet (Downloader._get_raw_media_data E pk).
Proof. unfold Downloader._get_raw_media_data. emits_auto. Qed.

Lemma write_downloaded_file_quiet (resp : Downloader.response) (p : string) :
  emits quiet (Downloader._write_downloaded_file E resp p).
Proof. unfold Downloader._write_downloaded_file. emits_auto. Qed.

Lemma get_candidate_quiet (url : json) (h : Downloader.headers) :
  emits quiet (Downloader.get_candidate E url h).
Proof. unfold Downloader.get_candidate. emits_auto. Qed.
Hint Resolve get_raw_media_data_quiet write_downloaded_file_quiet get_candidate_quiet : emits.

Lemma try_fresh_urls_quiet (urls : list json) (original : json) (p : string) :
  emits quiet (Downloader.try_fresh_urls E urls original p).
Proof. induction urls as [|u urls IH]; cbn [Downloader.try_fresh_urls]; emits_auto. Qed.
Hint Resolve try_fresh_urls_quiet : emits.

Lemma retry_with_fresh_url_quiet (url : json) (p : string) :
  emits quiet (Downloader._retry_with_fresh_url E url p).
Proof. unfold Downloader._retry_with_fresh_url. emits_auto. Qed.

Lemma retry_with_enhanced_auth_quiet (url : json) (p : string) :
  emits quiet (Downloader._retry_with_enhanced_auth E url p).
Proof. unfold Downloader._retry_with_enhanced_auth. emits_auto. Qed.
Hint Resolve retry_with_fresh_url_quiet retry_with_enhanced_auth_quiet : emits.

Lemma download_file_direct_http_quiet (url : json) (p : string) :
  emits quiet (Downloader._download_file_direct_http E url p).
Proof. unfold Downloader._download_file_direct_http. emits_auto. Qed.
Hint Resolve download_file_direct_http_quiet : emits.

Lemma try_urls_quiet (urls : list json) (p : string) :
  emits quiet (Downloader.try_urls E urls p).
Proof. induction urls as [|u urls IH]; cbn [Downloader.try_urls]; emits_auto. Qed.
Hint Resolve try_urls_quiet : emits.

Lemma download_with_url_fallbacks_quiet (urls : list json) (p : string) :
  emits quiet (Downloader._download_with_url_fallbacks E urls p).
Proof. unfold Downloader._download_with_url_fallbacks. emits_auto. Qed.
Hint Resolve download_with_url_fallbacks_quiet : emits.

Lemma fallback_download_direct_quiet (pk : string) (mt : json) (folder : string) :
  emits quiet (Downloader._fallback_download_direct E pk mt folder).
Proof. unfold Downloader._fallback_download_direct. emits_auto. Qed.

Lemma detect_post_download_metadata_quiet (p : string) :
  emits quiet (Downloader._detect_post_download_metadata E p).
Proof. unfold Downloader._detect_post_download_metadata. emits_auto. Qed.

Lemma trigger_content_processing_quiet (p url : string) (mi : Downloader.pyobj) :
  emits quiet (Downloader._trigger_content_processing E p url mi).
Proof. unfold Downloader._trigger_content_processing. emits_auto. Qed.
Hint Resolve fallback_download_direct_quiet detect_post_download_metadata_quiet
  trigger_content_processing_quiet : emits.

Lemma attempts_quiet {A} (download_func : M W A) (N : Z) (remaining : nat) :
  emits quiet download_func ->
  forall attempt, emits quiet (Retry.attempts download_func N remaining attempt).
Proof.
  intros Hd. induction remaining as [|r IH]; intros attempt; cbn [Retry.attempts]; emits_auto.
Qed.

Lemma structured_download_quiet (kind op : string)
    (download : string -> string -> W -> outcome (option string) * W)
    (ext pk folder : string) :
  (forall args o, quiet (EvCall op args o) = true) ->
  emits quiet (Downloader.structured_download E kind op download ext pk folder).
Proof.
  intros Hop. unfold Downloader.structured_download, Retry._retry_download_with_backoff.
  assert (Hd : forall attempt,
             emits quiet (Retry.attempts (call op [pk; folder] (download pk folder))
                            (Downloader.INSTAGRAM_RETRY_ATTEMPTS W E)
                            (Z.to_nat (Downloader.INSTAGRAM_RETRY_ATTEMPTS W E)) attempt))
    by (apply attempts_quiet, emits_call; intros; apply Hop).
  emits_auto.
Qed.

Lemma acquire_quiet (pk : string) (mt : json) (fb : bool) (folder : string) :
  emits quiet (Downloader.acquire E pk mt fb folder).
Proof.
  unfold Downloader.acquire.
  assert (Hv := structured_download_quiet "Video" "client.video_download"
                  (Downloader.video_download W E) ".mp4" pk folder (fun _ _ => eq_refl)).
  assert (Hp := structured_download_quiet "Photo" "client.photo_download"
                  (Downloader.photo_download W E) ".jpg" pk folder (fun _ _ => eq_refl)).
  emits_auto.
Qed.

Lemma conclude_quiet (url p : string) (mi : Downloader.pyobj) (fb : bool) :
  emits quiet (Downloader.conclude E url p mi fb).
Proof. unfold Downloader.conclude. emits_auto. Qed.
Hint Resolve acquire_quiet conclude_quiet : emits.

Lemma deliver_quiet (url : string) (folder : option string) (pk : string)
    (mi : Downloader.pyobj) (fb : bool) :
  emits quiet (Downloader.deliver E url folder pk mi fb).
Proof. unfold Downloader.deliver. emits_auto. Qed.

End Footprints.

(** ** When the descriptor is reconstructed *)

Lemma logged_app (tag : string) (a b : list event) :
  logged tag (a ++ b) = logged tag a || logged tag b.
Proof. apply existsb_app. Qed.

Lemma reconstruction_app (a b : list event) :
  reconstruction_attempted (a ++ b) = reconstruction_attempted a || reconstruction_attempted b.
Proof.
  unfold reconstruction_attempted. rewrite !logged_app.
  destruct (logged _ a), (logged _ b), (logged _ a), (logged _ b); reflexivity.
Qed.

Lemma media_call_free_app (a b : list event) :
  media_call_free (a ++ b) = media_call_free a && media_call_free b.
Proof. apply forallb_app. Qed.

Lemma quiet_no_reconstruction (evs : list event) :
  forallb quiet evs = true -> reconstruction_attempted evs = false.
Proof.
  induction evs as [|ev evs IH]; [reflexivity |]. cbn [forallb]. intros H.
  apply andb_true_iff in H as [Hq Hrest]. specialize (IH Hrest).
  change (ev :: evs) with ([ev] ++ evs). rewrite reconstruction_app, IH, orb_false_r.
  unfold quiet in Hq. apply andb_true_iff in Hq as [Hq H3]. apply andb_true_iff in Hq as [_ H2].
  apply negb_true_iff in H2, H3.
  unfold reconstruction_attempted, logged. cbn [existsb]. now rewrite H2, H3.
Qed.

Lemma quiet_media_call_free (evs : list event) :
  forallb quiet evs = true -> media_call_free evs = true.
Proof.
  induction evs as [|ev evs IH]; [reflexivity |]. cbn [forallb]. intros H.
  apply andb_true_iff in H as [Hq Hrest].
  change (media_call_free (ev :: evs))
    with (negb (is_call "client.media_info" ev) && media_call_free evs).
  rewrite (IH Hrest), andb_true_r.
  unfold quiet in Hq. apply andb_true_iff in Hq as [Hq _]. now apply andb_true_iff in Hq as [Hq _].
Qed.

Lemma media_call_free_not_in (evs : list event) (pk : string) (o : option exn) :
  media_call_free evs = true -> ~ In (EvCall "client.media_info" [pk] o) evs.
Proof.
  intros Hfree Hin. unfold media_call_free in Hfree.
  rewrite forallb_forall in Hfree. specialize (Hfree _ Hin). discriminate Hfree.
Qed.

Section Reconstruction.
Context {W : Type} (E : Downloader.env W).

Lemma create_minimal_spec (pk url : string) (s : state W)
    (r : outcome (option Downloader.pyobj)) (s' : state W) :
  Downloader._create_minimal_media_info E pk url s = (r, s') ->
  exists evs, trace s' = trace s ++ evs /\
    reconstruction_attempted evs = true /\ media_call_free evs = true.
Proof.
  unfold Downloader._create_minimal_media_info, try_except, bind. intros H.
  destruct (Downloader._detect_media_type_fallback E pk url s) as [[mt | e] s1] eqn:Hd;
    destruct (detect_media_type_quiet E pk url _ _ _ Hd) as (evs1 & Ht & Hq);
    unfold auth_log, ret in H; cbn [world trace] in H; injection H as <- <-;
    cbn [trace]; rewrite Ht, <- app_assoc; eexists; (split; [reflexivity |]);
    rewrite reconstruction_app, media_call_free_app, (quiet_media_call_free _ Hq);
    (split; [apply orb_true_r | reflexivity]).
Qed.

Lemma retrieve_spec (pk url : string) (s : state W)
    (r : outcome (string + Downloader.pyobj * bool)) (s' : state W) :
  Downloader.retrieve_media_info E pk url s = (r, s') ->
  exists o rest,
    trace s' = trace s ++ EvCall "client.media_info" [pk] o :: rest /\
    media_call_free rest = true /\
    match o with
    | Some e =>
        if Downloader.is_validation_error e then reconstruction_attempted rest = true
        else reconstruction_attempted rest = false /\
             r = Ret (inl ("Failed to get media info: " +:+ exn_msg e))
    | None =>
        reconstruction_attempted rest = false /\
        match r with
        | Ret (inr (_, use_fallback)) => use_fallback = false
        | _ => True
        end
    end.
Proof.
  unfold Downloader.retrieve_media_info, try_except, bind, call. intros H.
  destruct (Downloader.media_info W E pk (world s)) as [[mi | e] w1] eqn:Hmi;
    cbn [raised_of world trace] in H.
  - unfold Downloader.getattr in H.
    destruct (Py.assoc "media_type" mi) as [mt |];
      unfold auth_log, ret, raise in H; cbn [world trace] in H.
    + injection H as <- <-. exists None. eexists. cbn [trace].
      rewrite <- app_assoc. split; [reflexivity |]. repeat split.
    + change (Downloader.is_validation_error
                (Exn "AttributeError" ("object has no attribute '" +:+ "media_type" +:+ "'")))
        with false in H. cbn [world trace] in H.
      injection H as <- <-. exists None. eexists. cbn [trace].
      rewrite <- app_assoc. split; [reflexivity |]. repeat split.
  - destruct (Downloader.is_validation_error e) eqn:Hv;
      unfold auth_log, ret in H; cbn [world trace] in H.
    + destruct (Downloader._create_minimal_media_info E pk url _) as [[minimal | e1] s1] eqn:Hc;
        destruct (create_minimal_spec _ _ _ _ _ Hc) as (evs & Ht & Hrec & Hfree);
        cbn [trace] in Ht.
      * assert (Hgoal : forall tail, media_call_free tail = true ->
                  trace s' = trace s1 ++ tail ->
                  exists o rest,
                    trace s' = trace s ++ EvCall "client.media_info" [pk] o :: rest /\
                    media_call_free rest = true /\
                    match o with
                    | Some e0 =>
                        if Downloader.is_validation_error e0
                        then reconstruction_attempted rest = true
                        else reconstruction_attempted rest = false /\
                             r = Ret (inl ("Failed to get media info: " +:+ exn_msg e0))
                    | None =>
                        reconstruction_attempted rest = false /\
                        match r with
                        | Ret (inr (_, use_fallback)) => use_fallback = false
                        | _ => True
                        end
                    end).
        { intros tail Htail Hs'. exists (Some e). eexists. rewrite Hs', Ht.
          rewrite <- !app_assoc. cbn [app]. split; [reflexivity |]. rewrite Hv.
          change (EvAuth "VALIDATION_ERROR_FALLBACK_ACTIVATED" [JStr pk; JStr (exn_type e)]
                    :: evs ++ tail)
            with ([EvAuth "VALIDATION_ERROR_FALLBACK_ACTIVATED" [JStr pk; JStr (exn_type e)]]
                    ++ evs ++ tail).
          rewrite !media_call_free_app, Hfree, Htail.
          split; [reflexivity |].
          rewrite !reconstruction_app, Hrec. apply orb_true_r. }
        destruct minimal as [info |].
        -- unfold Downloader.getattr in H.
           destruct (Py.assoc "media_type" info); unfold raise in H; cbn [world trace] in H;
             injection H as <- <-; cbn [trace].
           ++ apply (Hgoal [EvAuth "FALLBACK_MEDIA_INFO_CREATED" [JStr pk; j]]); reflexivity.
           ++ apply (Hgoal []); [reflexivity | now rewrite app_nil_r].
        -- injection H as <- <-. cbn [trace].
           apply (Hgoal [EvAuth "FALLBACK_MEDIA_INFO_FAILED" [JStr pk]]); reflexivity.
      * injection H as <- <-. exists (Some e). eexists. rewrite Ht.
        rewrite <- !app_assoc. cbn [app]. split; [reflexivity |]. rewrite Hv.
        change (EvAuth "VALIDATION_ERROR_FALLBACK_ACTIVATED" [JStr pk; JStr (exn_type e)] :: evs)
          with ([EvAuth "VALIDATION_ERROR_FALLBACK_ACTIVATED" [JStr pk; JStr (exn_type e)]]
                  ++ evs).
        rewrite media_call_free_app, Hfree. split; [reflexivity |].
        rewrite reconstruction_app, Hrec. apply orb_true_r.
    + injection H as <- <-. exists (Some e). eexists. cbn [trace].
      rewrite <- app_assoc. split; [reflexivity |]. rewrite Hv. repeat split.
Qed.

End Reconstruction.

Lemma correlated_quiet (r : outcome (bool * string)) (evs : list event) :
  forallb quiet evs = true -> correlated r evs.
Proof.
  intros Hq. pose proof (quiet_no_reconstruction _ Hq) as Hrec.
  pose proof (quiet_media_call_free _ Hq) as Hfree. split.
  - rewrite Hrec. split; [discriminate |].
    intros (pk & e & Hin & _). now apply media_call_free_not_in in Hin.
  - intros pk e Hin. now apply media_call_free_not_in in Hin.
Qed.

Lemma correlated_with_call (r : outcome (bool * string)) (evs1 rest evs3 : list event)
    (pk : string) (o : option exn) :
  forallb quiet evs1 = true ->
  forallb quiet evs3 = true ->
  media_call_free rest = true ->
  match o with
  | Some e =>
      if Downloader.is_validation_error e then reconstruction_attempted rest = true
      else reconstruction_attempted rest = false /\
           r = Ret (false, "Failed to get media info: " +:+ exn_msg e)
  | None => reconstruction_attempted rest = false
  end ->
  correlated r (evs1 ++ (EvCall "client.media_info" [pk] o :: rest) ++ evs3).
Proof.
  intros Hq1 Hq3 Hfree Ho.
  assert (Hrec : reconstruction_attempted
                   (evs1 ++ (EvCall "client.media_info" [pk] o :: rest) ++ evs3)
                 = reconstruction_attempted rest).
  { change (EvCall "client.media_info" [pk] o :: rest)
      with ([EvCall "client.media_info" [pk] o] ++ rest).
    rewrite !reconstruction_app, (quiet_no_reconstruction _ Hq1),
      (quiet_no_reconstruction _ Hq3). cbn. now rewrite orb_false_r. }
  assert (Hin : forall pk' e',
             In (EvCall "client.media_info" [pk'] (Some e'))
                (evs1 ++ (EvCall "client.media_info" [pk] o :: rest) ++ evs3) ->
             o = Some e').
  { intros pk' e' H. apply in_app_or in H as [H | H].
    { now apply media_call_free_not_in in H; [| apply quiet_media_call_free]. }
    apply in_app_or in H as [[H | H] | H].
    - congruence.
    - now apply media_call_free_not_in in H.
    - now apply media_call_free_not_in in H; [| apply quiet_media_call_free]. }
  unfold correlated. rewrite Hrec. split.
  - split.
    + intros Hr. destruct o as [e |]; [| rewrite Ho in Hr; discriminate Hr].
      destruct (Downloader.is_validation_error e) eqn:Hv.
      * exists pk, e. split; [| exact Hv]. apply in_or_app. right. now left.
      * destruct Ho as [Ho _]. rewrite Ho in Hr. discriminate Hr.
    + intros (pk' & e' & H & Hv). apply Hin in H. subst o. now rewrite Hv in Ho.
  - intros pk' e' H Hv. apply Hin in H. subst o. rewrite Hv in Ho.
    destruct Ho as [Ho ->]. now split.
Qed.

Lemma download_body_correlated {W : Type} (E : Downloader.env W) (url : string)
    (folder : option string) (s : state W) (r : outcome (bool * string)) (s' : state W) :
  Downloader.download_body E url folder s = (r, s') ->
  exists evs, trace s' = trace s ++ evs /\ correlated r evs /\
              (forall e, r = Raise e -> forall r', correlated r' evs).
Proof.
  unfold Downloader.download_body, bind. intros H.
  destruct (Downloader.prepare E url s) as [[[message | pk] | e] s1] eqn:Hp;
    destruct (prepare_quiet E url _ _ _ Hp) as (evs1 & Ht1 & Hq1).
  - injection H as <- <-. exists evs1. split; [exact Ht1 |].
    split; [| intros]; now apply correlated_quiet.
  - destruct (Downloader.retrieve_media_info E pk url s1) as [[[message | [mi fb]] | e] s2] eqn:Hr;
      destruct (retrieve_spec E pk url _ _ _ Hr) as (o & rest & Ht2 & Hfree & Ho).
    + injection H as <- <-. exists (evs1 ++ (EvCall "client.media_info" [pk] o :: rest) ++ []).
      rewrite Ht2, Ht1, app_nil_r, <- app_assoc. split; [reflexivity |].
      rewrite <- (app_nil_r rest) at 1.
      change (EvCall "client.media_info" [pk] o :: rest ++ [])
        with ((EvCall "client.media_info" [pk] o :: rest) ++ []).
      split; [| intros e He; discriminate He].
      apply correlated_with_call; try assumption; [reflexivity |].
      destruct o as [e |]; [| tauto].
      destruct (Downloader.is_validation_error e); [exact Ho |].
      destruct Ho as [Ho Heq]. injection Heq as ->. now split.
    + destruct (deliver_quiet E url folder pk mi fb _ _ _ H) as (evs3 & Ht3 & Hq3).
      exists (evs1 ++ (EvCall "client.media_info" [pk] o :: rest) ++ evs3).
      rewrite Ht3, Ht2, Ht1, <- !app_assoc. split; [reflexivity |].
      assert (Hall : forall r', correlated r'
                       (evs1 ++ (EvCall "client.media_info" [pk] o :: rest) ++ evs3)).
      { intros r'. apply correlated_with_call; try assumption.
        destruct o as [e |]; [| tauto].
        destruct (Downloader.is_validation_error e); [exact Ho |].
        destruct Ho as [_ Heq]. discriminate Heq. }
      cbn [app] in Hall |- *. split; [apply Hall | intros; apply Hall].
    + injection H as <- <-. exists (evs1 ++ (EvCall "client.media_info" [pk] o :: rest) ++ []).
      rewrite Ht2, Ht1, app_nil_r, <- app_assoc. split; [reflexivity |].
      assert (Hall : forall r', correlated r'
                       (evs1 ++ (EvCall "client.media_info" [pk] o :: rest) ++ [])).
      { intros r'. apply correlated_with_call; try assumption; [reflexivity |].
        destruct o as [e0 |]; [| tauto].
        destruct (Downloader.is_validation_error e0); [exact Ho |].
        destruct Ho as [_ Heq]. discriminate Heq. }
      rewrite app_nil_r in Hall. cbn [app] in Hall |- *.
      split; [apply Hall | intros; apply Hall].
  - injection H as <- <-. exists evs1. split; [exact Ht1 |].
    split; [| intros]; now apply correlated_quiet.
Qed.

Lemma correlated_snoc_quiet (r : outcome (bool * string)) (evs : list event) (ev : event) :
  correlated r evs -> quiet ev = true -> correlated r (evs ++ [ev]).
Proof.
  intros [Hiff Hfail] Hq.
  assert (Hq1 : forallb quiet [ev] = true) by (cbn; now rewrite Hq).
  assert (Hrec : reconstruction_attempted (evs ++ [ev]) = reconstruction_attempted evs)
    by (rewrite reconstruction_app, (quiet_no_reconstruction _ Hq1); apply orb_false_r).
  assert (Hin : forall pk e, In (EvCall "client.media_info" [pk] (Some e)) (evs ++ [ev]) ->
                             In (EvCall "client.media_info" [pk] (Some e)) evs).
  { intros pk e H. apply in_app_or in H as [H | H]; [exact H |].
    now apply media_call_free_not_in in H; [| apply quiet_media_call_free]. }
  unfold correlated. rewrite Hrec. split.
  - rewrite Hiff. split; intros (pk & e & H & Hv); exists pk, e; (split; [| exact Hv]).
    + apply in_or_app. now left.
    + now apply Hin.
  - intros pk e H Hv. apply Hin in H. now apply (Hfail pk e).
Qed.

(** ** The boundary of [download_single_reel] *)

(** C5, amended: for every environment, URL, folder and state the call
    returns a pair and raises nothing; an error that leaves the body of
    the [try], recovered by no handler inside it, reaches the [except]
    closing the function and gives [False] with one of its three
    messages. *)
Theorem download_never_raises {W : Type} (E : Downloader.env W) (url : string)
    (download_folder : option string) (s : state W) :
  exists ok message s',
    Downloader.download_single_reel E url download_folder s = (Ret (ok, message), s') /\
    (forall e s1,
        Downloader.client W E = true ->
        Downloader.download_body E url download_folder s = (Raise e, s1) ->
        ok = false /\ message = Downloader.boundary_message (exn_msg e) /\
        In message ["Content not found or private"; "Rate limited. Please try again later.";
                    "Download failed: " +:+ exn_msg e]).
Proof.
  unfold Downloader.download_single_reel.
  destruct (Downloader.client W E) eqn:Hc; cbn [negb].
  - unfold try_except.
    destruct (Downloader.download_body E url download_folder s) as [[[ok message] | e] s1] eqn:Hb.
    + exists ok, message, s1. split; [reflexivity |]. intros e s2 _ H. discriminate H.
    + eexists false, _, _. split; [reflexivity |].
      intros e' s2 _ H. injection H as <- <-. split; [reflexivity |]. split; [reflexivity |].
      unfold Downloader.boundary_message.
      destruct (PyStr.contains "not found" _); [now left |].
      destruct (PyStr.contains "rate limit" _); [right; now left | right; right; now left].
  - eexists false, _, _. split; [reflexivity |]. intros e s1 H. discriminate H.
Qed.

(** C6, amended: in every call, [_create_minimal_media_info] runs if and
    only if the structured metadata call raised an error that passes the
    test of the code (its type name holds [ValidationError] or its
    lower-cased message holds [validation]), whatever the kind of the
    error; and when that call raised any other error, the call
    returns [False] with ["Failed to get media info: ..."] and no
    reconstruction takes place. *)
Theorem reconstruction_iff_validation_failure {W : Type} (E : Downloader.env W)
    (url : string) (download_folder : option string) (s : state W) :
  exists evs,
    trace (snd (Downloader.download_single_reel E url download_folder s)) = trace s ++ evs /\
    (reconstruction_attempted evs = true <->
     exists pk e, In (EvCall "client.media_info" [pk] (Some e)) evs /\
                  Downloader.is_validation_error e = true) /\
    (forall pk e,
        In (EvCall "client.media_info" [pk] (Some e)) evs ->
        Downloader.is_validation_error e = false ->
        fst (Downloader.download_single_reel E url download_folder s)
          = Ret (false, "Failed to get media info: " +:+ exn_msg e) /\
        reconstruction_attempted evs = false).
Proof.
  unfold Downloader.download_single_reel.
  destruct (Downloader.client W E); cbn [negb].
  - unfold try_except.
    destruct (Downloader.download_body E url download_folder s) as [[res | e] s1] eqn:Hb;
      destruct (download_body_correlated E url download_folder s _ _ Hb)
        as (evs & Ht & Hcorr & Hraise).
    + exists evs. cbn [fst snd]. split; [exact Ht | exact Hcorr].
    + unfold bind, auth_log, ret. cbn [fst snd world trace].
      exists (evs ++ [EvAuth "INSTAGRAM_DOWNLOAD_FAILED" [JStr url; JStr (exn_msg e)]]).
      rewrite Ht, <- app_assoc. split; [reflexivity |].
      apply correlated_snoc_quiet; [| reflexivity]. now apply (Hraise e).
  - exists []. cbn [fst snd]. rewrite app_nil_r. split; [reflexivity |].
    now apply correlated_quiet.
Qed.

(** ** The hand-off after a download *)

Section HandOff.
Context {W : Type} (E : Downloader.env W).

Lemma detect_post_download_metadata_returns (p : string) (s : state W) :
  exists md s',
    Downloader._detect_post_download_metadata E p s = (Ret md, s') /\
    exists o, trace s' = trace s ++ [EvCall "analyze_downloaded_file" [p] o].
Proof.
  unfold Downloader._detect_post_download_metadata, try_except, call, ret.
  destruct (Downloader.analyze_downloaded_file W E p (world s)) as [[md | e] w'];
    eexists _, _; (split; [reflexivity |]); eexists; reflexivity.
Qed.

(** [_trigger_content_processing] raises nothing; when its one attempt
    to write the flag raises, it leaves the record of the failure and not
    the record of a queued file. *)
Lemma trigger_content_processing_spec (p url : string) (mi : Downloader.pyobj) (s : state W) :
  exists s' evs,
    Downloader._trigger_content_processing E p url mi s = (Ret tt, s') /\
    trace s' = trace s ++ evs /\
    (calls_of "json.dump" evs <= 1)%nat /\
    (forall e,
        In (EvCall "json.dump" [Downloader.flag_file_of p] (Some e)) evs ->
        logged "CONTENT_PROCESSING_QUEUE_FAILED" evs = true /\
        logged "CONTENT_PROCESSING_QUEUED" evs = false) /\
    (logged "CONTENT_PROCESSING_QUEUED" evs = true ->
     In (EvCall "json.dump" [Downloader.flag_file_of p] None) evs).
Proof.
  unfold Downloader._trigger_content_processing, try_except, bind, Downloader.getattr.
  destruct (Py.assoc "media_type" mi) as [mt |]; unfold ret, raise, call, auth_log;
    cbn [world trace].
  - destruct (Downloader.now_isoformat W E (world s)) as [t w1]. cbn [world trace raised_of].
    destruct (Downloader.write_json W E _ _ w1) as [[[] | e] w2]; cbn [world trace raised_of];
      eexists _, _; (split; [reflexivity |]); rewrite <- !app_assoc;
      (split; [reflexivity |]); cbn; (split; [lia |]).
    + split; [| intros _; right; now left].
      intros e [H | [H | [H | []]]]; discriminate H.
    + split; [| discriminate]. intros e' _. now split.
  - eexists _, _. split; [reflexivity |]. split; [reflexivity |]. cbn. split; [lia |].
    split; [| discriminate]. intros e [H | []]. discriminate H.
Qed.

Lemma flag_free_facts (evs : list event) :
  forallb flag_free evs = true ->
  calls_of "json.dump" evs = 0%nat /\
  logged "CONTENT_PROCESSING_QUEUED" evs = false /\
  logged "CONTENT_PROCESSING_QUEUE_FAILED" evs = false /\
  forall args o, ~ In (EvCall "json.dump" args o) evs.
Proof.
  induction evs as [|ev evs IH]; [cbn; tauto |]. cbn [forallb]. intros H.
  apply andb_true_iff in H as [Hq Hrest]. destruct (IH Hrest) as (H1 & H2 & H3 & H4).
  unfold flag_free in Hq. apply andb_true_iff in Hq as [Hq Hc]. apply andb_true_iff in Hq as [Ha Hb].
  apply negb_true_iff in Ha, Hb, Hc.
  cbn [calls_of logged existsb]. fold (logged "CONTENT_PROCESSING_QUEUED" evs).
  fold (logged "CONTENT_PROCESSING_QUEUE_FAILED" evs).
  rewrite Ha, Hb, Hc, H1, H2, H3. repeat split.
  intros args o [Heq | Hin]; [subst ev; cbn in Ha; discriminate Ha | now apply H4 in Hin].
Qed.

(** C10 at the last stage: when the downloaded file is found, [conclude]
    answers success whatever the metadata analysis and the writing of the
    flag do. *)
Lemma conclude_spec (url p : string) (mi : Downloader.pyobj) (fb : bool) (s : state W)
    (w1 w2 : W) (size : Z) :
  Downloader.path_exists W E p (world s) = (Ret true, w1) ->
  Downloader.stat_size W E p w1 = (Ret size, w2) ->
  exists s' evs,
    Downloader.conclude E url p mi fb s = (Ret (true, "Downloaded: " +:+ Path.name p), s') /\
    trace s' = trace s ++ evs /\
    (calls_of "json.dump" evs <= 1)%nat /\
    (forall e,
        In (EvCall "json.dump" [Downloader.flag_file_of p] (Some e)) evs ->
        logged "CONTENT_PROCESSING_QUEUE_FAILED" evs = true /\
        logged "CONTENT_PROCESSING_QUEUED" evs = false).
Proof.
  intros Hex Hst. unfold Downloader.conclude, bind, call. rewrite Hex. cbn [world trace raised_of].
  rewrite Hst. unfold auth_log, ret. cbn [world trace raised_of].
  set (s1 := St w2 _).
  assert (Hpre : exists mi' s2 pre,
             (if fb
              then
                match Downloader._detect_post_download_metadata E p s1 with
                | (Ret enhanced_metadata, s') =>
                    match enhanced_metadata with
                    | [] => fun s0 => (Ret mi, s0)
                    | _ :: _ =>
                        fun s0 =>
                          (Ret (Downloader.set_attributes mi enhanced_metadata),
                           St (world s0)
                              (trace s0 ++
                               [EvAuth "POST_DOWNLOAD_METADATA_ENHANCED"
                                  [JStr (Path.name p); JDict enhanced_metadata]]))
                    end s'
                | (Raise e, s') => (Raise e, s')
                end
              else (Ret mi, s1)) = (Ret mi', s2) /\
             trace s2 = trace s ++ pre /\ forallb flag_free pre = true).
  { destruct fb.
    - destruct (detect_post_download_metadata_returns p s1) as (md & s2 & -> & o & Ht).
      destruct md as [|kv md]; eexists _, _, _; (split; [reflexivity |]); cbn [world trace];
        rewrite Ht; unfold s1; cbn [trace]; rewrite <- !app_assoc; (split; [reflexivity |]);
        reflexivity.
    - eexists _, _, _. split; [reflexivity |]. unfold s1. cbn [trace]. rewrite <- !app_assoc.
      split; reflexivity. }
  destruct Hpre as (mi' & s2 & pre & Hrun & Ht2 & Hfree).
  destruct (trigger_content_processing_spec p url mi' s2) as (s3 & evs & Htr & Ht3 & Hle & Hfail & _).
  exists s3, (pre ++ evs).
  destruct (flag_free_facts _ Hfree) as (Hc0 & Hq0 & Hf0 & Hnot).
  split; [| split; [| split]].
  - assert (Hgo : forall m st, (Ret mi', s2) = (Ret m, st) ->
               match Downloader._trigger_content_processing E p url m st with
               | (Ret _, st') => (Ret (true, "Downloaded: " +:+ Path.name p), st')
               | (Raise e, st') => (Raise e, st')
               end = (Ret (true, "Downloaded: " +:+ Path.name p), s3)).
    { intros m st Heq. injection Heq as <- <-. now rewrite Htr. }
    destruct fb.
    + destruct (Downloader._detect_post_download_metadata E p s1) as [[md | e] s'];
        [| discriminate Hrun].
      destruct md; apply Hgo; symmetry; exact Hrun.
    + apply Hgo. symmetry. exact Hrun.
  - now rewrite Ht3, Ht2, <- app_assoc.
  - rewrite calls_of_app, Hc0. exact Hle.
  - intros e Hin. apply in_app_or in Hin as [Hin | Hin]; [now apply Hnot in Hin |].
    destruct (Hfail e Hin) as [H1 H2]. rewrite !logged_app, H1, H2, Hq0. split; [apply orb_true_r | reflexivity].
Qed.

End HandOff.

(** ** The end-to-end runs of [download_single_reel] *)

Lemma contains_slash_app (a b : string) :
  PyStr.contains "/" (a +:+ b) = PyStr.contains "/" a || PyStr.contains "/" b.
Proof.
  induction a as [|c a IH].
  - change ("" +:+ b) with b. reflexivity.
  - change (String c a +:+ b) with (String c (a +:+ b)).
    cbn [PyStr.contains PyStr.startswith]. rewrite IH.
    destruct (Ascii.eqb "/" c); [reflexivity |]. cbn [orb].
    destruct a; reflexivity.
Qed.

Lemma name_join (folder n : string) :
  PyStr.contains "/" n = false -> Path.name (Path.join folder n) = n.
Proof.
  intros Hn. unfold Path.join. induction folder as [|c folder IH].
  - change ("" +:+ "/" +:+ n) with (String "/" n). cbn [Path.name]. now rewrite Hn.
  - change (String c folder +:+ "/" +:+ n) with (String c (folder +:+ "/" +:+ n)).
    cbn [Path.name]. now rewrite contains_app.
Qed.

Section EndToEnd.
Context {W : Type} (E : Downloader.env W).

(** Once the primary key and the media descriptor are known, the folder
    is made and the download gives a path, the call ends as [conclude]
    does on that path. *)
Lemma download_runs_to_conclusion (url : string) (folder : option string) (pk : string)
    (mi : Downloader.pyobj) (fb : bool) (mt : json) (p : string)
    (s0 s1 s2 : state W) (w3 : W) (s4 : state W) :
  Downloader.prepare E url s0 = (Ret (inr pk), s1) ->
  Downloader.retrieve_media_info E pk url s1 = (Ret (inr (mi, fb)), s2) ->
  Py.assoc "media_type" mi = Some mt ->
  Downloader.mkdir W E (Downloader.route E mt folder) (world s2) = (Ret tt, w3) ->
  Downloader.acquire E pk mt fb (Downloader.route E mt folder)
    (St w3 (trace s2 ++ [EvCall "Path.mkdir" [Downloader.route E mt folder] None]))
    = (Ret (inr p), s4) ->
  Downloader.download_body E url folder s0 = Downloader.conclude E url p mi fb s4.
Proof.
  intros Hp Hr Hmt Hmk Hacq.
  unfold Downloader.download_body, bind. rewrite Hp, Hr.
  unfold Downloader.deliver, bind, Downloader.getattr. rewrite Hmt.
  unfold ret at 1. unfold call at 1. rewrite Hmk. cbn [raised_of]. now rewrite Hacq.
Qed.

(** ... and what [conclude] returns there is what the caller gets *)
Lemma download_single_reel_concludes (url : string) (folder : option string) (pk : string)
    (mi : Downloader.pyobj) (fb : bool) (mt : json) (p : string)
    (s0 s1 s2 : state W) (w3 : W) (s4 : state W) (r : bool * string) (s' : state W) :
  Downloader.client W E = true ->
  Downloader.prepare E url s0 = (Ret (inr pk), s1) ->
  Downloader.retrieve_media_info E pk url s1 = (Ret (inr (mi, fb)), s2) ->
  Py.assoc "media_type" mi = Some mt ->
  Downloader.mkdir W E (Downloader.route E mt folder) (world s2) = (Ret tt, w3) ->
  Downloader.acquire E pk mt fb (Downloader.route E mt folder)
    (St w3 (trace s2 ++ [EvCall "Path.mkdir" [Downloader.route E mt folder] None]))
    = (Ret (inr p), s4) ->
  Downloader.conclude E url p mi fb s4 = (Ret r, s') ->
  Downloader.download_single_reel E url folder s0 = (Ret r, s').
Proof.
  intros Hc Hp Hr Hmt Hmk Hacq Hrun.
  unfold Downloader.download_single_reel, try_except. rewrite Hc. cbn [negb].
  rewrite (download_runs_to_conclusion url folder pk mi fb mt p s0 s1 s2 w3 s4 Hp Hr Hmt Hmk Hacq).
  now rewrite Hrun.
Qed.

(** C10: when the download has left a file that is found, the call
    answers [True, "Downloaded: <name>"] whether or not the processing
    flag could be written; a failure to write it is only logged. *)
Theorem queue_failure_keeps_success (url : string) (folder : option string) (pk : string)
    (mi : Downloader.pyobj) (fb : bool) (mt : json) (p : string) (size : Z)
    (s0 s1 s2 : state W) (w3 : W) (s4 : state W) (w5 w6 : W) :
  Downloader.client W E = true ->
  Downloader.prepare E url s0 = (Ret (inr pk), s1) ->
  Downloader.retrieve_media_info E pk url s1 = (Ret (inr (mi, fb)), s2) ->
  Py.assoc "media_type" mi = Some mt ->
  Downloader.mkdir W E (Downloader.route E mt folder) (world s2) = (Ret tt, w3) ->
  Downloader.acquire E pk mt fb (Downloader.route E mt folder)
    (St w3 (trace s2 ++ [EvCall "Path.mkdir" [Downloader.route E mt folder] None]))
    = (Ret (inr p), s4) ->
  Downloader.path_exists W E p (world s4) = (Ret true, w5) ->
  Downloader.stat_size W E p w5 = (Ret size, w6) ->
  exists s' evs,
    Downloader.download_single_reel E url folder s0
      = (Ret (true, "Downloaded: " +:+ Path.name p), s') /\
    trace s' = trace s4 ++ evs /\
    (calls_of "json.dump" evs <= 1)%nat /\
    (forall e,
        In (EvCall "json.dump" [Downloader.flag_file_of p] (Some e)) evs ->
        logged "CONTENT_PROCESSING_QUEUE_FAILED" evs = true /\
        logged "CONTENT_PROCESSING_QUEUED" evs = false).
Proof.
  intros Hc Hp Hr Hmt Hmk Hacq Hex Hst.
  destruct (conclude_spec E url p mi fb s4 w5 w6 size Hex Hst) as (s' & evs & Hrun & Ht & Hle & Hf).
  exists s', evs. split; [| now split].
  exact (download_single_reel_concludes url folder pk mi fb mt p s0 s1 s2 w3 s4 _ s'
           Hc Hp Hr Hmt Hmk Hacq Hrun).
Qed.

(** a validation-class failure on a reel URL gives the video descriptor *)
Lemma retrieve_reconstructs_reel (url pk : string) (e : exn) (s1 : state W) (w2 : W) :
  PyStr.contains "/reel/" url = true ->
  Downloader.media_info W E pk (world s1) = (Raise e, w2) ->
  Downloader.is_validation_error e = true ->
  Downloader.retrieve_media_info E pk url s1
  = (Ret (inr (Downloader.MinimalMediaInfo pk 2 url, true)),
     St w2 (trace s1 ++
            [EvCall "client.media_info" [pk] (Some e);
             EvAuth "VALIDATION_ERROR_FALLBACK_ACTIVATED" [JStr pk; JStr (exn_type e)];
             EvAuth "MINIMAL_MEDIA_INFO_CREATED" [JStr pk; JInt 2];
             EvAuth "FALLBACK_MEDIA_INFO_CREATED" [JStr pk; JInt 2]])).
Proof.
  intros Hreel Hmi Hv.
  unfold Downloader.retrieve_media_info, try_except, bind, call. rewrite Hmi.
  cbn [raised_of world trace]. rewrite Hv. unfold auth_log at 1. cbn [world trace].
  unfold Downloader._create_minimal_media_info, Downloader._detect_media_type_fallback,
    try_except, bind. rewrite Hreel. cbn [orb].
  unfold ret, auth_log. cbn [world trace Downloader.getattr Downloader.MinimalMediaInfo Py.assoc].
  cbn. rewrite <- !app_assoc. reflexivity.
Qed.

(** a successful raw download names the file after the primary key *)
Lemma fallback_download_direct_success (pk : string) (mt : json) (folder : string)
    (s : state W) (m : string) (po : option string) (s' : state W) :
  Downloader._fallback_download_direct E pk mt folder s = (Ret (true, m, po), s') ->
  let p := Path.join folder ("instagram_" +:+ pk +:+
                             (if Py.eqb mt (JInt 2) then ".mp4" else ".jpg")) in
  po = Some p /\ m = "Downloaded via raw API fallback: " +:+ Path.name p.
Proof.
  unfold Downloader._fallback_download_direct, try_except, bind. intros H.
  destruct (Downloader._get_raw_media_data E pk s) as [[[data |] | e] s1];
    try (injection H as H _; discriminate H).
  destruct (Py.truthy data); cbn [negb] in H; [| injection H as H _; discriminate H].
  destruct (Extract._extract_all_download_urls_from_raw_data data mt) as [|u urls];
    [injection H as H _; discriminate H |].
  match type of H with
  | context [Downloader._download_with_url_fallbacks E ?us ?path ?st] =>
      destruct (Downloader._download_with_url_fallbacks E us path st) as [[ok | e] s2]
  end; [| injection H as H _; discriminate H].
  destruct ok.
  - match type of H with
    | context [call ?op ?args ?f ?st] => destruct (call op args f st) as [[found | e] s3]
    end; [| injection H as H _; discriminate H].
    destruct found; injection H as H1 H2 H3; try discriminate H1.
    destruct (Py.eqb mt (JInt 2)); cbn zeta; now subst.
  - unfold ret in H. injection H as H _. discriminate H.
Qed.

End EndToEnd.

(** C1, amended: in the fallback scenario (a URL holding [/reel/], a
    validation-class failure of the metadata call, a raw download that
    succeeds and leaves [<VIDEO_FOLDER>/instagram_<pk>.mp4]) the call
    returns [True] with the message ["Downloaded: instagram_<pk>.mp4"];
    the message ["Downloaded via raw API fallback: instagram_<pk>.mp4"]
    is the one [_fallback_download_direct] hands back, which
    [download_single_reel] uses on failure only. *)
Theorem fallback_scenario_result {W : Type} (E : Downloader.env W) (url pk : string)
    (e : exn) (m : string) (po : option string) (size : Z)
    (s0 s1 : state W) (w2 w3 : W) (s4 : state W) (w5 w6 : W) :
  let video := Downloader.VIDEO_FOLDER W E in
  let file := "instagram_" +:+ pk +:+ ".mp4" in
  Downloader.client W E = true ->
  PyStr.contains "/reel/" url = true ->
  PyStr.contains "/" pk = false ->
  Downloader.prepare E url s0 = (Ret (inr pk), s1) ->
  Downloader.media_info W E pk (world s1) = (Raise e, w2) ->
  Downloader.is_validation_error e = true ->
  Downloader.mkdir W E video w2 = (Ret tt, w3) ->
  Downloader._fallback_download_direct E pk (JInt 2) video
    (St w3 (trace s1 ++
            [EvCall "client.media_info" [pk] (Some e);
             EvAuth "VALIDATION_ERROR_FALLBACK_ACTIVATED" [JStr pk; JStr (exn_type e)];
             EvAuth "MINIMAL_MEDIA_INFO_CREATED" [JStr pk; JInt 2];
             EvAuth "FALLBACK_MEDIA_INFO_CREATED" [JStr pk; JInt 2];
             EvCall "Path.mkdir" [video] None]))
    = (Ret (true, m, po), s4) ->
  Downloader.path_exists W E (Path.join video file) (world s4) = (Ret true, w5) ->
  Downloader.stat_size W E (Path.join video file) w5 = (Ret size, w6) ->
  po = Some (Path.join video file) /\
  m = "Downloaded via raw API fallback: " +:+ file /\
  exists s',
    Downloader.download_single_reel E url None s0 = (Ret (true, "Downloaded: " +:+ file), s').
Proof.
  intros video file Hc Hreel Hpk Hp Hmi Hv Hmk Hfb Hex Hst.
  assert (Hfile : PyStr.contains "/" file = false).
  { unfold file. rewrite !contains_slash_app, Hpk. reflexivity. }
  destruct (fallback_download_direct_success E pk (JInt 2) video _ m po s4 Hfb) as [Hpo Hm].
  cbn [Py.eqb Z.eqb Pos.eqb] in Hpo, Hm. fold file in Hpo, Hm.
  rewrite (name_join video file Hfile) in Hm.
  split; [exact Hpo |]. split; [exact Hm |].
  pose proof (retrieve_reconstructs_reel E url pk e s1 w2 Hreel Hmi Hv) as Hr.
  destruct (conclude_spec E url (Path.join video file) (Downloader.MinimalMediaInfo pk 2 url)
              true s4 w5 w6 size Hex Hst) as (s' & evs & Hrun & _).
  exists s'. rewrite (name_join video file Hfile) in Hrun.
  apply (download_single_reel_concludes E url None pk (Downloader.MinimalMediaInfo pk 2 url)
           true (JInt 2) (Path.join video file) s0 s1 _ w3 s4 _ s' Hc Hp Hr);
    try assumption; try reflexivity.
  cbn [trace]. rewrite <- app_assoc. unfold Downloader.acquire, bind.
  change (Downloader.route E (JInt 2) None) with video. cbn [app].
  cbn [app] in Hfb. rewrite Hfb. subst po. reflexivity.
Qed.

(** C1, as stated, fails: in the fallback scenario of the specification
    the call returns ["Downloaded: instagram_<pk>.mp4"], not the message
    of the raw download. *)
Lemma fallback_scenario_message_differs :
  let E := Scenario.dl_env (Raise Scenario.validation_error) true true in
  let run := Downloader.download_single_reel E Scenario.reel_url None Scenario.net0 in
  PyStr.contains "/reel/" Scenario.reel_url = true /\
  Downloader.is_validation_error Scenario.validation_error = true /\
  logged "VALIDATION_ERROR_FALLBACK_ACTIVATED" (trace (snd run)) = true /\
  Scenario.on_disk "input_videos/instagram_3141592653589793238.mp4" (world (snd run)) = true /\
  Scenario.on_disk "input_videos/.processing_instagram_3141592653589793238.json"
    (world (snd run)) = true /\
  fst run = Ret (true, "Downloaded: instagram_3141592653589793238.mp4") /\
  fst run <> Ret (true, "Downloaded via raw API fallback: instagram_3141592653589793238.mp4").
Proof.
  cbv zeta.
  assert (H : fst (Downloader.download_single_reel
                     (Scenario.dl_env (Raise Scenario.validation_error) true true)
                     Scenario.reel_url None Scenario.net0)
              = Ret (true, "Downloaded: instagram_3141592653589793238.mp4"))
    by (vm_compute; reflexivity).
  repeat split; try (vm_compute; reflexivity).
  rewrite H. discriminate.
Qed.

Lemma fallback_scenario_result_witness :
  exists s',
    Downloader.download_single_reel (Scenario.dl_env (Raise Scenario.validation_error) true true)
      Scenario.reel_url None Scenario.net0
    = (Ret (true, "Downloaded: " +:+ ("instagram_" +:+ Scenario.media_pk +:+ ".mp4")), s').
Proof.
  edestruct (fallback_scenario_result
               (Scenario.dl_env (Raise Scenario.validation_error) true true)
               Scenario.reel_url Scenario.media_pk Scenario.validation_error)
    with (s0 := Scenario.net0) as (_ & _ & s' & Hrun).
  - reflexivity.
  - vm_compute; reflexivity.
  - vm_compute; reflexivity.
  - vm_compute; reflexivity.
  - vm_compute; reflexivity.
  - vm_compute; reflexivity.
  - vm_compute; reflexivity.
  - vm_compute; reflexivity.
  - vm_compute; reflexivity.
  - vm_compute; reflexivity.
  - exists s'. exact Hrun.
Defined.

Lemma queue_failure_keeps_success_witness :
  exists s',
    Downloader.download_single_reel (Scenario.dl_env (Raise Scenario.validation_error) false true)
      Scenario.reel_url None Scenario.net0
    = (Ret (true, "Downloaded: instagram_3141592653589793238.mp4"), s') /\
    logged "CONTENT_PROCESSING_QUEUE_FAILED" (trace s') = true /\
    Scenario.on_disk "input_videos/instagram_3141592653589793238.mp4" (world s') = true /\
    Scenario.on_disk "input_videos/.processing_instagram_3141592653589793238.json" (world s')
    = false.
Proof.
  edestruct (queue_failure_keeps_success
               (Scenario.dl_env (Raise Scenario.validation_error) false true)
               Scenario.reel_url None) with (s0 := Scenario.net0) as (s' & evs & Hrun & _).
  - reflexivity.
  - vm_compute; reflexivity.
  - vm_compute; reflexivity.
  - vm_compute; reflexivity.
  - vm_compute; reflexivity.
  - vm_compute; reflexivity.
  - vm_compute; reflexivity.
  - vm_compute; reflexivity.
  - exists s'. vm_compute in Hrun. injection Hrun as <-.
    repeat split; vm_compute; reflexivity.
Defined.

Lemma download_never_raises_witness :
  let E := Scenario.dl_env (Raise Scenario.validation_error) true false in
  exists s1 s',
    Downloader.download_body E Scenario.reel_url None Scenario.net0
    = (Raise Scenario.permission_error, s1) /\
    Downloader.download_single_reel E Scenario.reel_url None Scenario.net0
    = (Ret (false, "Download failed: [Errno 13] Permission denied"), s').
Proof.
  cbv zeta.
  destruct (download_never_raises (Scenario.dl_env (Raise Scenario.validation_error) true false)
              Scenario.reel_url None Scenario.net0) as (ok & message & s' & Hrun & Hraise).
  assert (Hb : exists s1,
             Downloader.download_body
               (Scenario.dl_env (Raise Scenario.validation_error) true false)
               Scenario.reel_url None Scenario.net0 = (Raise Scenario.permission_error, s1))
    by (eexists; vm_compute; reflexivity).
  destruct Hb as [s1 Hb]. destruct (Hraise _ _ eq_refl Hb) as (Hok & Hmsg & _).
  exists s1, s'. split; [exact Hb |]. rewrite Hrun, Hok, Hmsg. reflexivity.
Defined.

(** C5, as stated, fails: errors are raised inside the call, by the
    structured metadata call and by the writing of the flag, and the
    result is [True]. *)
Lemma errors_inside_yet_success :
  let E := Scenario.dl_env (Raise Scenario.validation_error) false true in
  let r := Downloader.download_single_reel E Scenario.reel_url None Scenario.net0 in
  fst r = Ret (true, "Downloaded: instagram_3141592653589793238.mp4") /\
  In (EvCall "client.media_info" [Scenario.media_pk] (Some Scenario.validation_error))
     (trace (snd r)) /\
  In (EvCall "json.dump" ["input_videos/.processing_instagram_3141592653589793238.json"]
        (Some Scenario.permission_error))
     (trace (snd r)).
Proof.
  cbv zeta. split; [vm_compute; reflexivity |].
  split; vm_compute; repeat (first [left; reflexivity | right]).
Qed.

Lemma reconstruction_iff_validation_failure_witness :
  let E := Scenario.dl_env (Raise Scenario.media_not_found) true true in
  Downloader.is_validation_error Scenario.media_not_found = false /\
  fst (Downloader.download_single_reel E Scenario.reel_url None Scenario.net0)
  = Ret (false, "Failed to get media info: Media not found or unavailable") /\
  reconstruction_attempted
    (trace (snd (Downloader.download_single_reel E Scenario.reel_url None Scenario.net0)))
  = false.
Proof.
  cbv zeta. split; [reflexivity |].
  destruct (reconstruction_iff_validation_failure
              (Scenario.dl_env (Raise Scenario.media_not_found) true true)
              Scenario.reel_url None Scenario.net0) as (evs & Ht & _ & Hfail).
  cbn [trace Scenario.net0 app] in Ht. rewrite Ht.
  assert (Hevs : In (EvCall "client.media_info" [Scenario.media_pk] (Some Scenario.media_not_found))
                    evs).
  { rewrite <- Ht. vm_compute. do 5 right. now left. }
  destruct (Hfail _ _ Hevs eq_refl) as [Hr Hrec]. split; [exact Hr | exact Hrec].
Defined.

(** C6, as stated, fails: a network error whose message holds
    [validation] passes the test of the code and starts the
    reconstruction. *)
Lemma network_error_starts_reconstruction :
  let e := Exn "ConnectionError" "TLS certificate validation failed" in
  let E := Scenario.dl_env (Raise e) true true in
  let r := Downloader.download_single_reel E Scenario.reel_url None Scenario.net0 in
  PyStr.contains "ValidationError" (exn_type e) = false /\
  Downloader.is_validation_error e = true /\
  In (EvCall "client.media_info" [Scenario.media_pk] (Some e)) (trace (snd r)) /\
  reconstruction_attempted (trace (snd r)) = true /\
  fst r = Ret (true, "Downloaded: instagram_3141592653589793238.mp4").
Proof.
  cbv zeta. split; [reflexivity |]. split; [reflexivity |].
  split; [vm_compute; repeat (first [left; reflexivity | right]) |].
  split; vm_compute; reflexivity.
Qed.

(** ** The queue drain *)

Lemma assoc_setitem_eq (k : string) (v : json) (d : list (string * json)) :
  Py.assoc k (PyOps.setitem k v d) = Some v.
Proof.
  induction d as [|[k' v'] d IH]; cbn [PyOps.setitem Py.assoc].
  - now rewrite String.eqb_refl.
  - destruct (String.eqb k k') eqn:Hk; cbn [Py.assoc]; rewrite ?String.eqb_refl, ?Hk; auto.
Qed.

Lemma assoc_setitem_ne (k k' : string) (v : json) (d : list (string * json)) :
  String.eqb k' k = false -> Py.assoc k' (PyOps.setitem k v d) = Py.assoc k' d.
Proof.
  intros Hne. induction d as [|[k0 v0] d IH]; cbn [PyOps.setitem Py.assoc].
  - now rewrite Hne.
  - destruct (String.eqb k k0) eqn:Hk; cbn [Py.assoc].
    + apply String.eqb_eq in Hk. subst k0. now rewrite Hne.
    + now rewrite IH.
Qed.

Section Queue.
Context {X : Type} (E : Processor.env X).



End Queue.



(** ** Deduplication *)

Section Dedup.
Context {X : Type} (E : Processor.env X).

Ltac crack H :=
  repeat (match type of H with
          | context [match ?x with _ => _ end] =>
              match x with
              | context [match _ with _ => _ end] => fail 1
              | _ => destruct x eqn:?
              end
          end;
          cbn [world trace fst snd Processor.fs Processor.hash_cache Processor.hash_cache_json
               Processor.ext negb] in H;
          try discriminate H).

Lemma validate_file_image (p : string) (data : list Byte.byte) (s : state (Processor.machine X)) :
  Processor.fs (world s) !! p = Some (Processor.Raw data) ->
  Processor.mem (PyStr.lower (Path.suffix p)) Processor.SUPPORTED_IMAGE_FORMATS = true ->
  Z.of_nat (length data) <= 10 * 1024 * 1024 ->
  Processor.pil_verify X E data = true ->
  Processor.validate_file E p s = (Ret (true, "image"), s).
Proof.
  intros Hfs Hext Hsize Hver. unfold Processor.validate_file. mred.
  rewrite Hext, Hfs. cbn [Processor.file_size].
  destruct (Z.gtb_spec (Z.of_nat (length data)) (10 * 1024 * 1024)); [lia |].
  now rewrite Hver.
Qed.

Lemma is_duplicate_miss (h : string) (s : state (Processor.machine X)) :
  Processor.hash_cache (world s) !! h = None ->
  Processor.is_duplicate h s = (Ret (false, None), s).
Proof. intros Hc. unfold Processor.is_duplicate. mred. now rewrite Hc. Qed.

Lemma process_image_with_hash_returns (p h : string) (s : state (Processor.machine X)) :
  exists r s', Processor.process_image_with_hash E p h s = (Ret r, s').
Proof.
  unfold Processor.process_image_with_hash. unfold try_except at 1.
  match goal with |- context [match ?m s with _ => _ end] => destruct (m s) as [[r | e] s'] end;
    eexists _, _; reflexivity.
Qed.

(** a new, valid image goes through [process_image_with_hash] *)
Lemma process_single_file_new_image (p : string) (data : list Byte.byte) (pixels : list Z)
    (s : state (Processor.machine X)) :
  Processor.fs (world s) !! p = Some (Processor.Raw data) ->
  Processor.mem (PyStr.lower (Path.suffix p)) Processor.SUPPORTED_IMAGE_FORMATS = true ->
  Z.of_nat (length data) <= 10 * 1024 * 1024 ->
  Processor.pil_verify X E data = true ->
  Processor.pil_grey8x8 X E data = Some pixels ->
  pixels <> [] ->
  Processor.hash_cache (world s) !! Processor.combined_hash data pixels = None ->
  Processor.process_single_file E p s
  = Processor.process_image_with_hash E p (Processor.combined_hash data pixels) s.
Proof.
  intros Hfs Hext Hsize Hver Hgrey Hne Hc.
  unfold Processor.process_single_file. unfold try_except at 1. unfold bind at 1.
  rewrite (validate_file_image p data s Hfs Hext Hsize Hver). cbn [negb String.eqb Ascii.eqb Bool.eqb].
  unfold bind at 1. rewrite (calculate_image_hash_decodable E p data pixels s Hfs Hgrey Hne).
  unfold bind at 1. rewrite (is_duplicate_miss _ s Hc).
  destruct (process_image_with_hash_returns p (Processor.combined_hash data pixels) s)
    as (r & s' & ->). reflexivity.
Qed.

(** what a successful [process_image_with_hash] leaves behind *)
Lemma process_image_with_hash_success (p h m : string) (s0 s1 : state (Processor.machine X)) :
  Processor.process_image_with_hash E p h s0 = (Ret (true, m), s1) ->
  exists record,
    Processor.hash_cache (world s1) = <[h := JDict record]> (Processor.hash_cache (world s0)) /\
    Py.assoc "original_filename" record = Some (JStr (Path.name p)) /\
    Py.assoc "duplicate_count" record = Some (JInt 0) /\
    (forall q, q <> p ->
               q <> Path.join Processor.TEMP_FOLDER ("compressed_" +:+ Path.name p) ->
               Processor.fs (world s1) !! q = Processor.fs (world s0) !! q).
Proof.
  unfold Processor.process_image_with_hash, Processor.compress_image,
    Processor.analyze_content_hybrid, Processor.save_analysis_only, Processor.store_hash,
    PyOps.getitem.
  mred. intros H. crack H.
  all: injection H as _ <-; cbn [world Processor.fs Processor.hash_cache];
    eexists; (split; [reflexivity |]); (split; [reflexivity |]); (split; [reflexivity |]);
    intros q Hq1 Hq2; now rewrite lookup_delete_ne, lookup_delete_ne, lookup_insert_ne.
Qed.

Lemma is_duplicate_hit (h : string) (record : list (string * json)) (count : Z)
    (s : state (Processor.machine X)) :
  Processor.hash_cache (world s) !! h = Some (JDict record) ->
  Py.assoc "duplicate_count" record = Some (JInt count) ->
  Processor.is_duplicate h s
  = (Ret (true, Some (JDict record)),
     St (world s)
        (trace s ++ [EvAuth "DUPLICATE_DETECTED" [JStr (substring 0 12 h); JInt (count + 1)]])).
Proof.
  intros Hc Hcount. unfold Processor.is_duplicate, PyOps.get, PyOps.add1, Py.get. mred.
  rewrite Hc, Hcount. destruct (Py.assoc "original_filename" record); reflexivity.
Qed.

(** a valid image whose fingerprint is in the cache is counted and deleted *)
Lemma process_single_file_duplicate (p original : string) (data : list Byte.byte)
    (pixels : list Z) (record : list (string * json)) (count : Z)
    (s : state (Processor.machine X)) :
  let h := Processor.combined_hash data pixels in
  Processor.fs (world s) !! p = Some (Processor.Raw data) ->
  Processor.mem (PyStr.lower (Path.suffix p)) Processor.SUPPORTED_IMAGE_FORMATS = true ->
  Z.of_nat (length data) <= 10 * 1024 * 1024 ->
  Processor.pil_verify X E data = true ->
  Processor.pil_grey8x8 X E data = Some pixels ->
  pixels <> [] ->
  Processor.hash_cache (world s) !! h = Some (JDict record) ->
  Py.assoc "original_filename" record = Some (JStr original) ->
  Py.assoc "duplicate_count" record = Some (JInt count) ->
  exists s2 record2,
    Processor.process_single_file E p s
    = (Ret (true, "Duplicate detected - skipped (original: " +:+ original +:+ ")"), s2) /\
    Processor.hash_cache (world s2) !! h = Some (JDict record2) /\
    Py.assoc "duplicate_count" record2 = Some (JInt (count + 1)) /\
    Py.assoc "original_filename" record2 = Some (JStr original) /\
    Processor.fs (world s2) = delete p (Processor.fs (world s)) /\
    trace s2 = trace s ++ [EvAuth "DUPLICATE_DETECTED" [JStr (substring 0 12 h); JInt (count + 1)];
                           EvCall "datetime.now" [] None].
Proof.
  intros h Hfs Hext Hsize Hver Hgrey Hne Hc Horig Hcount.
  unfold Processor.process_single_file. unfold try_except at 1. unfold bind at 1.
  rewrite (validate_file_image p data s Hfs Hext Hsize Hver).
  cbn [negb String.eqb Ascii.eqb Bool.eqb].
  unfold bind at 1. rewrite (calculate_image_hash_decodable E p data pixels s Hfs Hgrey Hne).
  unfold bind at 1. fold h. rewrite (is_duplicate_hit h record count s Hc Hcount).
  unfold Processor.increment_duplicate_count, PyOps.getitem, PyOps.add1, PyOps.get, Py.get.
  mred. rewrite Hc, Hcount. mred.
  destruct (Processor.now_isoformat X E (Processor.ext (world s))) as [t x1].
  mred. rewrite Hfs. cbn [default from_option id]. rewrite Horig. cbn [PyOps.str].
  eexists _, _. split; [reflexivity |]. cbn [world trace Processor.hash_cache Processor.fs].
  split; [apply lookup_insert_eq |].
  split; [rewrite assoc_setitem_ne by reflexivity; apply assoc_setitem_eq |].
  split; [now rewrite !assoc_setitem_ne by reflexivity |].
  split; [reflexivity |]. now rewrite <- app_assoc.
Qed.

End Dedup.

(** C2, as stated, fails: when the first of two identical images is not
    saved (here the database insert fails), no record is stored, the
    second image is not a duplicate, is analysed again and stays on disk. *)
Lemma identical_image_not_duplicate_after_failure :
  let E := Scenario.proc_env true false in
  let r1 := Processor.process_single_file E "input_images/a.jpg" Scenario.twins in
  let r2 := Processor.process_single_file E "input_images/b.jpg" (snd r1) in
  Processor.fs (world Scenario.twins) !! "input_images/a.jpg"
  = Processor.fs (world Scenario.twins) !! "input_images/b.jpg" /\
  fst r1 = Ret (false, "Database save failed") /\
  fst (Processor.is_duplicate "122db951459e3ef8912cd926fe277223" (snd r1)) = Ret (false, None) /\
  fst r2 = Ret (false, "Database save failed") /\
  Processor.fs (world (snd r2)) !! "input_images/b.jpg"
  = Some (Processor.Raw Scenario.photo_bytes) /\
  calls_of "ocr_and_vision" (trace (snd r2)) = 2%nat.
Proof. cbv zeta. repeat split; vm_compute; reflexivity. Qed.

(** C2, amended: of two valid image files with identical bytes, when the
    fingerprint is not yet in the cache and the first file is processed
    with success, the second is reported as a duplicate: [is_duplicate]
    returns [True] and the record stored for the first file, whose
    [duplicate_count] goes from 0 to 1, and the second file is deleted
    with no call to the analysis or to the database. *)
Theorem second_identical_image_is_duplicate {X : Type} (E : Processor.env X)
    (p1 p2 : string) (data : list Byte.byte) (pixels : list Z) (m1 : string)
    (s0 s1 : state (Processor.machine X)) :
  let h := Processor.combined_hash data pixels in
  p1 <> p2 ->
  p2 <> Path.join Processor.TEMP_FOLDER ("compressed_" +:+ Path.name p1) ->
  Processor.fs (world s0) !! p1 = Some (Processor.Raw data) ->
  Processor.fs (world s0) !! p2 = Some (Processor.Raw data) ->
  Processor.mem (PyStr.lower (Path.suffix p1)) Processor.SUPPORTED_IMAGE_FORMATS = true ->
  Processor.mem (PyStr.lower (Path.suffix p2)) Processor.SUPPORTED_IMAGE_FORMATS = true ->
  Z.of_nat (length data) <= 10 * 1024 * 1024 ->
  Processor.pil_verify X E data = true ->
  Processor.pil_grey8x8 X E data = Some pixels ->
  pixels <> [] ->
  Processor.hash_cache (world s0) !! h = None ->
  Processor.process_single_file E p1 s0 = (Ret (true, m1), s1) ->
  exists record record2 s2,
    Processor.hash_cache (world s1) !! h = Some (JDict record) /\
    Py.assoc "original_filename" record = Some (JStr (Path.name p1)) /\
    Py.assoc "duplicate_count" record = Some (JInt 0) /\
    fst (Processor.is_duplicate h s1) = Ret (true, Some (JDict record)) /\
    Processor.process_single_file E p2 s1
    = (Ret (true, "Duplicate detected - skipped (original: " +:+ Path.name p1 +:+ ")"), s2) /\
    Processor.hash_cache (world s2) !! h = Some (JDict record2) /\
    Py.assoc "duplicate_count" record2 = Some (JInt 1) /\
    Processor.fs (world s2) !! p2 = None /\
    trace s2 = trace s1 ++ [EvAuth "DUPLICATE_DETECTED" [JStr (substring 0 12 h); JInt 1];
                            EvCall "datetime.now" [] None].
Proof.
  intros h Hne12 Htmp Hfs1 Hfs2 Hext1 Hext2 Hsize Hver Hgrey Hpix Hnew Hrun.
  rewrite (process_single_file_new_image E p1 data pixels s0 Hfs1 Hext1 Hsize Hver Hgrey Hpix Hnew)
    in Hrun.
  destruct (process_image_with_hash_success E p1 _ m1 s0 s1 Hrun)
    as (record & Hcache & Horig & Hcount & Hframe).
  assert (Hc1 : Processor.hash_cache (world s1) !! h = Some (JDict record))
    by (rewrite Hcache; apply lookup_insert_eq).
  assert (Hfs2' : Processor.fs (world s1) !! p2 = Some (Processor.Raw data))
    by (rewrite Hframe; [exact Hfs2 | congruence | exact Htmp]).
  destruct (process_single_file_duplicate E p2 (Path.name p1) data pixels record 0 s1
              Hfs2' Hext2 Hsize Hver Hgrey Hpix Hc1 Horig Hcount)
    as (s2 & record2 & Hrun2 & Hc2 & Hcount2 & _ & Hfsfinal & Htrace).
  exists record, record2, s2. repeat split; try assumption.
  - now rewrite (is_duplicate_hit h record 0 s1 Hc1 Hcount).
  - rewrite Hfsfinal. apply lookup_delete_eq.
Qed.

Lemma second_identical_image_is_duplicate_witness :
  let E := Scenario.proc_env true true in
  exists s1 s2,
    Processor.process_single_file E "input_images/a.jpg" Scenario.twins
    = (Ret (true, "Image processed - analysis saved (no image stored)"), s1) /\
    Processor.process_single_file E "input_images/b.jpg" s1
    = (Ret (true, "Duplicate detected - skipped (original: a.jpg)"), s2) /\
    Processor.fs (world s2) !! "input_images/b.jpg" = None.
Proof.
  cbv zeta.
  assert (Hrun : exists s1,
             Processor.process_single_file (Scenario.proc_env true true) "input_images/a.jpg"
               Scenario.twins
             = (Ret (true, "Image processed - analysis saved (no image stored)"), s1))
    by (eexists; vm_compute; reflexivity).
  destruct Hrun as [s1 Hrun].
  pose proof (second_identical_image_is_duplicate (Scenario.proc_env true true)
              "input_images/a.jpg" "input_images/b.jpg" Scenario.photo_bytes
              (Scenario.grey_grid Scenario.photo_bytes)
              "Image processed - analysis saved (no image stored)" Scenario.twins s1) as H.
  cbv zeta in H.
  specialize (H ltac:(discriminate)).
  specialize (H ltac:(vm_compute; discriminate)).
  specialize (H ltac:(vm_compute; reflexivity)).
  specialize (H ltac:(vm_compute; reflexivity)).
  specialize (H ltac:(vm_compute; reflexivity)).
  specialize (H ltac:(vm_compute; reflexivity)).
  specialize (H ltac:(vm_compute; discriminate)).
  specialize (H ltac:(vm_compute; reflexivity)).
  specialize (H ltac:(vm_compute; reflexivity)).
  specialize (H ltac:(vm_compute; discriminate)).
  specialize (H ltac:(vm_compute; reflexivity)).
  specialize (H Hrun).
  destruct H as (record & record2 & s2 & _ & _ & _ & _ & Hrun2 & _ & _ & Hgone & _).
  exists s1, s2. split; [exact Hrun |]. split; [exact Hrun2 | exact Hgone].
Defined.

(** * Further properties *)

(** ** More on the retry engine *)

Section RetrySuccess.
Context {W A : Type}.
Variable f : W -> outcome A * W.
Variables (op : string) (args : list string).
Variable N : Z.

(** an invocation that returns ends the loop *)
Lemma attempt_success (r : nat) (attempt : Z) (w w1 : W) (a : A) (tr : list event) :
  f w = (Ret a, w1) ->
  Retry.attempts (call op args f) N (S r) attempt (St w tr)
  = (Ret a, St w1 (tr ++ [EvCall op args None]
                      ++ [EvAuth "DOWNLOAD_SUCCESS" [JInt (attempt + 1); JInt N]])).
Proof.
  intros Hf. cbn [Retry.attempts]. unfold try_except, bind, call, auth_log, ret.
  cbn [world trace]. rewrite Hf. cbn [raised_of world trace]. now rewrite <- app_assoc.
Qed.

Lemma attempts_success_after (w : W) (es : list exn) (wk : W) :
  retryable_failures f w es wk ->
  forall (wk' : W) (a : A) (r : nat) (attempt : Z) (tr : list event),
    f wk = (Ret a, wk') ->
    (length es < r)%nat ->
    attempt + Z.of_nat r = N ->
    exists tr',
      Retry.attempts (call op args f) N r attempt (St w tr)
      = (Ret a, St wk' (tr' ++ [EvAuth "DOWNLOAD_SUCCESS"
                                  [JInt (attempt + Z.of_nat (length es) + 1); JInt N]])) /\
      calls_of op tr' = (calls_of op tr + length es + 1)%nat.
Proof.
  intros Hrf.
  induction Hrf as [w | w w1 w2 e0 es Hf0 He0 Hrest IH];
    intros wk' a r attempt tr Hf Hlen Hsum.
  - destruct r as [|r]; [simpl in Hlen; lia |].
    rewrite (attempt_success r attempt w wk' a tr Hf).
    exists (tr ++ [EvCall op args None]). split.
    + rewrite <- app_assoc. cbn [length].
      replace (attempt + Z.of_nat 0 + 1) with (attempt + 1) by lia. reflexivity.
    + rewrite calls_of_app. cbn [calls_of is_call length]. rewrite String.eqb_refl. lia.
  - destruct r as [|r]; [simpl in Hlen; lia |]. simpl in Hlen.
    destruct (attempt_retry f op args N r attempt w w1 e0 tr Hf0 He0) as (tr1 & Hrun & Hc);
      [lia |].
    destruct (IH wk' a r (attempt + 1) tr1 Hf) as (tr' & Hrun' & Hc'); [lia | lia |].
    exists tr'. split.
    + rewrite Hrun, Hrun'. cbn [length].
      replace (attempt + Z.of_nat (S (length es)) + 1)
        with (attempt + 1 + Z.of_nat (length es) + 1) by lia.
      reflexivity.
    + simpl. lia.
Qed.

End RetrySuccess.

(** When the operation raises retryable errors [k] times, with [k]
    below [max_retries = N], and then returns, the engine returns that
    result after [k + 1] invocations and records the success with the
    attempt number [k + 1] as the last entry of the audit log. *)
Theorem retry_returns_first_success {W A : Type} (f : W -> outcome A * W)
    (op : string) (args : list string) (N : Z) (s : state W)
    (es : list exn) (wk wk' : W) (a : A) :
  retryable_failures f (world s) es wk ->
  Z.of_nat (length es) < N ->
  f wk = (Ret a, wk') ->
  exists tr',
    Retry._retry_download_with_backoff (call op args f) N s
    = (Ret a, St wk' (tr' ++ [EvAuth "DOWNLOAD_SUCCESS"
                                [JInt (Z.of_nat (length es) + 1); JInt N]])) /\
    calls_of op tr' = (calls_of op (trace s) + length es + 1)%nat.
Proof.
  intros Hrf Hlen Hf. destruct s as [w tr]. cbn [world trace] in *.
  unfold Retry._retry_download_with_backoff.
  destruct (attempts_success_after f op args N w es wk Hrf wk' a (Z.to_nat N) 0 tr Hf)
    as (tr' & Hrun & Hc); [lia | lia |].
  exists tr'. split; [exact Hrun | exact Hc].
Qed.

Lemma retry_returns_first_success_witness :
  exists tr',
    Retry._retry_download_with_backoff (call "download_func" [] Cases.times_out_twice) 5
      (St 0%nat [])
    = (Ret "input_videos/clip.mp4",
       St 3%nat (tr' ++ [EvAuth "DOWNLOAD_SUCCESS" [JInt 3; JInt 5]])) /\
    calls_of "download_func" tr' = 3%nat.
Proof.
  destruct (retry_returns_first_success Cases.times_out_twice "download_func" [] 5
              (St 0%nat []) [Scenario.read_timeout; Scenario.read_timeout] 2%nat 3%nat
              "input_videos/clip.mp4") as (tr' & Hrun & Hc).
  - repeat (econstructor; try reflexivity).
  - simpl. lia.
  - reflexivity.
  - exists tr'. split; [exact Hrun | exact Hc].
Defined.

(** With [max_retries <= 0] the loop body never runs: the engine raises
    ["Unexpected retry loop exit"] without invoking the operation, so with
    [INSTAGRAM_RETRY_ATTEMPTS <= 0] the structured download of
    [download_single_reel] fails with that message, for videos and photos
    alike, and instagrapi is not called. *)
Theorem no_attempts_no_download {W : Type} (E : Downloader.env W) (A : Type)
    (download_func : M W A) (pk folder : string) (media_type : json) (s : state W) :
  Downloader.INSTAGRAM_RETRY_ATTEMPTS W E <= 0 ->
  Retry._retry_download_with_backoff download_func (Downloader.INSTAGRAM_RETRY_ATTEMPTS W E) s
  = (Raise (Exn "Exception" "Unexpected retry loop exit"), s) /\
  Downloader.acquire E pk media_type false folder s
  = (Ret (inl ((if Py.eqb media_type (JInt 2) then "Video" else "Photo")
               +:+ " download failed: Unexpected retry loop exit")), s).
Proof.
  intros HN.
  assert (H0 : Z.to_nat (Downloader.INSTAGRAM_RETRY_ATTEMPTS W E) = 0%nat) by lia.
  split.
  - unfold Retry._retry_download_with_backoff. rewrite H0. reflexivity.
  - unfold Downloader.acquire, Downloader.structured_download,
      Retry._retry_download_with_backoff.
    rewrite H0. destruct (Py.eqb media_type (JInt 2)); reflexivity.
Qed.

Lemma no_attempts_no_download_witness :
  let E := Cases.with_retry_attempts 0 (Scenario.dl_env (Ret Cases.reel_info) true true) in
  Downloader.acquire E Scenario.media_pk (JInt 2) false "input_videos" Scenario.net0
  = (Ret (inl "Video download failed: Unexpected retry loop exit"), Scenario.net0).
Proof.
  cbv zeta.
  apply (no_attempts_no_download
           (Cases.with_retry_attempts 0 (Scenario.dl_env (Ret Cases.reel_info) true true))
           unit (ret tt) Scenario.media_pk "input_videos" (JInt 2) Scenario.net0).
  simpl. lia.
Defined.

(** ** The shortcode of the reconstructed descriptor *)

Ltac push_app :=
  repeat match goal with
         | |- context [String ?c ?a +:+ ?b] =>
             change (String c a +:+ b) with (String c (a +:+ b))
         | |- context [EmptyString +:+ ?b] => change (EmptyString +:+ b) with b
         end.

Lemma append_nil_l (s : string) : "" +:+ s = s.
Proof. reflexivity. Qed.

Lemma append_cons (c : ascii) (a b : string) : String c a +:+ b = String c (a +:+ b).
Proof. reflexivity. Qed.

Lemma append_assoc_s (a b c : string) : (a +:+ b) +:+ c = a +:+ (b +:+ c).
Proof. induction a as [|x a IH]; [reflexivity |]. rewrite !append_cons. now rewrite IH. Qed.

Lemma startswith_split (p s : string) :
  PyStr.startswith p s = true -> s = p +:+ Downloader.drop (String.length p) s.
Proof.
  revert s. induction p as [|a p IH]; intros s H; [reflexivity |].
  destruct s as [|b s]; [discriminate H |]. cbn [PyStr.startswith] in H.
  destruct (Ascii.eqb a b) eqn:Hab; [| discriminate H].
  apply Ascii.eqb_eq in Hab. subst b.
  rewrite append_cons. cbn [String.length Downloader.drop]. f_equal. now apply IH.
Qed.

Lemma drop_app (p s : string) : Downloader.drop (String.length p) (p +:+ s) = s.
Proof. induction p as [|a p IH]; [now destruct s |]. rewrite append_cons. exact IH. Qed.

Lemma code_char_not_slash (c : ascii) :
  Downloader.is_code_char c = true -> Ascii.eqb "/" c = false.
Proof.
  intros H. destruct (Ascii.eqb "/" c) eqn:Hc; [| reflexivity].
  apply Ascii.eqb_eq in Hc. subst c. discriminate H.
Qed.

Lemma span_code_spec (s run rest : string) :
  Downloader.span_code s = (run, rest) ->
  s = run +:+ rest /\ all_chars Downloader.is_code_char run = true.
Proof.
  revert run rest. induction s as [|c s IH]; intros run rest H; cbn [Downloader.span_code] in H.
  - injection H as <- <-. now split.
  - destruct (Downloader.is_code_char c) eqn:Hc.
    + destruct (Downloader.span_code s) as [run' rest'].
      injection H as <- <-. destruct (IH _ _ eq_refl) as [-> Hall].
      split; [reflexivity |]. cbn [all_chars]. now rewrite Hc, Hall.
    + injection H as <- <-. now split.
Qed.

Lemma span_code_app (code rest : string) :
  all_chars Downloader.is_code_char code = true ->
  Downloader.span_code (code +:+ "/" +:+ rest) = (code, "/" +:+ rest).
Proof.
  induction code as [|c code IH]; intros H.
  - reflexivity.
  - cbn [all_chars] in H. apply andb_true_iff in H as [Hc Hall].
    rewrite append_cons. cbn [Downloader.span_code]. rewrite Hc, (IH Hall). reflexivity.
Qed.

Lemma match_here_some (lit s code : string) :
  Downloader.match_here lit s = Some code ->
  code <> "" /\ all_chars Downloader.is_code_char code = true /\
  exists post, s = lit +:+ code +:+ "/" +:+ post.
Proof.
  unfold Downloader.match_here. intros H.
  destruct (PyStr.startswith lit s) eqn:Hs; [| discriminate H].
  destruct (Downloader.span_code _) as [run rest] eqn:Hsp.
  destruct (PyStr.truthy run) eqn:Hrun; [| discriminate H].
  destruct (PyStr.startswith "/" rest) eqn:Hrest; [| discriminate H].
  injection H as <-. destruct (span_code_spec _ _ _ Hsp) as [Hsplit Hall].
  split; [now destruct run |]. split; [exact Hall |].
  exists (Downloader.drop 1 rest).
  rewrite (startswith_split _ _ Hs), Hsplit at 1.
  now rewrite (startswith_split _ _ Hrest) at 1.
Qed.

Lemma search_some (lit s code : string) :
  Downloader.search lit s = Some code ->
  code <> "" /\ all_chars Downloader.is_code_char code = true /\
  exists pre post, s = pre +:+ lit +:+ code +:+ "/" +:+ post.
Proof.
  induction s as [|c s IH]; cbn [Downloader.search]; intros H.
  - destruct (Downloader.match_here lit "") eqn:Hm; [| discriminate H].
    injection H as ->. destruct (match_here_some _ _ _ Hm) as (Hne & Hall & post & Hs).
    repeat split; try assumption. now exists "", post.
  - destruct (Downloader.match_here lit (String c s)) eqn:Hm.
    + injection H as ->. destruct (match_here_some _ _ _ Hm) as (Hne & Hall & post & Hs).
      repeat split; try assumption. now exists "", post.
    + destruct (IH H) as (Hne & Hall & pre & post & Hs).
      repeat split; try assumption. exists (String c pre), post. now rewrite Hs.
Qed.

(** The shortcode that the reconstructed descriptor carries is never
    empty and is made of letters, digits, [_] and [-] only; it is
    ["unknown"], or the run of such characters that the URL holds between
    [/p/], [/reel/] or [/reels/] and the next [/]. *)
Theorem extracted_code_is_well_formed (url : string) :
  let code := Downloader._extract_code_from_url url in
  code <> "" /\
  all_chars Downloader.is_code_char code = true /\
  (code = "unknown" \/
   exists lit pre post,
     In lit ["/p/"; "/reel/"; "/reels/"] /\ url = pre +:+ lit +:+ code +:+ "/" +:+ post).
Proof.
  cbv zeta. unfold Downloader._extract_code_from_url.
  destruct (Downloader.search "/p/" url) as [code |] eqn:Hp.
  { destruct (search_some _ _ _ Hp) as (Hne & Hall & pre & post & Hs).
    repeat split; try assumption. right. exists "/p/", pre, post. split; [now left | exact Hs]. }
  destruct (Downloader.search "/reel/" url) as [code |] eqn:Hr.
  { destruct (search_some _ _ _ Hr) as (Hne & Hall & pre & post & Hs).
    repeat split; try assumption. right. exists "/reel/", pre, post.
    split; [right; now left | exact Hs]. }
  destruct (Downloader.search "/reels/" url) as [code |] eqn:Hrs.
  { destruct (search_some _ _ _ Hrs) as (Hne & Hall & pre & post & Hs).
    repeat split; try assumption. right. exists "/reels/", pre, post.
    split; [right; right; now left | exact Hs]. }
  split; [discriminate |]. split; [reflexivity | now left].
Qed.

Lemma search_step (lit : string) (c : ascii) (s : string) :
  Downloader.match_here lit (String c s) = None ->
  Downloader.search lit (String c s) = Downloader.search lit s.
Proof. intros H. cbn [Downloader.search]. now rewrite H. Qed.

Lemma match_here_needs_slash (l : string) (c : ascii) (s : string) :
  Ascii.eqb "/" c = false -> Downloader.match_here (String "/" l) (String c s) = None.
Proof. intros H. unfold Downloader.match_here. cbn [PyStr.startswith]. now rewrite H. Qed.

Lemma contains_slash_cons (c : ascii) (s : string) :
  PyStr.contains "/" (String c s) = Ascii.eqb "/" c || PyStr.contains "/" s.
Proof.
  cbn [PyStr.contains PyStr.startswith]. destruct (Ascii.eqb "/" c); reflexivity.
Qed.

(** no match in a text without [/] *)
Lemma search_no_slash (l s : string) :
  PyStr.contains "/" s = false -> Downloader.search (String "/" l) s = None.
Proof.
  induction s as [|c s IH]; intros H.
  - reflexivity.
  - rewrite contains_slash_cons in H. apply orb_false_iff in H as [Hc Hs].
    rewrite search_step by now apply match_here_needs_slash. now apply IH.
Qed.

(** a prefix without [/] is skipped *)
Lemma search_skip_prefix (l pre s : string) :
  PyStr.contains "/" pre = false ->
  Downloader.search (String "/" l) (pre +:+ s) = Downloader.search (String "/" l) s.
Proof.
  induction pre as [|c pre IH]; intros H.
  - reflexivity.
  - rewrite contains_slash_cons in H. apply orb_false_iff in H as [Hc Hs].
    rewrite append_cons, search_step by now apply match_here_needs_slash. now apply IH.
Qed.

Lemma code_no_slash (code : string) :
  all_chars Downloader.is_code_char code = true -> PyStr.contains "/" code = false.
Proof.
  induction code as [|c code IH]; intros H; [reflexivity |].
  cbn [all_chars] in H. apply andb_true_iff in H as [Hc Hall].
  rewrite contains_slash_cons, (code_char_not_slash c Hc). now apply IH.
Qed.

Lemma span_rest_no_slash (s run rest : string) :
  PyStr.contains "/" s = false ->
  Downloader.span_code s = (run, rest) -> PyStr.startswith "/" rest = false.
Proof.
  revert run rest. induction s as [|c s IH]; intros run rest Hs H; cbn [Downloader.span_code] in H.
  - now injection H as <- <-.
  - rewrite contains_slash_cons in Hs. apply orb_false_iff in Hs as [Hc Hs].
    destruct (Downloader.is_code_char c).
    + destruct (Downloader.span_code s) as [run' rest'] eqn:Hsp.
      injection H as <- <-. now apply (IH run' rest').
    + injection H as <- <-. cbn [PyStr.startswith]. now rewrite Hc.
Qed.

(** the code of a URL is delimited by the first [/] after it *)
Lemma split_at_slash (a b r1 r2 : string) :
  PyStr.contains "/" a = false -> PyStr.contains "/" b = false ->
  a +:+ "/" +:+ r1 = b +:+ "/" +:+ r2 -> a = b /\ r1 = r2.
Proof.
  revert b. induction a as [|x a IH]; intros [|y b] Ha Hb H.
  - change (String "/" r1 = String "/" r2) in H. injection H as ->. now split.
  - rewrite append_cons in H. injection H as <- _.
    rewrite contains_slash_cons in Hb. discriminate Hb.
  - rewrite append_cons in H. injection H as -> _.
    rewrite contains_slash_cons in Ha. discriminate Ha.
  - rewrite !append_cons in H. injection H as -> H.
    rewrite contains_slash_cons in Ha, Hb.
    apply orb_false_iff in Ha as [_ Ha]. apply orb_false_iff in Hb as [_ Hb].
    destruct (IH b Ha Hb H) as [-> ->]. now split.
Qed.

(** at the [/] that ends the pattern of another kind, or the code, there
    is no match: the text after the next [/] holds no further [/] *)
Lemma match_here_last_slash (x code query : string) :
  all_chars Downloader.is_code_char x = true ->
  all_chars Downloader.is_code_char code = true ->
  PyStr.contains "/" query = false ->
  Downloader.match_here ("/" +:+ x +:+ "/") ("/" +:+ code +:+ "/" +:+ query) = None.
Proof.
  intros Hx Hcode Hq. unfold Downloader.match_here.
  destruct (PyStr.startswith _ _) eqn:Hs; [| reflexivity].
  apply startswith_split in Hs.
  remember (Downloader.drop _ _) as rest eqn:Hrest. clear Hrest.
  change ("/" +:+ x +:+ "/") with (String "/" (x +:+ "/")) in Hs.
  change ("/" +:+ code +:+ "/" +:+ query) with (String "/" (code +:+ "/" +:+ query)) in Hs.
  rewrite append_cons in Hs. injection Hs as Hs. rewrite append_assoc_s in Hs.
  apply split_at_slash in Hs as [_ <-]; [| now apply code_no_slash..].
  destruct (Downloader.span_code query) as [run rest] eqn:Hsp.
  rewrite (span_rest_no_slash _ _ _ Hq Hsp). now rewrite andb_false_r.
Qed.

Lemma startswith_needs_slash (l q : string) :
  PyStr.contains "/" l = true -> PyStr.contains "/" q = false -> PyStr.startswith l q = false.
Proof.
  revert q. induction l as [|a l IH]; intros q Hl Hq; [discriminate Hl |].
  destruct q as [|b q]; [reflexivity |].
  cbn [PyStr.startswith]. destruct (Ascii.eqb a b) eqn:Hab; [| reflexivity].
  apply Ascii.eqb_eq in Hab. subst b.
  rewrite contains_slash_cons in Hl, Hq. apply orb_false_iff in Hq as [Ha Hq].
  rewrite Ha in Hl. now apply IH.
Qed.

(** from the [/] before the code on, a URL whose query holds no [/]
    matches none of the patterns *)
Lemma search_tail_none (x code query : string) :
  all_chars Downloader.is_code_char x = true ->
  all_chars Downloader.is_code_char code = true ->
  PyStr.contains "/" query = false ->
  Downloader.search ("/" +:+ x +:+ "/") ("/" +:+ code +:+ "/" +:+ query) = None.
Proof.
  intros Hx Hcode Hq.
  pose proof (match_here_last_slash x code query Hx Hcode Hq) as Hm.
  change ("/" +:+ code +:+ "/" +:+ query) with (String "/" (code +:+ "/" +:+ query)) in *.
  change ("/" +:+ x +:+ "/") with (String "/" (x +:+ "/")) in *.
  rewrite (search_step _ _ _ Hm).
  rewrite search_skip_prefix by now apply code_no_slash.
  change ("/" +:+ query) with (String "/" query).
  rewrite search_step; [now apply search_no_slash |].
  unfold Downloader.match_here. cbn [PyStr.startswith]. rewrite Ascii.eqb_refl.
  rewrite startswith_needs_slash; [reflexivity | | exact Hq].
  clear. induction x as [|c x IH]; [reflexivity |].
  rewrite append_cons. now apply contains_skip.
Qed.

Lemma search_here (lit code query : string) :
  code <> "" -> all_chars Downloader.is_code_char code = true ->
  Downloader.search lit (lit +:+ code +:+ "/" +:+ query) = Some code.
Proof.
  intros Hne Hall.
  assert (Hm : Downloader.match_here lit (lit +:+ code +:+ "/" +:+ query) = Some code).
  { unfold Downloader.match_here. rewrite startswith_app, drop_app, (span_code_app _ _ Hall).
    destruct code; [contradiction | reflexivity]. }
  destruct (lit +:+ code +:+ "/" +:+ query); cbn [Downloader.search]; now rewrite Hm.
Qed.

Lemma match_here_second (a c : ascii) (l s : string) :
  Ascii.eqb a c = false ->
  Downloader.match_here (String "/" (String a l)) (String "/" (String c s)) = None.
Proof.
  intros H. unfold Downloader.match_here. cbn [PyStr.startswith].
  now rewrite Ascii.eqb_refl, H.
Qed.

(** scheme and host are skipped by the three patterns *)
Lemma search_skip_host (a : ascii) (l rest : string) :
  Ascii.eqb a "/" = false -> Ascii.eqb a "w" = false ->
  Downloader.search (String "/" (String a l)) ("https://www.instagram.com" +:+ rest)
  = Downloader.search (String "/" (String a l)) rest.
Proof.
  intros Hs Hw.
  change ("https://www.instagram.com" +:+ rest)
    with ("https:" +:+ String "/" (String "/" ("www.instagram.com" +:+ rest))).
  rewrite search_skip_prefix by reflexivity.
  rewrite search_step by now apply match_here_second.
  change ("www.instagram.com" +:+ rest) with (String "w" ("ww.instagram.com" +:+ rest)).
  rewrite search_step by now apply match_here_second.
  change (String "w" ("ww.instagram.com" +:+ rest)) with ("www.instagram.com" +:+ rest).
  now rewrite search_skip_prefix by reflexivity.
Qed.

(** Round trip of the shortcode: for a post, reel or reels URL of
    [www.instagram.com] built from a shortcode of letters, digits, [_]
    and [-] and a query without [/], the reconstructed descriptor carries
    that shortcode. *)
Theorem extracted_code_round_trip (code query : string) :
  code <> "" ->
  all_chars Downloader.is_code_char code = true ->
  PyStr.contains "/" query = false ->
  Downloader._extract_code_from_url
    ("https://www.instagram.com" +:+ "/p/" +:+ code +:+ "/" +:+ query) = code /\
  Downloader._extract_code_from_url
    ("https://www.instagram.com" +:+ "/reel/" +:+ code +:+ "/" +:+ query) = code /\
  Downloader._extract_code_from_url
    ("https://www.instagram.com" +:+ "/reels/" +:+ code +:+ "/" +:+ query) = code.
Proof.
  intros Hne Hall Hq.
  assert (Hp : forall lit, Downloader.search lit (lit +:+ code +:+ "/" +:+ query) = Some code)
    by (intros lit; now apply search_here).
  assert (Ht : forall x, all_chars Downloader.is_code_char x = true ->
                 Downloader.search ("/" +:+ x +:+ "/") ("/" +:+ code +:+ "/" +:+ query) = None)
    by (intros x Hx; now apply search_tail_none).
  unfold Downloader._extract_code_from_url.
  rewrite !search_skip_host by reflexivity.
  rewrite !Hp.
  (* a pattern of another kind: no match at the [/] that opens the path *)
  assert (Hreel_p : Downloader.search "/p/" ("/reel/" +:+ code +:+ "/" +:+ query) = None).
  { change ("/reel/" +:+ code +:+ "/" +:+ query)
      with (String "/" (String "r" ("eel" +:+ "/" +:+ code +:+ "/" +:+ query))).
    rewrite search_step by now apply match_here_second.
    change (String "r" ("eel" +:+ "/" +:+ code +:+ "/" +:+ query))
      with ("reel" +:+ "/" +:+ code +:+ "/" +:+ query).
    rewrite search_skip_prefix by reflexivity. now apply (Ht "p"). }
  assert (Hreels_p : Downloader.search "/p/" ("/reels/" +:+ code +:+ "/" +:+ query) = None).
  { change ("/reels/" +:+ code +:+ "/" +:+ query)
      with (String "/" (String "r" ("eels" +:+ "/" +:+ code +:+ "/" +:+ query))).
    rewrite search_step by now apply match_here_second.
    change (String "r" ("eels" +:+ "/" +:+ code +:+ "/" +:+ query))
      with ("reels" +:+ "/" +:+ code +:+ "/" +:+ query).
    rewrite search_skip_prefix by reflexivity. now apply (Ht "p"). }
  assert (Hreels_reel :
            Downloader.search "/reel/" ("/reels/" +:+ code +:+ "/" +:+ query) = None).
  { change ("/reels/" +:+ code +:+ "/" +:+ query)
      with (String "/" ("reels" +:+ "/" +:+ code +:+ "/" +:+ query)).
    rewrite search_step by reflexivity.
    rewrite search_skip_prefix by reflexivity. now apply (Ht "reel"). }
  rewrite Hreel_p, Hreels_p, Hreels_reel. now repeat split.
Qed.

Lemma extracted_code_round_trip_witness :
  Downloader._extract_code_from_url "https://www.instagram.com/p/Cabc123/" = "Cabc123" /\
  Downloader._extract_code_from_url "https://www.instagram.com/reel/Cxyz123AbC/?igshid=p" = "Cxyz123AbC" /\
  Downloader._extract_code_from_url "https://www.instagram.com/reels/p/" = "p".
Proof.
  split; [| split].
  - apply (extracted_code_round_trip "Cabc123" ""); [discriminate | reflexivity..].
  - apply (extracted_code_round_trip "Cxyz123AbC" "?igshid=p"); [discriminate | reflexivity..].
  - apply (extracted_code_round_trip "p" ""); [discriminate | reflexivity..].
Defined.

(** ** Postconditions of runs *)

Lemma wp_ret {W A} (a : A) (s : state W) (Q : outcome A -> state W -> Prop) :
  Q (Ret a) s -> wp (ret a) s Q.
Proof. intros H r s' Hrun. now injection Hrun as <- <-. Qed.

Lemma wp_raise {W A} (e : exn) (s : state W) (Q : outcome A -> state W -> Prop) :
  Q (Raise e) s -> wp (raise e) s Q.
Proof. intros H r s' Hrun. now injection Hrun as <- <-. Qed.

Lemma wp_bind {W A B} (m : M W A) (k : A -> M W B) (s : state W)
    (Q : outcome B -> state W -> Prop) :
  wp m s (fun r s1 => match r with
                      | Ret a => wp (k a) s1 Q
                      | Raise e => Q (Raise e) s1
                      end) ->
  wp (bind m k) s Q.
Proof.
  intros H r s' Hrun. unfold bind in Hrun.
  destruct (m s) as [[a | e] s1] eqn:Hm; specialize (H _ _ Hm); cbn beta iota in H.
  - now apply H.
  - now injection Hrun as <- <-.
Qed.

Lemma wp_try {W A} (m : M W A) (h : exn -> M W A) (s : state W)
    (Q : outcome A -> state W -> Prop) :
  wp m s (fun r s1 => match r with
                      | Ret a => Q (Ret a) s1
                      | Raise e => wp (h e) s1 Q
                      end) ->
  wp (try_except m h) s Q.
Proof.
  intros H r s' Hrun. unfold try_except in Hrun.
  destruct (m s) as [[a | e] s1] eqn:Hm; specialize (H _ _ Hm); cbn beta iota in H.
  - now injection Hrun as <- <-.
  - now apply H.
Qed.

Lemma wp_call {W A} (op : string) (args : list string) (f : W -> outcome A * W)
    (s : state W) (Q : outcome A -> state W -> Prop) :
  (forall o w', f (world s) = (o, w') ->
                Q o (St w' (trace s ++ [EvCall op args (raised_of o)]))) ->
  wp (call op args f) s Q.
Proof.
  intros H r s' Hrun. unfold call in Hrun.
  destruct (f (world s)) as [o w'] eqn:Hf. injection Hrun as <- <-. now apply H.
Qed.

Lemma wp_auth {W} (tag : string) (fields : list json) (s : state W)
    (Q : outcome unit -> state W -> Prop) :
  Q (Ret tt) (St (world s) (trace s ++ [EvAuth tag fields])) ->
  wp (auth_log tag fields) s Q.
Proof. intros H r s' Hrun. now injection Hrun as <- <-. Qed.

Lemma wp_mono {W A} (m : M W A) (s : state W) (Q Q' : outcome A -> state W -> Prop) :
  wp m s Q -> (forall r s', Q r s' -> Q' r s') -> wp m s Q'.
Proof. intros H HQ r s' Hrun. apply HQ, H, Hrun. Qed.

Lemma wp_run {W A} (m : M W A) (s : state W) (Q : outcome A -> state W -> Prop) :
  wp m s Q -> Q (fst (m s)) (snd (m s)).
Proof. intros H. apply H. now destruct (m s). Qed.

(** one step of symbolic execution; calls into the environment are
    split by outcome *)
Ltac wp_step :=
  lazymatch goal with
  | |- wp (ret _) _ _ => apply wp_ret
  | |- wp (raise _) _ _ => apply wp_raise
  | |- wp (auth_log _ _) _ _ => apply wp_auth
  | |- wp (call _ _ _) _ _ =>
      let o := fresh "o" in let Hcall := fresh "Hcall" in
      apply wp_call; intros o ? Hcall; destruct o; cbn [raised_of]
  | |- wp (bind _ _) _ _ => apply wp_bind
  | |- wp (try_except _ _) _ _ => apply wp_try
  | |- wp (match ?x with _ => _ end) _ _ => destruct x eqn:?
  | |- wp (let '(_, _) := ?x in _) _ _ => destruct x eqn:?
  end.

Ltac wp_auto := repeat (wp_step; cbn beta iota).

(** ** The media type of a reconstructed descriptor *)

(** closes [trace s' = trace s ++ ?evs] for the state of a leaf *)
Ltac trace_eq :=
  cbn [trace world];
  first [ symmetry; apply app_nil_r
        | rewrite <- ?app_assoc; reflexivity ].

(** [_detect_media_type_fallback] always answers 1 or 2.  A URL holding
    [/reel/], [/reels/] or [/p/] gives 2 with no call at all; otherwise it
    probes with downloads into [<TEMP_FOLDER>/probe_<pk>] and answers 1
    only when the video probe left no file and the photo probe returned a
    file. *)
Theorem media_type_fallback_answers {W : Type} (E : Downloader.env W) (pk url : string)
    (s : state W) :
  let temp := Path.join (Downloader.TEMP_FOLDER W E) ("probe_" +:+ pk) in
  exists t s' evs,
    Downloader._detect_media_type_fallback E pk url s = (Ret t, s') /\
    trace s' = trace s ++ evs /\
    (t = 1 \/ t = 2) /\
    (PyStr.contains "/reel/" url || PyStr.contains "/reels/" url || PyStr.contains "/p/" url
     = true -> t = 2 /\ s' = s) /\
    (t = 1 ->
     In (EvCall "client.photo_download" [pk; temp] None) evs /\
     exists o, In (EvCall "client.video_download" [pk; temp] o) evs) /\
    forallb (only ["Path.mkdir"; "client.video_download"; "client.photo_download";
                   "Path.exists"; "Path.unlink"; "Path.rmdir"] []) evs = true.
Proof.
  cbv zeta.
  set (Q := fun (r : outcome Z) (s' : state W) =>
              exists t evs, r = Ret t /\ trace s' = trace s ++ evs /\
                (t = 1 \/ t = 2) /\
                (PyStr.contains "/reel/" url || PyStr.contains "/reels/" url
                 || PyStr.contains "/p/" url = true -> t = 2 /\ s' = s) /\
                (t = 1 ->
                 In (EvCall "client.photo_download"
                       [pk; Path.join (Downloader.TEMP_FOLDER W E) ("probe_" +:+ pk)] None) evs /\
                 exists o, In (EvCall "client.video_download"
                       [pk; Path.join (Downloader.TEMP_FOLDER W E) ("probe_" +:+ pk)] o) evs) /\
                forallb (only ["Path.mkdir"; "client.video_download"; "client.photo_download";
                               "Path.exists"; "Path.unlink"; "Path.rmdir"] []) evs = true).
  assert (H : wp (Downloader._detect_media_type_fallback E pk url) s Q).
  { unfold Downloader._detect_media_type_fallback, Downloader.probe.
    destruct (PyStr.contains "/reel/" url || PyStr.contains "/reels/" url) eqn:Hreel.
    { apply wp_try, wp_ret. exists 2, []. rewrite app_nil_r.
      repeat split; auto; intros; discriminate. }
    destruct (PyStr.contains "/p/" url) eqn:Hp.
    { apply wp_try, wp_ret. exists 2, []. rewrite app_nil_r.
      repeat split; auto; intros; discriminate. }
    wp_auto; unfold Q; eexists _, _; (split; [reflexivity |]); (split; [trace_eq |]);
      (split; [auto |]); (split; [intros Hu; discriminate Hu |]);
      (split; [| reflexivity]);
      intros Ht; try discriminate Ht; (split; [simpl; tauto | eexists; simpl; eauto 10]). }
  destruct (Downloader._detect_media_type_fallback E pk url s) as [r s'] eqn:Hrun.
  destruct (H r s' Hrun) as (t & evs & -> & Ht & Hr & Hu & H1 & Hf).
  now exists t, s', evs.
Qed.

(** ** The candidates of the raw download *)

(** rewrites the traces of intermediate states into extensions of the
    trace of the first state *)
Ltac trace_norm :=
  cbn [trace world];
  repeat match goal with
         | H : trace ?x = _ |- context [trace ?x] => rewrite H
         end;
  rewrite <- ?app_assoc.

Section Written.
Context {W : Type} (E : Downloader.env W) (p : string).

Local Abbreviation saved :=
  [EvCall "Path.mkdir" [Path.parent p] None; EvCall "write" [p] None;
   EvCall "Path.stat" [p] None].

(** the events since [s0] end with the writing of [p] when the answer
    is [True] *)
Local Abbreviation written s0 :=
  (fun (r : outcome bool) (s' : state W) =>
     exists evs, trace s' = trace s0 ++ evs /\
                 (r = Ret true -> exists pre, evs = pre ++ saved)).

Ltac leaf :=
  eexists; (split; [trace_norm; reflexivity |]);
  first [ intros Hb; discriminate Hb
        | intros _; eexists; reflexivity ].

Ltac use_spec lem :=
  eapply wp_mono;
  [ eapply lem; trace_norm; reflexivity
  | let r := fresh "r" in let evs := fresh "evs" in
    let Ht := fresh "Ht" in let Hw := fresh "Hw" in
    intros r ? (evs & Ht & Hw); cbn beta iota ].

Lemma write_downloaded_file_written (resp : Downloader.response) (s s0 : state W)
    (pre : list event) :
  trace s = trace s0 ++ pre ->
  wp (Downloader._write_downloaded_file E resp p) s (written s0).
Proof.
  intros Hs. unfold Downloader._write_downloaded_file. wp_auto; leaf.
Qed.

Lemma get_raw_media_data_extends (pk : string) (s s0 : state W) (pre : list event) :
  trace s = trace s0 ++ pre ->
  wp (Downloader._get_raw_media_data E pk) s
     (fun r s' => exists d evs, r = Ret d /\ trace s' = trace s0 ++ evs).
Proof.
  intros Hs. unfold Downloader._get_raw_media_data, PyOps.get.
  wp_auto; eexists _, _; (split; [reflexivity |]); trace_norm; reflexivity.
Qed.

Lemma try_fresh_urls_written (fresh_urls : list json) (original : json) :
  forall (s s0 : state W) (pre : list event),
    trace s = trace s0 ++ pre ->
    wp (Downloader.try_fresh_urls E fresh_urls original p) s (written s0).
Proof.
  induction fresh_urls as [|u urls IH]; intros s s0 pre Hs; cbn [Downloader.try_fresh_urls].
  - apply wp_ret. leaf.
  - destruct (negb (Py.eqb u original)); [| now apply (IH s s0 pre)].
    destruct (Downloader.sliceable u); [| apply wp_raise; leaf].
    unfold Downloader.get_candidate. destruct u; try (apply wp_bind, wp_raise; leaf).
    apply wp_bind. wp_step; [| leaf].
    destruct (_ =? 200).
    + eapply write_downloaded_file_written. trace_norm. reflexivity.
    + eapply IH. trace_norm. reflexivity.
Qed.

Lemma retry_with_fresh_url_written (url : json) (s s0 : state W) (pre : list event) :
  trace s = trace s0 ++ pre ->
  wp (Downloader._retry_with_fresh_url E url p) s (written s0).
Proof.
  intros Hs. unfold Downloader._retry_with_fresh_url.
  apply wp_try. destruct (PyStr.contains "instagram_" (Path.stem p)); [| apply wp_ret; leaf].
  apply wp_bind.
  eapply wp_mono; [eapply get_raw_media_data_extends; exact Hs |].
  intros ? s1 (d & evs1 & -> & Ht1). cbn beta iota.
  destruct d as [data |]; [| apply wp_ret; leaf].
  destruct (Py.truthy data); [| apply wp_ret; leaf].
  use_spec try_fresh_urls_written.
  destruct r as [b | e]; [now exists evs |]. apply wp_ret. leaf.
Qed.

Lemma retry_with_enhanced_auth_written (url : json) (s s0 : state W) (pre : list event) :
  trace s = trace s0 ++ pre ->
  wp (Downloader._retry_with_enhanced_auth E url p) s (written s0).
Proof.
  intros Hs. unfold Downloader._retry_with_enhanced_auth, Downloader.get_candidate.
  apply wp_try, wp_bind. wp_auto;
    try solve [leaf | eapply write_downloaded_file_written; trace_norm; reflexivity].
  all: use_spec write_downloaded_file_written;
    (destruct r; [now exists evs | apply wp_ret; leaf]).
Qed.

Lemma download_file_direct_http_written (url : json) (s s0 : state W) (pre : list event) :
  trace s = trace s0 ++ pre ->
  wp (Downloader._download_file_direct_http E url p) s (written s0).
Proof.
  intros Hs. unfold Downloader._download_file_direct_http, Downloader.get_candidate.
  apply wp_try. destruct (negb (Downloader.sliceable url)); [apply wp_raise, wp_ret; leaf |].
  apply wp_bind. destruct url; try (apply wp_raise, wp_ret; leaf).
  wp_step; [| apply wp_ret; leaf].
  destruct (_ =? 200);
    [| destruct (_ =? 404); [| destruct (_ =? 403); [| apply wp_ret; leaf]]].
  - use_spec write_downloaded_file_written.
    destruct r; [now exists evs | apply wp_ret; leaf].
  - use_spec retry_with_fresh_url_written.
    destruct r; [now exists evs | apply wp_ret; leaf].
  - use_spec retry_with_enhanced_auth_written.
    destruct r; [now exists evs | apply wp_ret; leaf].
Qed.

Lemma try_urls_written (urls : list json) :
  forall (s s0 : state W) (pre : list event),
    trace s = trace s0 ++ pre ->
    wp (Downloader.try_urls E urls p) s (written s0).
Proof.
  induction urls as [|u urls IH]; intros s s0 pre Hs; cbn [Downloader.try_urls].
  - apply wp_ret. leaf.
  - apply wp_bind, wp_try, wp_bind.
    use_spec download_file_direct_http_written.
    destruct r as [[|] | e].
    + apply wp_ret, wp_ret. exists evs. split; [exact Ht | intros _; now apply Hw].
    + apply wp_ret. eapply IH. exact Ht.
    + apply wp_ret. eapply IH. exact Ht.
Qed.

Lemma download_with_url_fallbacks_written (urls : list json) (s s0 : state W)
    (pre : list event) :
  trace s = trace s0 ++ pre ->
  wp (Downloader._download_with_url_fallbacks E urls p) s (written s0).
Proof.
  intros Hs. unfold Downloader._download_with_url_fallbacks. apply wp_try.
  use_spec try_urls_written. destruct r; [now exists evs | apply wp_ret; leaf].
Qed.

End Written.

(** [_download_with_url_fallbacks] always returns a boolean, and [True]
    only when the last three calls it made are the creation of the parent
    folder, the writing of the response to [file_path] and the reading of
    its size, none of which raised. *)
Theorem url_fallbacks_true_means_written {W : Type} (E : Downloader.env W)
    (urls : list json) (file_path : string) (s : state W) :
  exists b s',
    Downloader._download_with_url_fallbacks E urls file_path s = (Ret b, s') /\
    (b = true ->
     exists evs,
       trace s' = trace s ++ evs ++
                  [EvCall "Path.mkdir" [Path.parent file_path] None;
                   EvCall "write" [file_path] None;
                   EvCall "Path.stat" [file_path] None]).
Proof.
  pose proof (try_urls_written E file_path urls s s [] (eq_sym (app_nil_r _))) as H.
  unfold Downloader._download_with_url_fallbacks, try_except.
  destruct (Downloader.try_urls E urls file_path s) as [[b | e] s1] eqn:Hrun.
  - exists b, s1. split; [reflexivity |]. intros ->.
    destruct (H _ _ Hrun) as (evs & Ht & Hw). destruct (Hw eq_refl) as [pre ->].
    now exists pre.
  - exists false, s1. split; [reflexivity | discriminate].
Qed.

Lemma try_urls_after_failures {W : Type} (E : Downloader.env W) (p : string)
    (before : list json) (s s1 : state W) :
  failed_candidates E p before s s1 ->
  forall rest, Downloader.try_urls E (before ++ rest) p s = Downloader.try_urls E rest p s1.
Proof.
  induction 1 as [s | url urls s s1 s2 Hurl Hrest IH]; intros rest; [reflexivity |].
  cbn [app Downloader.try_urls]. unfold bind at 1, try_except at 1, bind at 1.
  rewrite Hurl. unfold ret at 1 2. apply IH.
Qed.

(** The candidates are tried in order and the first success ends the
    loop: when the candidates [before] all fail, the call answers [False]
    for [before] alone, and for [before ++ url :: after] it answers what
    the download of [url] answers when that is [True], in the state that
    download leaves, so that no candidate of [after] is requested. *)
Theorem url_fallbacks_stop_at_first_success {W : Type} (E : Downloader.env W)
    (file_path : string) (before : list json) (s s1 : state W) :
  failed_candidates E file_path before s s1 ->
  Downloader._download_with_url_fallbacks E before file_path s = (Ret false, s1) /\
  (forall url after s2,
      Downloader._download_file_direct_http E url file_path s1 = (Ret true, s2) ->
      Downloader._download_with_url_fallbacks E (before ++ url :: after) file_path s
      = (Ret true, s2)).
Proof.
  intros Hfail. unfold Downloader._download_with_url_fallbacks, try_except. split.
  - rewrite <- (app_nil_r before), (try_urls_after_failures E file_path before s s1 Hfail).
    reflexivity.
  - intros url after s2 Hurl.
    rewrite (try_urls_after_failures E file_path before s s1 Hfail).
    cbn [Downloader.try_urls]. unfold bind at 1, try_except at 1, bind at 1.
    rewrite Hurl. reflexivity.
Qed.

Lemma url_fallbacks_stop_at_first_success_witness :
  let E := Scenario.dl_env (Raise Scenario.validation_error) true true in
  let p := "input_videos/instagram_3141592653589793238.mp4" in
  exists s2,
    Downloader._download_with_url_fallbacks E
      [JStr Scenario.url_refused; JStr Scenario.url_fresh; JStr Scenario.url_expired] p
      Scenario.net0 = (Ret true, s2) /\
    calls_of "client.private.get" (trace s2) = 4%nat.
Proof.
  cbv zeta.
  assert (Hfail : exists s1,
             failed_candidates (Scenario.dl_env (Raise Scenario.validation_error) true true)
               "input_videos/instagram_3141592653589793238.mp4"
               [JStr Scenario.url_refused] Scenario.net0 s1).
  { eexists. econstructor; [vm_compute; reflexivity | constructor]. }
  destruct Hfail as [s1 Hfail].
  assert (Hs1 : s1 = snd (Downloader._download_file_direct_http
                            (Scenario.dl_env (Raise Scenario.validation_error) true true)
                            (JStr Scenario.url_refused)
                            "input_videos/instagram_3141592653589793238.mp4" Scenario.net0)).
  { inversion Hfail as [| ? ? ? ? ? Hurl Hnil]; subst. inversion Hnil; subst.
    now rewrite Hurl. }
  destruct (url_fallbacks_stop_at_first_success _ _ _ _ _ Hfail) as [_ Hgo].
  eexists. split.
  - apply (Hgo (JStr Scenario.url_fresh) [JStr Scenario.url_expired]).
    rewrite Hs1. vm_compute. reflexivity.
  - vm_compute. reflexivity.
Defined.

(** ** The raw download as a whole *)

Section RawDownload.
Context {W : Type} (E : Downloader.env W).

Local Abbreviation raw_ops :=
  ["client.private.get"; "Path.mkdir"; "write"; "Path.stat"; "Path.exists"].

Lemma get_raw_media_data_raw (pk : string) :
  emits (only raw_ops []) (Downloader._get_raw_media_data E pk).
Proof. unfold Downloader._get_raw_media_data, PyOps.get. emits_auto. Qed.

Lemma write_downloaded_file_raw (resp : Downloader.response) (p : string) :
  emits (only raw_ops []) (Downloader._write_downloaded_file E resp p).
Proof. unfold Downloader._write_downloaded_file. emits_auto. Qed.

Lemma get_candidate_raw (url : json) (h : Downloader.headers) :
  emits (only raw_ops []) (Downloader.get_candidate E url h).
Proof. unfold Downloader.get_candidate. emits_auto. Qed.
Hint Resolve get_raw_media_data_raw write_downloaded_file_raw get_candidate_raw : emits.

Lemma try_fresh_urls_raw (urls : list json) (original : json) (p : string) :
  emits (only raw_ops []) (Downloader.try_fresh_urls E urls original p).
Proof. induction urls as [|u urls IH]; cbn [Downloader.try_fresh_urls]; emits_auto. Qed.
Hint Resolve try_fresh_urls_raw : emits.

Lemma retry_with_fresh_url_raw (url : json) (p : string) :
  emits (only raw_ops []) (Downloader._retry_with_fresh_url E url p).
Proof. unfold Downloader._retry_with_fresh_url. emits_auto. Qed.

Lemma retry_with_enhanced_auth_raw (url : json) (p : string) :
  emits (only raw_ops []) (Downloader._retry_with_enhanced_auth E url p).
Proof. unfold Downloader._retry_with_enhanced_auth. emits_auto. Qed.
Hint Resolve retry_with_fresh_url_raw retry_with_enhanced_auth_raw : emits.

Lemma download_file_direct_http_raw (url : json) (p : string) :
  emits (only raw_ops []) (Downloader._download_file_direct_http E url p).
Proof. unfold Downloader._download_file_direct_http. emits_auto. Qed.
Hint Resolve download_file_direct_http_raw : emits.

Lemma try_urls_raw (urls : list json) (p : string) :
  emits (only raw_ops []) (Downloader.try_urls E urls p).
Proof. induction urls as [|u urls IH]; cbn [Downloader.try_urls]; emits_auto. Qed.
Hint Resolve try_urls_raw : emits.

Lemma download_with_url_fallbacks_raw (urls : list json) (p : string) :
  emits (only raw_ops []) (Downloader._download_with_url_fallbacks E urls p).
Proof. unfold Downloader._download_with_url_fallbacks. emits_auto. Qed.
Hint Resolve download_with_url_fallbacks_raw : emits.

Lemma fallback_download_direct_raw (pk : string) (mt : json) (folder : string) :
  emits (only raw_ops []) (Downloader._fallback_download_direct E pk mt folder).
Proof. unfold Downloader._fallback_download_direct. emits_auto. Qed.

End RawDownload.

Lemma only_no_calls (ops tags : list string) (op : string) (evs : list event) :
  existsb (String.eqb op) ops = false ->
  forallb (only ops tags) evs = true -> calls_of op evs = 0%nat.
Proof.
  intros Hop. induction evs as [|ev evs IH]; intros H; [reflexivity |].
  cbn [forallb] in H. apply andb_true_iff in H as [Hev Hevs].
  cbn [calls_of]. rewrite (IH Hevs).
  destruct ev as [o args r | tag fields]; [| reflexivity].
  cbn [is_call only] in *. destruct (String.eqb o op) eqn:Ho; [| reflexivity].
  apply String.eqb_eq in Ho. subst o. rewrite Hop in Hev. discriminate Hev.
Qed.

(** The raw download keeps clear of instagrapi's parsed methods: whatever
    the outcome, the calls of [_fallback_download_direct] are requests
    through the session of the client and file operations only; it never
    calls [client.media_info], [client.video_download] or
    [client.photo_download], and it writes no audit record. *)
Theorem raw_download_bypasses_instagrapi {W : Type} (E : Downloader.env W)
    (media_pk : string) (media_type : json) (folder_path : string) (s : state W) :
  exists evs,
    trace (snd (Downloader._fallback_download_direct E media_pk media_type folder_path s))
    = trace s ++ evs /\
    forallb (only ["client.private.get"; "Path.mkdir"; "write"; "Path.stat"; "Path.exists"] [])
      evs = true /\
    calls_of "client.media_info" evs = 0%nat /\
    calls_of "client.video_download" evs = 0%nat /\
    calls_of "client.photo_download" evs = 0%nat.
Proof.
  destruct (Downloader._fallback_download_direct E media_pk media_type folder_path s)
    as [r s'] eqn:Hrun.
  destruct (fallback_download_direct_raw E media_pk media_type folder_path s r s' Hrun)
    as (evs & Ht & Hf).
  exists evs. cbn [snd]. split; [exact Ht |]. split; [exact Hf |].
  repeat split; (eapply only_no_calls; [| exact Hf]; reflexivity).
Qed.

(** ** The shape of a fingerprint *)

Lemma hex_digit_is_hex (d : Z) : 0 <= d < 16 -> is_hex_char (Hashlib.hex_digit d) = true.
Proof.
  intros H.
  assert (Hd : d = 0 \/ d = 1 \/ d = 2 \/ d = 3 \/ d = 4 \/ d = 5 \/ d = 6 \/ d = 7 \/
               d = 8 \/ d = 9 \/ d = 10 \/ d = 11 \/ d = 12 \/ d = 13 \/ d = 14 \/ d = 15)
    by lia.
  repeat (destruct Hd as [-> | Hd]; [reflexivity |]). subst d. reflexivity.
Qed.

Lemma hex_of_bytes_length (bs : list Z) :
  String.length (Hashlib.hex_of_bytes bs) = (2 * length bs)%nat.
Proof. induction bs as [|b bs IH]; [reflexivity |]. cbn [Hashlib.hex_of_bytes String.length length]. lia. Qed.

Lemma hex_of_bytes_hex (bs : list Z) :
  Forall (fun b => 0 <= b < 256) bs ->
  all_chars is_hex_char (Hashlib.hex_of_bytes bs) = true.
Proof.
  induction 1 as [|b bs Hb Hbs IH]; [reflexivity |].
  cbn [Hashlib.hex_of_bytes all_chars]. rewrite IH, !hex_digit_is_hex; [reflexivity | |].
  - apply Z.mod_pos_bound. lia.
  - split; [apply Z.div_pos; lia | apply Z.div_lt_upper_bound; lia].
Qed.

Lemma le_bytes_length (n : nat) (x : Z) : length (Hashlib.le_bytes n x) = n.
Proof. unfold Hashlib.le_bytes. now rewrite length_map, length_seq. Qed.

Lemma le_bytes_range (n : nat) (x : Z) : Forall (fun b => 0 <= b < 256) (Hashlib.le_bytes n x).
Proof.
  unfold Hashlib.le_bytes. apply Forall_map, Forall_forall. intros i _.
  apply Z.mod_pos_bound. lia.
Qed.

(** an MD5 digest has 16 bytes, its hexadecimal text 32 characters *)
Lemma md5_hexdigest_shape (data : list Z) :
  String.length (Hashlib.md5_hexdigest data) = 32%nat /\
  all_chars is_hex_char (Hashlib.md5_hexdigest data) = true.
Proof.
  unfold Hashlib.md5_hexdigest, Hashlib.MD5.digest. cbv zeta.
  destruct (fold_left _ _ _) as [[[a b] c] d]. split.
  - rewrite hex_of_bytes_length, !length_app, !le_bytes_length. reflexivity.
  - apply hex_of_bytes_hex. rewrite !Forall_app. repeat split; apply le_bytes_range.
Qed.

(** [calculate_image_hash] never raises and never touches the files or
    the cache; whatever the file, present or not, decodable or not, it
    returns 32 lower-case hexadecimal characters. *)
Theorem fingerprint_is_32_hex_digits {X : Type} (E : Processor.env X) (image_path : string)
    (s : state (Processor.machine X)) :
  exists h s',
    Processor.calculate_image_hash E image_path s = (Ret h, s') /\
    String.length h = 32%nat /\
    all_chars is_hex_char h = true /\
    Processor.fs (world s') = Processor.fs (world s) /\
    Processor.hash_cache (world s') = Processor.hash_cache (world s).
Proof.
  unfold Processor.calculate_image_hash, Processor.combined_hash. mred.
  destruct (Processor.fs (world s) !! image_path) as [[data | doc] |];
    [destruct (Processor.pil_grey8x8 X E data) as [[|px pixels] |] | |]; mred;
    try destruct (Processor.now_isoformat X E (Processor.ext (world s))) as [t x];
    eexists _, _; (split; [reflexivity |]);
    (split; [apply md5_hexdigest_shape |]); (split; [apply md5_hexdigest_shape |]);
    split; reflexivity.
Qed.

(** ** The cache of fingerprints *)

Section Cache.
Context {X : Type} (E : Processor.env X).

(** Round trip of the cache: after [store_hash] the fingerprint is a
    duplicate, [is_duplicate] hands back the stored record, which holds
    the analysis fields with [first_seen] set to the time of the call and
    [duplicate_count] set to 0, whatever record was there before; the
    other fingerprints and the files are left as they were. *)
Theorem stored_hash_is_found (image_hash : string) (analysis_data : list (string * json))
    (s : state (Processor.machine X)) :
  exists t s1 record,
    Processor.store_hash E image_hash analysis_data s = (Ret tt, s1) /\
    fst (Processor.now_isoformat X E (Processor.ext (world s))) = t /\
    record = PyOps.setitem "duplicate_count" (JInt 0)
               (PyOps.setitem "first_seen" (JStr t) analysis_data) /\
    Processor.hash_cache (world s1) !! image_hash = Some (JDict record) /\
    Py.assoc "duplicate_count" record = Some (JInt 0) /\
    (forall h, h <> image_hash ->
               Processor.hash_cache (world s1) !! h = Processor.hash_cache (world s) !! h) /\
    Processor.fs (world s1) = Processor.fs (world s) /\
    fst (Processor.is_duplicate image_hash s1) = Ret (true, Some (JDict record)) /\
    trace (snd (Processor.is_duplicate image_hash s1))
    = trace s1 ++ [EvAuth "DUPLICATE_DETECTED" [JStr (substring 0 12 image_hash); JInt 1]].
Proof.
  unfold Processor.store_hash. mred.
  destruct (Processor.now_isoformat X E (Processor.ext (world s))) as [t x]. mred.
  exists t. do 2 eexists. split; [reflexivity |]. split; [reflexivity |]. split; [reflexivity |].
  cbn [world Processor.hash_cache Processor.fs].
  split; [apply lookup_insert_eq |]. split; [apply assoc_setitem_eq |].
  split; [intros h Hh; now apply lookup_insert_ne |]. split; [reflexivity |].
  unfold Processor.is_duplicate, PyOps.get, PyOps.add1, Py.get. mred.
  rewrite lookup_insert_eq. mred. rewrite assoc_setitem_eq. mred.
  split; reflexivity.
Qed.

(** [increment_duplicate_count]: a fingerprint that is not in the cache,
    or whose record holds no [duplicate_count], leaves everything as it is;
    for a record with the count [n] the count becomes [n + 1] and
    [last_seen] the time of the call, while the other fields of the
    record, the other fingerprints and the files stay as they are.  No
    error escapes. *)
Theorem duplicate_count_goes_up_by_one (image_hash : string)
    (s : state (Processor.machine X)) :
  (Processor.hash_cache (world s) !! image_hash = None ->
   Processor.increment_duplicate_count E image_hash s = (Ret tt, s)) /\
  (forall d,
      Processor.hash_cache (world s) !! image_hash = Some (JDict d) ->
      Py.assoc "duplicate_count" d = None ->
      Processor.increment_duplicate_count E image_hash s = (Ret tt, s)) /\
  (forall d n,
      Processor.hash_cache (world s) !! image_hash = Some (JDict d) ->
      Py.assoc "duplicate_count" d = Some (JInt n) ->
      exists s' d',
        Processor.increment_duplicate_count E image_hash s = (Ret tt, s') /\
        Processor.hash_cache (world s') !! image_hash = Some (JDict d') /\
        Py.assoc "duplicate_count" d' = Some (JInt (n + 1)) /\
        Py.assoc "last_seen" d'
        = Some (JStr (fst (Processor.now_isoformat X E (Processor.ext (world s))))) /\
        (forall k, k <> "duplicate_count" -> k <> "last_seen" -> Py.assoc k d' = Py.assoc k d) /\
        (forall h, h <> image_hash ->
                   Processor.hash_cache (world s') !! h = Processor.hash_cache (world s) !! h) /\
        Processor.fs (world s') = Processor.fs (world s)).
Proof.
  unfold Processor.increment_duplicate_count, PyOps.getitem, PyOps.add1.
  split; [| split].
  - intros Hc. mred. rewrite Hc. now destruct s.
  - intros d Hc Hd. mred. rewrite Hc, Hd. mred. now destruct s.
  - intros d n Hc Hd. mred. rewrite Hc, Hd. mred.
    destruct (Processor.now_isoformat X E (Processor.ext (world s))) as [t x]. mred.
    do 2 eexists. split; [reflexivity |]. cbn [world Processor.hash_cache Processor.fs fst].
    split; [apply lookup_insert_eq |].
    split; [rewrite assoc_setitem_ne by reflexivity; apply assoc_setitem_eq |].
    split; [apply assoc_setitem_eq |].
    split; [intros k Hk1 Hk2; now rewrite !assoc_setitem_ne by now apply String.eqb_neq |].
    split; [| reflexivity].
    intros h Hh. now rewrite !lookup_insert_ne by congruence.
Qed.

End Cache.

Lemma duplicate_count_goes_up_by_one_witness :
  let E := Scenario.proc_env true true in
  let h := "122db951459e3ef8912cd926fe277223" in
  let s := St (Processor.Machine ∅ {[ h := JDict [("original_filename", JStr "a.jpg");
                                                  ("duplicate_count", JInt 4)] ]} None 0%nat) [] in
  exists s' d',
    Processor.increment_duplicate_count E h s = (Ret tt, s') /\
    Processor.hash_cache (world s') !! h = Some (JDict d') /\
    Py.assoc "duplicate_count" d' = Some (JInt 5) /\
    Py.assoc "original_filename" d' = Some (JStr "a.jpg").
Proof.
  cbv zeta.
  destruct (duplicate_count_goes_up_by_one (Scenario.proc_env true true)
              "122db951459e3ef8912cd926fe277223"
              (St (Processor.Machine ∅
                     {[ "122db951459e3ef8912cd926fe277223"
                        := JDict [("original_filename", JStr "a.jpg");
                                  ("duplicate_count", JInt 4)] ]} None 0%nat) []))
    as (_ & _ & Hup).
  destruct (Hup [("original_filename", JStr "a.jpg"); ("duplicate_count", JInt 4)] 4)
    as (s' & d' & Hrun & Hc & Hn & _ & Hk & _); [vm_compute; reflexivity | reflexivity |].
  exists s', d'. split; [exact Hrun |]. split; [exact Hc |]. split; [exact Hn |].
  rewrite Hk by discriminate. reflexivity.
Defined.

(** ** Validation of a file *)

(** [validate_file] never raises and changes nothing.  It accepts a file
    only if the file is there, its extension is one of the supported ones
    and its size is within the limit of its kind (10 MiB for an image that
    Pillow verifies, 50 MiB for a video that OpenCV opens); a rejection is
    one of [unsupported], [too_large], [corrupted]. *)
Theorem validate_file_accepts_only_sound_files {X : Type} (E : Processor.env X)
    (file_path : string) (s : state (Processor.machine X)) :
  let ext := PyStr.lower (Path.suffix file_path) in
  exists ok kind,
    Processor.validate_file E file_path s = (Ret (ok, kind), s) /\
    (ok = true ->
     exists data,
       Processor.fs (world s) !! file_path = Some (Processor.Raw data) /\
       (kind = "image" /\
        Processor.mem ext Processor.SUPPORTED_IMAGE_FORMATS = true /\
        Z.of_nat (length data) <= 10 * 1024 * 1024 /\
        Processor.pil_verify X E data = true
        \/
        kind = "video" /\
        Processor.mem ext Processor.SUPPORTED_VIDEO_FORMATS = true /\
        Z.of_nat (length data) <= 50 * 1024 * 1024 /\
        Processor.cv2_is_opened X E data = true)) /\
    (ok = false -> kind = "unsupported" \/ kind = "too_large" \/ kind = "corrupted").
Proof.
  cbv zeta. unfold Processor.validate_file. mred.
  destruct (Processor.mem _ Processor.SUPPORTED_IMAGE_FORMATS) eqn:Himg;
    [| destruct (Processor.mem _ Processor.SUPPORTED_VIDEO_FORMATS) eqn:Hvid]; mred.
  - destruct (Processor.fs (world s) !! file_path) as [f |] eqn:Hfs; mred.
    + destruct (Processor.file_size f >? 10 * 1024 * 1024) eqn:Hsize.
      { exists false, "too_large". destruct s. repeat split; [discriminate | tauto]. }
      destruct f as [data | doc]; mred.
      * destruct (Processor.pil_verify X E data) eqn:Hver; mred.
        -- exists true, "image". destruct s. split; [reflexivity |]. split; [| discriminate].
           intros _. exists data. split; [reflexivity |]. left.
           cbn [Processor.file_size] in Hsize. repeat split; try assumption. lia.
        -- exists false, "corrupted". destruct s. repeat split; [discriminate | tauto].
      * exists false, "corrupted". destruct s. repeat split; [discriminate | tauto].
    + exists false, "corrupted". destruct s. repeat split; [discriminate | tauto].
  - destruct (Processor.fs (world s) !! file_path) as [f |] eqn:Hfs; mred.
    + destruct (Processor.file_size f >? 50 * 1024 * 1024) eqn:Hsize.
      { exists false, "too_large". destruct s. repeat split; [discriminate | tauto]. }
      destruct f as [data | doc]; mred.
      * destruct (Processor.cv2_is_opened X E data) eqn:Hcv; mred.
        -- exists true, "video". destruct s. split; [reflexivity |]. split; [| discriminate].
           intros _. exists data. split; [reflexivity |]. right.
           cbn [Processor.file_size] in Hsize. repeat split; try assumption. lia.
        -- exists false, "corrupted". destruct s. repeat split; [discriminate | tauto].
      * exists false, "corrupted". destruct s. repeat split; [discriminate | tauto].
    + exists false, "corrupted". destruct s. repeat split; [discriminate | tauto].
  - exists false, "unsupported". destruct s. repeat split; [discriminate | tauto].
Qed.

(** ** The input file of a processing run *)

Lemma name_no_slash (p : string) : PyStr.contains "/" (Path.name p) = false.
Proof.
  induction p as [|c p IH]; [reflexivity |]. cbn [Path.name].
  destruct (PyStr.contains "/" p) eqn:Hp; [exact IH |].
  destruct (Ascii.eqb c "/") eqn:Hc; [exact Hp |].
  rewrite contains_slash_cons, Hp, Ascii.eqb_sym, Hc. reflexivity.
Qed.

Lemma length_append (a b : string) :
  String.length (a +:+ b) = (String.length a + String.length b)%nat.
Proof. induction a as [|c a IH]; [reflexivity |]. rewrite append_cons. cbn [String.length]. lia. Qed.

(** the compressed copy of a file is never the file itself *)
Lemma compressed_path_differs (p : string) :
  Path.join Processor.TEMP_FOLDER ("compressed_" +:+ Path.name p) <> p.
Proof.
  intros H. apply (f_equal Path.name) in H.
  rewrite name_join in H.
  - apply (f_equal String.length) in H. rewrite length_append in H. cbn [String.length] in H. lia.
  - rewrite contains_slash_app, name_no_slash. reflexivity.
Qed.

Section InputFile.
Context {X : Type} (E : Processor.env X).

Ltac crack H :=
  repeat (match type of H with
          | context [match ?x with _ => _ end] =>
              match x with
              | context [match _ with _ => _ end] => fail 1
              | _ => destruct x eqn:?
              end
          end;
          cbn [world trace fst snd Processor.fs Processor.hash_cache Processor.hash_cache_json
               Processor.ext negb] in H;
          try discriminate H).

Lemma calculate_image_hash_frame (p : string) (s : state (Processor.machine X)) :
  exists h s', Processor.calculate_image_hash E p s = (Ret h, s') /\
               Processor.fs (world s') = Processor.fs (world s) /\
               Processor.hash_cache (world s') = Processor.hash_cache (world s).
Proof.
  unfold Processor.calculate_image_hash. mred.
  destruct (Processor.fs (world s) !! p) as [[data | doc] |];
    [destruct (Processor.pil_grey8x8 X E data) as [[|px pixels] |] | |]; mred;
    try destruct (Processor.now_isoformat X E (Processor.ext (world s))) as [t x];
    eexists _, _; (split; [reflexivity |]); split; reflexivity.
Qed.

Lemma is_duplicate_frame (h : string) (s : state (Processor.machine X)) :
  exists r s', Processor.is_duplicate h s = (Ret r, s') /\
               Processor.fs (world s') = Processor.fs (world s) /\
               (fst r = true -> exists d, snd r = Some (JDict d)).
Proof.
  unfold Processor.is_duplicate, PyOps.get, PyOps.add1, Py.get. mred.
  destruct (Processor.hash_cache (world s) !! h) as [[| | | | | |d] |]; mred;
    try (eexists _, _; (split; [reflexivity |]); (split; [reflexivity |]);
         cbn [fst snd]; intros Hb; discriminate Hb).
  destruct (Py.assoc "original_filename" d); mred;
    destruct (Py.assoc "duplicate_count" d) as [[| | | | | |] |]; mred;
    eexists _, _; (split; [reflexivity |]); (split; [reflexivity |]); cbn [fst snd];
    first [intros Hb; discriminate Hb | intros _; eexists; reflexivity].
Qed.

Lemma increment_duplicate_count_frame (h : string) (s : state (Processor.machine X)) :
  exists s', Processor.increment_duplicate_count E h s = (Ret tt, s') /\
             Processor.fs (world s') = Processor.fs (world s).
Proof.
  unfold Processor.increment_duplicate_count, PyOps.getitem, PyOps.add1. mred.
  destruct (Processor.hash_cache (world s) !! h) as [[| | | | | |d] |]; mred;
    try (eexists; split; reflexivity).
  destruct (Py.assoc "duplicate_count" d) as [[| | | | | |] |]; mred;
    try destruct (Processor.now_isoformat X E (Processor.ext (world s))) as [t x]; mred;
    eexists; split; reflexivity.
Qed.

(** [process_image_with_hash] removes the image when it succeeds and
    keeps it when it fails *)
Lemma process_image_with_hash_input (p h : string) (f : Processor.file)
    (s : state (Processor.machine X)) :
  Processor.fs (world s) !! p = Some f ->
  exists ok m s',
    Processor.process_image_with_hash E p h s = (Ret (ok, m), s') /\
    Processor.fs (world s') !! p = (if ok then None else Some f).
Proof.
  intros Hfs. pose proof (compressed_path_differs p) as Hne.
  destruct (Processor.process_image_with_hash E p h s) as [r s'] eqn:H.
  revert H.
  unfold Processor.process_image_with_hash, Processor.compress_image,
    Processor.analyze_content_hybrid, Processor.save_analysis_only, Processor.store_hash,
    PyOps.getitem.
  mred. rewrite Hfs. intros H. crack H.
  all: injection H as <- <-; cbn [world Processor.fs] in *.
  all: rewrite ?lookup_insert_eq, ?lookup_delete_eq in *.
  all: rewrite ?lookup_delete_ne, ?lookup_insert_ne in * by assumption.
  all: try congruence.
  all: do 3 eexists; (split; [reflexivity |]); cbn [world Processor.fs].
  all: rewrite ?lookup_insert_eq, ?lookup_delete_eq;
    rewrite ?lookup_delete_ne, ?lookup_insert_ne by assumption; try assumption; try reflexivity.
Qed.

Lemma validate_file_image_cases (p : string) (s : state (Processor.machine X)) :
  Processor.mem (PyStr.lower (Path.suffix p)) Processor.SUPPORTED_IMAGE_FORMATS = true ->
  (exists kind, Processor.validate_file E p s = (Ret (false, kind), s)) \/
  (exists data, Processor.fs (world s) !! p = Some (Processor.Raw data) /\
                Processor.validate_file E p s = (Ret (true, "image"), s)).
Proof.
  intros Hext. unfold Processor.validate_file. rewrite Hext. mred.
  destruct (Processor.fs (world s) !! p) as [f |]; mred;
    [| left; eexists; now destruct s].
  destruct (Processor.file_size f >? 10 * 1024 * 1024); [left; eexists; now destruct s |].
  destruct f as [data | doc]; mred; [| left; eexists; now destruct s].
  destruct (Processor.pil_verify X E data); mred; [| left; eexists; now destruct s].
  right. exists data. split; [reflexivity | now destruct s].
Qed.

End InputFile.

(** For a path with an image extension, [process_single_file] returns a
    pair and raises nothing, and the file is deleted exactly when the
    answer is [True]: a file reported as processed or as a duplicate was
    there and is gone, and after a failure the file is as it was before
    the call. *)
Theorem image_is_deleted_iff_processed {X : Type} (E : Processor.env X) (file_path : string)
    (s : state (Processor.machine X)) :
  Processor.mem (PyStr.lower (Path.suffix file_path)) Processor.SUPPORTED_IMAGE_FORMATS = true ->
  exists ok message s',
    Processor.process_single_file E file_path s = (Ret (ok, message), s') /\
    (ok = true ->
     is_Some (Processor.fs (world s) !! file_path) /\
     Processor.fs (world s') !! file_path = None) /\
    (ok = false ->
     Processor.fs (world s') !! file_path = Processor.fs (world s) !! file_path).
Proof.
  intros Hext. unfold Processor.process_single_file.
  unfold try_except at 1. unfold bind at 1.
  destruct (validate_file_image_cases E file_path s Hext) as [[kind ->] | (data & Hfs & ->)].
  { cbn [negb]. unfold ret. do 3 eexists. split; [reflexivity |].
    split; [discriminate | reflexivity]. }
  cbn [negb String.eqb Ascii.eqb Bool.eqb]. unfold bind at 1.
  destruct (calculate_image_hash_frame E file_path s) as (h & s1 & -> & Hfs1 & _).
  unfold bind at 1.
  destruct (is_duplicate_frame h s1) as ([dup existing] & s2 & -> & Hfs2 & Hdict).
  cbn [fst snd] in Hdict. destruct dup.
  - unfold bind at 1.
    destruct (increment_duplicate_count_frame E h s2) as (s3 & -> & Hfs3).
    destruct (Hdict eq_refl) as [d ->].
    unfold Processor.remove, PyOps.get, Py.get. mred.
    rewrite Hfs3, Hfs2, Hfs1, Hfs. mred.
    do 3 eexists. split; [reflexivity |]. cbn [world Processor.fs].
    split; [intros _; split; [eauto | apply lookup_delete_eq] | discriminate].
  - assert (Hfs' : Processor.fs (world s2) !! file_path = Some (Processor.Raw data))
      by now rewrite Hfs2, Hfs1.
    destruct (process_image_with_hash_input E file_path h _ s2 Hfs') as (ok & m & s3 & -> & Hp).
    exists ok, m, s3. split; [reflexivity |]. rewrite Hfs.
    destruct ok; split; try discriminate; intros _; [split; [eauto | exact Hp] | exact Hp].
Qed.

Lemma image_is_deleted_iff_processed_witness :
  let E := Scenario.proc_env true true in
  exists m1 s1 m2 s2,
    Processor.process_single_file E "input_images/a.jpg" Scenario.twins = (Ret (true, m1), s1) /\
    Processor.fs (world s1) !! "input_images/a.jpg" = None /\
    Processor.process_single_file E "input_images/notes.jpg" Scenario.notes_queue
    = (Ret (false, m2), s2) /\
    Processor.fs (world s2) !! "input_images/notes.jpg"
    = Some (Processor.Raw Scenario.text_bytes).
Proof.
  cbv zeta.
  destruct (image_is_deleted_iff_processed (Scenario.proc_env true true) "input_images/a.jpg"
              Scenario.twins eq_refl) as (ok1 & m1 & s1 & Hrun1 & Hyes1 & _).
  destruct (image_is_deleted_iff_processed (Scenario.proc_env true true)
              "input_images/notes.jpg" Scenario.notes_queue eq_refl)
    as (ok2 & m2 & s2 & Hrun2 & _ & Hno2).
  assert (Hok1 : ok1 = true) by (vm_compute in Hrun1; congruence).
  assert (Hok2 : ok2 = false) by (vm_compute in Hrun2; congruence).
  subst ok1 ok2. exists m1, s1, m2, s2.
  split; [exact Hrun1 |]. split; [apply Hyes1; reflexivity |].
  split; [exact Hrun2 |]. rewrite (Hno2 eq_refl). vm_compute. reflexivity.
Defined.

(** ** One flag of the queue *)


(** ** The hand-off from the downloader to the queue *)

Lemma substring_prefix (a b : string) : substring 0 (String.length a) (a +:+ b) = a.
Proof.
  induction a as [|c a IH]; [now destruct b |].
  rewrite append_cons. cbn [String.length substring]. now rewrite IH.
Qed.

Lemma append_nil_r_s (b : string) : b +:+ "" = b.
Proof. induction b as [|c b IH]; [reflexivity |]. rewrite append_cons. now rewrite IH. Qed.

Lemma substring_suffix (a b : string) :
  substring (String.length a) (String.length b) (a +:+ b) = b.
Proof.
  induction a as [|c a IH].
  - rewrite append_nil_l. cbn [String.length].
    pose proof (substring_prefix b "") as H. now rewrite append_nil_r_s in H.
  - rewrite append_cons. cbn [String.length substring]. exact IH.
Qed.

Lemma contains_slash_prefix (k : nat) (n : string) :
  PyStr.contains "/" n = false -> PyStr.contains "/" (substring 0 k n) = false.
Proof.
  revert k. induction n as [|c n IH]; intros k H; [now destruct k |].
  rewrite contains_slash_cons in H. apply orb_false_iff in H as [Hc Hn].
  destruct k as [|k]; [reflexivity |]. cbn [substring].
  rewrite contains_slash_cons, Hc. now apply IH.
Qed.

Lemma parent_join (folder n : string) :
  folder <> "" -> PyStr.contains "/" n = false -> Path.parent (Path.join folder n) = folder.
Proof.
  intros Hf Hn. unfold Path.parent. rewrite (name_join folder n Hn).
  destruct folder as [|c folder]; [contradiction |].
  unfold Path.join. rewrite !length_append. cbn [String.length].
  match goal with
  | |- match ?k with _ => _ end = _ =>
      replace k with (S (S (String.length folder))) by lia
  end.
  exact (substring_prefix (String c folder) ("/" +:+ n)).
Qed.

Lemma stem_join (folder n : string) :
  PyStr.contains "/" n = false ->
  exists k, Path.stem (Path.join folder n) = substring 0 k n.
Proof. intros Hn. unfold Path.stem. rewrite (name_join folder n Hn). now eexists. Qed.

(** the flag of a file lies in the folder of the file and has the form
    that the queue looks for *)
Lemma flag_file_of_join (folder n : string) :
  folder <> "" -> PyStr.contains "/" n = false ->
  exists st,
    PyStr.contains "/" st = false /\
    Downloader.flag_file_of (Path.join folder n)
    = Path.join folder (".processing_" +:+ st +:+ ".json").
Proof.
  intros Hf Hn. destruct (stem_join folder n Hn) as [k Hst].
  exists (substring 0 k n). split; [now apply contains_slash_prefix |].
  unfold Downloader.flag_file_of. now rewrite (parent_join folder n Hf Hn), Hst.
Qed.

Lemma flag_name_matches (st : string) :
  Path.matches ".processing_" ".json" (".processing_" +:+ st +:+ ".json") = true.
Proof.
  unfold Path.matches. rewrite startswith_app.
  rewrite <- (append_assoc_s ".processing_" st ".json").
  rewrite (length_append (".processing_" +:+ st) ".json").
  replace (String.length (".processing_" +:+ st) + String.length ".json"
           - String.length ".json")%nat
    with (String.length (".processing_" +:+ st)) by lia.
  rewrite substring_suffix, length_append. cbn [String.length andb].
  rewrite String.eqb_refl, andb_true_r. apply Nat.leb_le. lia.
Qed.

Lemma flag_is_globbed (folder n : string) (files : gmap string Processor.file)
    (f : Processor.file) :
  folder <> "" -> PyStr.contains "/" n = false ->
  files !! Downloader.flag_file_of (Path.join folder n) = Some f ->
  In (Downloader.flag_file_of (Path.join folder n)) (Processor.glob_flags folder files).
Proof.
  intros Hf Hn Hfile. destruct (flag_file_of_join folder n Hf Hn) as (st & Hst & Hflag).
  rewrite Hflag in *. unfold Processor.glob_flags.
  apply list_elem_of_In, list_elem_of_filter. split.
  - assert (Hs : PyStr.contains "/" (".processing_" +:+ st +:+ ".json") = false)
      by (rewrite !contains_slash_app, Hst; reflexivity).
    rewrite (parent_join folder _ Hf Hs), (name_join folder _ Hs), String.eqb_refl.
    apply flag_name_matches.
  - apply list_elem_of_In, in_map_iff. exists (Path.join folder (".processing_" +:+ st +:+ ".json"), f).
    split; [reflexivity |]. now apply list_elem_of_In, elem_of_map_to_list.
Qed.

(** The flag of a downloaded file is written where the queue looks: for
    a file [n] of a folder, [_trigger_content_processing] asks the clock
    once, hands to [json.dump] the document naming the file, its source
    and [processed = False], at [.processing_<stem>.json] in the same
    folder, and answers nothing else; and a scan of that folder by
    [process_instagram_queue] finds a flag written there. *)
Theorem flag_is_written_where_the_queue_looks {W : Type} (E : Downloader.env W)
    (folder n source_url : string) (media_info : Downloader.pyobj) (media_type : json)
    (s : state W) :
  folder <> "" ->
  PyStr.contains "/" n = false ->
  Py.assoc "media_type" media_info = Some media_type ->
  let file_path := Path.join folder n in
  let flag_file := Downloader.flag_file_of file_path in
  exists t w1 o w2,
    Downloader.now_isoformat W E (world s) = (t, w1) /\
    Downloader.write_json W E flag_file
      (queued_flag file_path source_url (Downloader.getattr_default media_info "pk" JNull)
         media_type t) w1 = (o, w2) /\
    Downloader._trigger_content_processing E file_path source_url media_info s
    = (Ret tt,
       St w2 (trace s ++
              [EvCall "datetime.now" [] None;
               EvCall "json.dump" [flag_file] (raised_of o);
               match o with
               | Ret _ => EvAuth "CONTENT_PROCESSING_QUEUED" [JStr (Path.name file_path)]
               | Raise e => EvAuth "CONTENT_PROCESSING_QUEUE_FAILED"
                              [JStr (Path.name file_path); JStr (exn_msg e)]
               end])) /\
    Path.parent flag_file = folder /\
    Path.matches ".processing_" ".json" (Path.name flag_file) = true /\
    (forall (files : gmap string Processor.file) (f : Processor.file),
        files !! flag_file = Some f -> In flag_file (Processor.glob_flags folder files)).
Proof.
  intros Hf Hn Hmt. cbv zeta.
  destruct (Downloader.now_isoformat W E (world s)) as [t w1] eqn:Hnow.
  destruct (Downloader.write_json W E (Downloader.flag_file_of (Path.join folder n))
              (queued_flag (Path.join folder n) source_url
                 (Downloader.getattr_default media_info "pk" JNull) media_type t) w1)
    as [o w2] eqn:Hwrite.
  exists t, w1, o, w2. split; [reflexivity |]. split; [exact Hwrite |]. split.
  { unfold Downloader._trigger_content_processing, try_except, bind, Downloader.getattr.
    rewrite Hmt. unfold ret at 1. unfold call at 1. rewrite Hnow. cbn [raised_of world trace].
    unfold call at 1. cbn [world trace].
    unfold queued_flag, queued_flag_items in Hwrite. rewrite Hwrite.
    destruct o as [[] | e]; unfold auth_log; cbn [raised_of world trace];
      now rewrite <- !app_assoc. }
  destruct (flag_file_of_join folder n Hf Hn) as (st & Hst & Hflag).
  assert (Hs : PyStr.contains "/" (".processing_" +:+ st +:+ ".json") = false)
    by (rewrite !contains_slash_app, Hst; reflexivity).
  split; [rewrite Hflag; now apply parent_join |].
  split; [rewrite Hflag, (name_join folder _ Hs); apply flag_name_matches |].
  intros files f Hfile. now apply (flag_is_globbed folder n files f).
Qed.

Lemma flag_is_written_where_the_queue_looks_witness :
  let E := Scenario.dl_env (Ret Cases.reel_info) true true in
  exists s',
    Downloader._trigger_content_processing E "input_videos/instagram_3141592653589793238.mp4"
      Scenario.reel_url Cases.reel_info Scenario.net0 = (Ret tt, s') /\
    Scenario.on_disk "input_videos/.processing_instagram_3141592653589793238.json" (world s')
    = true /\
    Processor.glob_flags "input_videos"
      {[ "input_videos/.processing_instagram_3141592653589793238.json"
         := Processor.Doc (queued_flag "input_videos/instagram_3141592653589793238.mp4"
                             Scenario.reel_url (JStr Scenario.media_pk) (JInt 2)
                             "2024-05-01T10:00:00.000000");
         "input_videos/instagram_3141592653589793238.mp4" := Processor.Raw Scenario.photo_bytes ]}
    = ["input_videos/.processing_instagram_3141592653589793238.json"].
Proof.
  cbv zeta.
  destruct (flag_is_written_where_the_queue_looks
              (Scenario.dl_env (Ret Cases.reel_info) true true)
              "input_videos" "instagram_3141592653589793238.mp4" Scenario.reel_url
              Cases.reel_info (JInt 2) Scenario.net0)
    as (t & w1 & o & w2 & Hnow & Hwrite & Hrun & _); [discriminate | reflexivity.. |].
  eexists. split; [exact Hrun |]. split; [| vm_compute; reflexivity].
  cbn [world]. vm_compute in Hnow. injection Hnow as <- <-.
  vm_compute in Hwrite. injection Hwrite as <- <-. reflexivity.
Defined.





(** ** What the candidate list holds *)

Lemma primary_urls_truthy (versions acc out : list json) :
  Extract.primary_urls versions acc = Some out ->
  Forall (fun u => Py.truthy u = true) acc -> Forall (fun u => Py.truthy u = true) out.
Proof.
  revert acc. induction versions as [|v versions IH]; intros acc H Hacc; cbn in H.
  - now injection H as <-.
  - destruct (Py.get v "url" JNull) as [url |]; [| discriminate H].
    apply (IH _ H). destruct (Py.truthy url) eqn:Hu; [| exact Hacc].
    apply Forall_app. split; [exact Hacc | now constructor].
Qed.

Lemma carousel_version_urls_truthy (versions acc out : list json) :
  Extract.carousel_version_urls versions acc = Some out ->
  Forall (fun u => Py.truthy u = true) acc -> Forall (fun u => Py.truthy u = true) out.
Proof.
  revert acc. induction versions as [|v versions IH]; intros acc H Hacc; cbn in H.
  - now injection H as <-.
  - destruct (Py.get v "url" JNull) as [url |]; [| discriminate H].
    apply (IH _ H). destruct (Py.truthy url) eqn:Hu; [| exact Hacc].
    destruct (negb (Py.mem url acc)); [| exact Hacc].
    apply Forall_app. split; [exact Hacc | now constructor].
Qed.

Lemma carousel_urls_truthy (video : bool) (carousel_media acc out : list json) :
  Extract.carousel_urls video carousel_media acc = Some out ->
  Forall (fun u => Py.truthy u = true) acc -> Forall (fun u => Py.truthy u = true) out.
Proof.
  revert acc. induction carousel_media as [|item rest IH]; intros acc H Hacc;
    cbn [Extract.carousel_urls] in H.
  - now injection H as <-.
  - destruct (Py.get item "media_type" JNull) as [mt |]; [| discriminate H].
    destruct (Py.eqb mt _); [| now apply (IH acc)].
    destruct (Extract.versions_of video item) as [vs |]; [| discriminate H].
    destruct (Py.iter vs) as [versions |]; [| discriminate H].
    destruct (Extract.carousel_version_urls versions acc) as [acc' |] eqn:Hc; [| discriminate H].
    apply (IH acc' H). now apply (carousel_version_urls_truthy versions acc).
Qed.

(** The candidate list holds no empty value: every element is a truthy
    [url] of the document, never [None] and never the empty string.  A
    document that is not an object, or that has no [items] or an empty
    list of them, gives the empty list; nothing is raised. *)
Theorem candidate_urls_are_truthy (raw_data media_type : json) :
  let urls := Extract._extract_all_download_urls_from_raw_data raw_data media_type in
  Forall (fun u => Py.truthy u = true) urls /\
  Forall (fun u => u <> JNull /\ u <> JStr "") urls /\
  (forall d, raw_data = JDict d ->
             match Py.assoc "items" d with
             | None | Some (JList []) => urls = []
             | Some _ => True
             end) /\
  match raw_data with
  | JDict _ => True
  | _ => urls = []
  end.
Proof.
  cbv zeta.
  assert (Ht : Forall (fun u => Py.truthy u = true)
                 (Extract._extract_all_download_urls_from_raw_data raw_data media_type)).
  { unfold Extract._extract_all_download_urls_from_raw_data.
    destruct (Extract.extract_body raw_data media_type) as [out |] eqn:Hb; [| constructor].
    unfold Extract.extract_body in Hb.
    destruct (Py.get raw_data "items" (JList [])) as [items |]; [| discriminate Hb].
    cbn [mbind option_bind] in Hb.
    destruct (negb (Py.truthy items)); [injection Hb as <-; constructor |].
    destruct (Py.first items) as [media_item |]; [| discriminate Hb]. cbn [mbind option_bind] in Hb.
    destruct (Extract.versions_of _ media_item) as [vs |]; [| discriminate Hb].
    cbn [mbind option_bind] in Hb.
    destruct (Py.iter vs) as [versions |]; [| discriminate Hb]. cbn [mbind option_bind] in Hb.
    destruct (Extract.primary_urls versions []) as [acc |] eqn:Hp; [| discriminate Hb].
    cbn [mbind option_bind] in Hb.
    destruct (Py.get media_item "carousel_media" (JList [])) as [cm |]; [| discriminate Hb].
    cbn [mbind option_bind] in Hb.
    destruct (Py.iter cm) as [carousel_media |]; [| discriminate Hb].
    cbn [mbind option_bind] in Hb.
    apply (carousel_urls_truthy _ _ _ _ Hb). apply (primary_urls_truthy _ _ _ Hp). constructor. }
  split; [exact Ht |]. split.
  { eapply Forall_impl; [exact Ht |]. intros u Hu. split; intros ->; discriminate Hu. }
  split.
  - intros d ->. unfold Extract._extract_all_download_urls_from_raw_data, Extract.extract_body.
    cbn [Py.get]. destruct (Py.assoc "items" d) as [[| | | | |[|x l] |] |]; try exact I; reflexivity.
  - destruct raw_data; try reflexivity; exact I.
Qed.

(** ** Which URLs pass the check *)

Lemma contains_app_r (n s post : string) :
  PyStr.contains n s = true -> PyStr.contains n (s +:+ post) = true.
Proof.
  assert (Hs : forall a b, PyStr.startswith n a = true -> PyStr.startswith n (a +:+ b) = true).
  { induction n as [|x n IHn]; intros a b H; [reflexivity |].
    destruct a as [|y a]; [discriminate H |]. rewrite append_cons. cbn [PyStr.startswith] in *.
    destruct (Ascii.eqb x y); [now apply IHn | discriminate H]. }
  induction s as [|c s IH]; intros H.
  - destruct n; [now destruct post | discriminate H].
  - rewrite append_cons. cbn [PyStr.contains] in *.
    apply orb_true_iff in H as [H | H].
    + rewrite <- append_cons, (Hs _ _ H). reflexivity.
    + rewrite (IH H). apply orb_true_r.
Qed.

Lemma contains_app_l (n pre s : string) :
  PyStr.contains n s = true -> PyStr.contains n (pre +:+ s) = true.
Proof.
  intros H. induction pre as [|c pre IH]; [exact H |].
  rewrite append_cons. now apply contains_skip.
Qed.

(** a text that holds [a ++ b] holds [b] *)
Lemma contains_tail (a b s : string) :
  PyStr.contains (a +:+ b) s = true -> PyStr.contains b s = true.
Proof.
  intros H.
  assert (Hsw : forall t, PyStr.startswith (a +:+ b) t = true ->
                          exists r, t = a +:+ b +:+ r).
  { intros t Ht. exists (Downloader.drop (String.length (a +:+ b)) t).
    rewrite <- append_assoc_s. now apply startswith_split. }
  induction s as [|c s IH]; cbn [PyStr.contains] in H.
  - rewrite orb_false_r in H. destruct (Hsw _ H) as [r Hr].
    rewrite Hr. apply contains_app.
  - apply orb_true_iff in H as [H | H].
    + destruct (Hsw _ H) as [r Hr]. rewrite Hr. apply contains_app.
    + apply contains_skip. now apply IH.
Qed.

Lemma lstrip_is_suffix (s : string) : exists pre, s = pre +:+ PyStr.lstrip s.
Proof.
  induction s as [|c s [pre IH]]; [now exists "" |]. cbn [PyStr.lstrip].
  destruct (PyStr.is_space c); [| now exists ""].
  exists (String c pre). rewrite append_cons. now rewrite <- IH.
Qed.

Lemma rstrip_is_prefix (s : string) : exists post, s = PyStr.rstrip s +:+ post.
Proof.
  induction s as [|c s [post IH]]; [now exists "" |]. cbn [PyStr.rstrip].
  destruct (PyStr.rstrip s) as [|r rs] eqn:Hr.
  - destruct (PyStr.is_space c).
    + now exists (String c s).
    + exists post. rewrite IH at 1. reflexivity.
  - exists post. rewrite IH at 1. reflexivity.
Qed.

Lemma strip_is_inside (s : string) : exists pre post, s = pre +:+ PyStr.strip s +:+ post.
Proof.
  destruct (lstrip_is_suffix s) as [pre Hpre].
  destruct (rstrip_is_prefix (PyStr.lstrip s)) as [post Hpost].
  exists pre, post. unfold PyStr.strip. now rewrite <- Hpost.
Qed.

Lemma visible_is_no_space (c : ascii) : is_visible_char c = true -> PyStr.is_space c = false.
Proof.
  unfold is_visible_char, PyStr.is_space. intros H.
  apply andb_true_iff in H as [H1 H2]. apply Nat.leb_le in H1, H2.
  replace (nat_of_ascii c =? 32)%nat with false by (symmetry; apply Nat.eqb_neq; lia).
  replace (nat_of_ascii c <=? 13)%nat with false by (symmetry; apply Nat.leb_gt; lia).
  replace (nat_of_ascii c <=? 31)%nat with false by (symmetry; apply Nat.leb_gt; lia).
  replace (nat_of_ascii c =? 133)%nat with false by (symmetry; apply Nat.eqb_neq; lia).
  replace (nat_of_ascii c =? 160)%nat with false by (symmetry; apply Nat.eqb_neq; lia).
  now rewrite !andb_false_r.
Qed.

Lemma strip_visible (s : string) : all_chars is_visible_char s = true -> PyStr.strip s = s.
Proof.
  intros H. unfold PyStr.strip.
  assert (Hl : PyStr.lstrip s = s).
  { destruct s as [|c s]; [reflexivity |]. cbn [all_chars PyStr.lstrip] in *.
    apply andb_true_iff in H as [Hc _]. now rewrite (visible_is_no_space c Hc). }
  rewrite Hl. clear Hl. induction s as [|c s IH]; [reflexivity |].
  cbn [all_chars PyStr.rstrip] in *. apply andb_true_iff in H as [Hc Hs].
  rewrite (IH Hs). destruct s; [now rewrite (visible_is_no_space c Hc) | reflexivity].
Qed.

(** A URL that [_validate_instagram_url] accepts holds [http://] or
    [https://] and, in some letter case, [instagram.com] or [instagr.am].
    Conversely a URL of printing characters that starts with [http://] or
    [https://] and holds one of the two domains is accepted, whether or
    not it has a content pattern such as [/p/] or [/reel/]. *)
Theorem url_check_is_scheme_and_domain (url : string) :
  (Url._validate_instagram_url url = true ->
   (PyStr.contains "http://" url = true \/ PyStr.contains "https://" url = true) /\
   (PyStr.contains "instagram.com" (PyStr.lower url) = true \/
    PyStr.contains "instagr.am" (PyStr.lower url) = true)) /\
  (all_chars is_visible_char url = true ->
   PyStr.startswith "http://" url = true \/ PyStr.startswith "https://" url = true ->
   PyStr.contains "instagram.com" (PyStr.lower url) = true \/
   PyStr.contains "instagr.am" (PyStr.lower url) = true ->
   Url._validate_instagram_url url = true).
Proof.
  split.
  - unfold Url._validate_instagram_url. intros H.
    destruct (negb (PyStr.truthy url)); [discriminate H |].
    destruct (strip_is_inside url) as (pre & post & Hu).
    set (u := PyStr.strip url) in *.
    destruct (PyStr.any_in _ (PyStr.lower u)) eqn:Hdom; [| discriminate H]. cbn [negb] in H.
    destruct (PyStr.startswith "http://" u || PyStr.startswith "https://" u) eqn:Hsch;
      [| discriminate H].
    assert (Hin : forall n, PyStr.contains n u = true -> PyStr.contains n url = true)
      by (intros n Hn; rewrite Hu; now apply contains_app_l, contains_app_r).
    assert (Hinl : forall n, PyStr.contains n (PyStr.lower u) = true ->
                             PyStr.contains n (PyStr.lower url) = true)
      by (intros n Hn; rewrite Hu, !lower_app; now apply contains_app_l, contains_app_r).
    split.
    + apply orb_true_iff in Hsch as [Hs | Hs]; [left | right]; now apply Hin, contains_here.
    + unfold PyStr.any_in in Hdom. cbn [existsb] in Hdom. rewrite orb_false_r in Hdom.
      apply orb_true_iff in Hdom as [Hd | Hd]; [left; now apply Hinl |].
      apply orb_true_iff in Hd as [Hd | Hd]; [right; now apply Hinl |].
      left. apply Hinl. now apply (contains_tail "www." "instagram.com").
  - intros Hvis Hsch Hdom. unfold Url._validate_instagram_url.
    rewrite (strip_visible url Hvis).
    assert (Hne : PyStr.truthy url = true) by (destruct url; [now destruct Hsch | reflexivity]).
    rewrite Hne. cbn [negb].
    assert (Hany : PyStr.any_in ["instagram.com"; "instagr.am"; "www.instagram.com"]
                     (PyStr.lower url) = true).
    { unfold PyStr.any_in. cbn [existsb]. destruct Hdom as [-> | ->]; [reflexivity |].
      now rewrite orb_true_r. }
    rewrite Hany. cbn [negb]. destruct Hsch as [-> | ->]; [reflexivity |].
    now rewrite orb_true_r.
Qed.

Lemma url_check_is_scheme_and_domain_witness :
  Url._validate_instagram_url "https://www.instagram.com/explore/" = true /\
  PyStr.contains "instagram.com" "https://www.instagram.com/explore/" = true.
Proof.
  destruct (url_check_is_scheme_and_domain "https://www.instagram.com/explore/") as [Hs Hc].
  assert (Hok : Url._validate_instagram_url "https://www.instagram.com/explore/" = true).
  { apply Hc; [reflexivity | now right | now left]. }
  split; [exact Hok |]. destruct (Hs Hok) as [_ [H | H]]; [exact H | discriminate H].
Defined.

(** ** The session *)

Lemma wp_of_emits {W A} (q : event -> bool) (m : M W A) (s : state W) :
  emits q m ->
  wp m s (fun _ s' => exists evs, trace s' = trace s ++ evs /\ forallb q evs = true).
Proof. intros H r s' Hrun. exact (H s r s' Hrun). Qed.

Section Session.
Context {W : Type} (E : Downloader.env W).

Local Abbreviation session_ops :=
  ["keyring.get_password"; "Path.exists"; "client.load_settings"; "client.account_info";
   "client.get_timeline_feed"; "client.login"; "client.dump_settings"; "Path.stat"].
Local Abbreviation session_tags :=
  ["INSTAGRAM_LOGIN_ATTEMPT"; "INSTAGRAM_LOGIN_SUCCESS"; "INSTAGRAM_LOGIN_FAILED";
   "INSTAGRAM_SESSION_LOADED_SUCCESSFULLY"].

Lemma credentials_keyring :
  emits (only ["keyring.get_password"] []) (Downloader.get_instagram_credentials E).
Proof. unfold Downloader.get_instagram_credentials. emits_auto. Qed.

Lemma credentials_session :
  emits (only session_ops session_tags) (Downloader.get_instagram_credentials E).
Proof. unfold Downloader.get_instagram_credentials. emits_auto. Qed.
Hint Resolve credentials_session : emits.

Lemma username_session : emits (only session_ops session_tags) (Downloader.INSTAGRAM_USERNAME E).
Proof. unfold Downloader.INSTAGRAM_USERNAME. emits_auto. Qed.
Lemma password_session : emits (only session_ops session_tags) (Downloader.INSTAGRAM_PASSWORD E).
Proof. unfold Downloader.INSTAGRAM_PASSWORD. emits_auto. Qed.
Hint Resolve username_session password_session : emits.

Lemma get_session_status_session :
  emits (only session_ops session_tags) (Downloader.get_session_status E).
Proof. unfold Downloader.get_session_status. emits_auto. Qed.

Lemma fresh_login_session : emits (only session_ops session_tags) (Downloader.fresh_login E).
Proof. unfold Downloader.fresh_login. emits_auto. Qed.
Hint Resolve get_session_status_session fresh_login_session : emits.

Lemma setup_session_session : emits (only session_ops session_tags) (Downloader.setup_session E).
Proof. unfold Downloader.setup_session. emits_auto. Qed.

(** the reads of the key ring make no other call *)
Lemma username_keyring (s : state W) :
  wp (Downloader.INSTAGRAM_USERNAME E) s
     (fun _ s' => exists evs, trace s' = trace s ++ evs /\
                              forallb (only ["keyring.get_password"] []) evs = true).
Proof.
  apply wp_of_emits. unfold Downloader.INSTAGRAM_USERNAME.
  pose proof credentials_keyring. emits_auto.
Qed.

Lemma password_keyring (s : state W) :
  wp (Downloader.INSTAGRAM_PASSWORD E) s
     (fun _ s' => exists evs, trace s' = trace s ++ evs /\
                              forallb (only ["keyring.get_password"] []) evs = true).
Proof.
  apply wp_of_emits. unfold Downloader.INSTAGRAM_PASSWORD.
  pose proof credentials_keyring. emits_auto.
Qed.

Ltac pick :=
  lazymatch goal with
  | |- _ \/ _ => first [left; pick | right; pick]
  | |- _ = _ => reflexivity
  end.

Ltac in_events := rewrite ?in_app_iff; cbn [In]; pick.

Ltac no_calls :=
  rewrite ?calls_of_app;
  repeat match goal with
         | Hk : forallb (only ?ops ?tags) ?e = true |- context [calls_of ?op ?e] =>
             rewrite (only_no_calls ops tags op e eq_refl Hk)
         end;
  reflexivity.

(** a step whose result is handled later and whose calls are those of
    the key ring *)
Ltac keyring_step lem :=
  eapply wp_mono;
  [ apply lem
  | let r := fresh "r" in let s1 := fresh "s" in let evs := fresh "evs" in
    let Ht := fresh "Ht" in let Hk := fresh "Hk" in
    intros r s1 (evs & Ht & Hk); cbn [trace] in Ht; cbn beta iota; destruct r ].

Lemma fresh_login_earned (s : state W) :
  wp (Downloader.fresh_login E) s
     (fun r s' =>
        exists evs, trace s' = trace s ++ evs /\
          forall v, r = Ret v ->
            v = (true, "Login successful") /\
            (exists u p, In (EvCall "client.login" [u; p] None) evs) /\
            In (EvCall "client.dump_settings" [Downloader.session_file] None) evs /\
            logged "INSTAGRAM_LOGIN_SUCCESS" evs = true).
Proof.
  unfold Downloader.fresh_login.
  apply wp_bind. keyring_step username_keyring;
    [| eexists; split; [trace_norm; reflexivity | discriminate]].
  apply wp_bind, wp_auth. cbn beta iota.
  apply wp_bind. keyring_step username_keyring;
    [| eexists; split; [trace_norm; reflexivity | discriminate]].
  apply wp_bind. keyring_step password_keyring;
    [| eexists; split; [trace_norm; reflexivity | discriminate]].
  wp_auto; eexists; (split; [trace_norm; reflexivity |]); intros v Hv; try discriminate Hv.
  all: injection Hv as <-; split; [reflexivity |]; split; [| split].
  all: try (do 2 eexists; in_events).
  all: try in_events.
  all: rewrite ?logged_app; cbn; rewrite ?orb_true_r; reflexivity.
Qed.

Local Abbreviation session_earned m evs :=
  (m = "Session loaded successfully" /\
   In (EvCall "client.load_settings" [Downloader.session_file] None) evs /\
   In (EvCall "client.get_timeline_feed" [] None) evs /\
   calls_of "client.login" evs = 0%nat
   \/
   m = "Login successful" /\
   (exists u p, In (EvCall "client.login" [u; p] None) evs) /\
   In (EvCall "client.dump_settings" [Downloader.session_file] None) evs /\
   logged "INSTAGRAM_LOGIN_SUCCESS" evs = true).

Lemma setup_session_earned (s : state W) :
  wp (Downloader.setup_session E) s
     (fun r s' =>
        exists evs, trace s' = trace s ++ evs /\
          forall m, r = Ret (true, m) ->
            Downloader.client W E = true /\
            session_earned m evs).
Proof.
  unfold Downloader.setup_session.
  destruct (Downloader.client W E) eqn:Hclient; cbn [negb];
    [| apply wp_ret; exists []; split; [now rewrite app_nil_r | intros m Hm; congruence]].
  apply wp_bind. keyring_step username_keyring;
    [| eexists; split; [trace_norm; reflexivity | discriminate]].
  assert (Hlogin : forall s1 pre, trace s1 = trace s ++ pre ->
            wp (Downloader.fresh_login E) s1
              (fun r s' =>
                 exists evs, trace s' = trace s ++ evs /\
                   forall m, r = Ret (true, m) ->
                     true = true /\
                     session_earned m evs)).
  { intros s1 pre Hs1. eapply wp_mono; [apply fresh_login_earned |].
    intros r s' (evs' & Ht' & Hv). exists (pre ++ evs').
    split; [rewrite Ht', Hs1; now rewrite app_assoc |].
    intros m Hm. destruct (Hv _ Hm) as (Heq & (u & p & Hl) & Hd & Hs).
    injection Heq as <-. split; [reflexivity |]. right. split; [reflexivity |].
    split; [exists u, p; apply in_or_app; now right |].
    split; [apply in_or_app; now right |]. rewrite logged_app, Hs. apply orb_true_r. }
  apply wp_bind.
  destruct a as [u |]; [keyring_step password_keyring | apply wp_ret];
    [| eexists; split; [trace_norm; reflexivity | discriminate]
     | apply wp_ret; eexists; split; [trace_norm; reflexivity | intros m Hm; congruence]].
  destruct a as [p |];
    [| apply wp_ret; eexists; split; [trace_norm; reflexivity | intros m Hm; congruence]].
  apply wp_bind. keyring_step username_keyring;
    [| eexists; split; [trace_norm; reflexivity | discriminate]].
  assert (Hfail : forall e1 s1 pre, trace s1 = trace s ++ pre ->
            wp (call "Path.exists" [Downloader.session_file]
                  (Downloader.path_exists W E Downloader.session_file) ;;;
                auth_log "INSTAGRAM_LOGIN_FAILED" [JStr (exn_type e1); JStr (exn_msg e1)] ;;;
                ret (false, Downloader.login_failure_message (exn_msg e1))) s1
              (fun r s' =>
                 exists evs, trace s' = trace s ++ evs /\
                   forall m, r = Ret (true, m) -> true = true /\ session_earned m evs)).
  { intros e1 sa pre Hsa.
    wp_auto; eexists; (split; [cbn [trace]; rewrite Hsa; trace_norm; reflexivity |]);
      intros m Hm; first [discriminate Hm | congruence]. }
  assert (Hfresh : forall s1 pre, trace s1 = trace s ++ pre ->
            wp (Downloader.fresh_login E) s1
              (fun r s' =>
                 match r with
                 | Ret v =>
                     exists evs, trace s' = trace s ++ evs /\
                       forall m, @Ret (bool * string) v = Ret (true, m) ->
                                 true = true /\ session_earned m evs
                 | Raise e1 =>
                     wp (call "Path.exists" [Downloader.session_file]
                           (Downloader.path_exists W E Downloader.session_file) ;;;
                         auth_log "INSTAGRAM_LOGIN_FAILED"
                           [JStr (exn_type e1); JStr (exn_msg e1)] ;;;
                         ret (false, Downloader.login_failure_message (exn_msg e1))) s'
                       (fun r s' =>
                          exists evs, trace s' = trace s ++ evs /\
                            forall m, r = Ret (true, m) ->
                                      true = true /\ session_earned m evs)
                 end)).
  { intros sa pre Hsa. eapply wp_mono; [eapply Hlogin; exact Hsa |].
    intros [v | e1] s' (evs' & Ht' & Hv'); [now exists evs' |].
    eapply Hfail; exact Ht'. }
  apply wp_try, wp_bind. wp_step.
  - (* the session file was looked for *)
    destruct a0 as [|].
    + apply wp_bind, wp_try. wp_auto.
      all: try (eapply Hfresh; trace_norm; reflexivity).
      all: eexists; (split; [trace_norm; reflexivity |]); intros m Hm;
        first [discriminate Hm | congruence
              | injection Hm as <-; split; [reflexivity |]; left;
                split; [reflexivity |];
                split; [in_events |]; split; [in_events | no_calls]].
    + eapply Hfresh; trace_norm; reflexivity.
  - wp_auto; eexists; (split; [trace_norm; reflexivity |]); intros m Hm;
      first [discriminate Hm | congruence].
Qed.

(** A session set up with success was earned: when [setup_session]
    returns [(True, m)] the client exists and either the stored session
    was loaded and checked against the timeline without any call of
    [client.login], or a login succeeded, the session was saved and the
    success went to the audit log.  All it did were operations of the
    session. *)
Theorem session_success_is_earned (s s' : state W) (m : string) :
  Downloader.setup_session E s = (Ret (true, m), s') ->
  Downloader.client W E = true /\
  exists evs,
    trace s' = trace s ++ evs /\
    forallb (only session_ops session_tags) evs = true /\
    (m = "Session loaded successfully" /\
     In (EvCall "client.load_settings" [Downloader.session_file] None) evs /\
     In (EvCall "client.get_timeline_feed" [] None) evs /\
     calls_of "client.login" evs = 0%nat
     \/
     m = "Login successful" /\
     (exists u p, In (EvCall "client.login" [u; p] None) evs) /\
     In (EvCall "client.dump_settings" [Downloader.session_file] None) evs /\
     logged "INSTAGRAM_LOGIN_SUCCESS" evs = true).
Proof.
  intros Hrun.
  destruct (setup_session_earned s _ _ Hrun) as (evs & Ht & Hv).
  destruct (Hv m eq_refl) as [Hclient Hm]. split; [exact Hclient |].
  destruct (setup_session_session s _ _ Hrun) as (evs' & Ht' & Hf).
  rewrite Ht in Ht'. apply app_inv_head in Ht'. subst evs'.
  exists evs. auto.
Qed.

End Session.

Lemma session_success_is_earned_witness :
  exists (s' : state Scenario.net) evs,
    trace s' = trace Scenario.net0 ++ evs /\
    In (EvCall "client.get_timeline_feed" [] None) evs /\
    calls_of "client.login" evs = 0%nat.
Proof.
  pose proof (session_success_is_earned
                (Scenario.dl_env (Raise Scenario.validation_error) true true)
                Scenario.net0
                (snd (Downloader.setup_session
                        (Scenario.dl_env (Raise Scenario.validation_error) true true)
                        Scenario.net0))
                "Session loaded successfully") as H.
  specialize (H ltac:(vm_compute; reflexivity)).
  destruct H as (_ & evs & Ht & _ & [(_ & _ & Hfeed & Hlogin) | (Hm & _)]);
    [| discriminate Hm].
  exists (snd (Downloader.setup_session
                 (Scenario.dl_env (Raise Scenario.validation_error) true true)
                 Scenario.net0)), evs.
  split; [exact Ht | split; [exact Hfeed | exact Hlogin]].
Defined.

(** ** What a successful download tells *)

(** a step of which only the growth of the trace matters, by its
    footprint lemma *)
Ltac grow_step lem :=
  eapply wp_mono;
  [ apply wp_of_emits; apply lem
  | let r := fresh "r" in let s1 := fresh "s" in let evs := fresh "evs" in
    let Ht := fresh "Ht" in
    intros r s1 (evs & Ht & _); cbn [trace] in Ht; cbn beta iota; destruct r ].

(** closes a postcondition [exists evs, trace s' = trace s ++ evs /\ forall x, r = Ret .. -> ..]
    at a leaf whose result is not the one asked about *)
Ltac other_result :=
  eexists; (split; [trace_norm; reflexivity |]);
  let H := fresh "H" in intros; match goal with H : _ = Ret _ |- _ => first [discriminate H | congruence] end.

Section Success.
Context {W : Type} (E : Downloader.env W).

Lemma prepare_earned (url : string) (s : state W) :
  wp (Downloader.prepare E url) s
     (fun r s' =>
        exists evs, trace s' = trace s ++ evs /\
          forall pk, r = Ret (inr pk) ->
            Url._validate_instagram_url url = true /\
            In (EvCall "client.media_pk_from_url" [url] None) evs /\
            In (EvAuth "MEDIA_PK_EXTRACTED" [JStr url; JStr pk]) evs).
Proof.
  unfold Downloader.prepare.
  apply wp_bind. grow_step (get_session_status_quiet E); [| other_result].
  apply wp_bind.
  assert (Hrest : forall session s1 pre, trace s1 = trace s ++ pre ->
    wp (if negb (fst session) then ret (inl ("Login required: " +:+ snd session))
        else if negb (Url._validate_instagram_url url)
             then ret (inl "Invalid Instagram URL format")
             else
               try_except
                 (media_pk <- call "client.media_pk_from_url" [url]
                                (Downloader.media_pk_from_url W E url) ;;
                  auth_log "MEDIA_PK_EXTRACTED" [JStr url; JStr media_pk] ;;;
                  ret (inr media_pk))
                 (fun pk_error =>
                    let error_msg :=
                      "Failed to extract media PK from URL: " +:+ exn_msg pk_error in
                    auth_log "MEDIA_PK_EXTRACTION_FAILED" [JStr url; JStr error_msg] ;;;
                    ret (inl error_msg))) s1
       (fun r s' =>
          exists evs, trace s' = trace s ++ evs /\
            forall pk, r = Ret (inr pk) ->
              Url._validate_instagram_url url = true /\
              In (EvCall "client.media_pk_from_url" [url] None) evs /\
              In (EvAuth "MEDIA_PK_EXTRACTED" [JStr url; JStr pk]) evs)).
  { intros session sa pre Hsa.
    destruct (negb (fst session)); [apply wp_ret; other_result |].
    destruct (Url._validate_instagram_url url) eqn:Hurl; cbn [negb];
      [| apply wp_ret; other_result].
    cbv zeta. wp_auto; try other_result.
    eexists; (split; [trace_norm; reflexivity |]).
    intros pk Hpk. injection Hpk as <-. split; [reflexivity |].
    split; rewrite ?in_app_iff; cbn [In]; auto. }
  destruct (negb (String.eqb a "active")).
  - grow_step (setup_session_quiet E); [| other_result].
    eapply Hrest. trace_norm. reflexivity.
  - apply wp_ret. eapply Hrest. trace_norm. reflexivity.
Qed.

(** a raw-protocol download that answers success names the file
    [instagram_<pk>.mp4] or [instagram_<pk>.jpg] of the folder *)
Lemma fallback_download_direct_path (pk : string) (mt : json) (folder : string)
    (s : state W) :
  wp (Downloader._fallback_download_direct E pk mt folder) s
     (fun r s' =>
        exists evs, trace s' = trace s ++ evs /\
          forall m o, r = Ret (true, m, o) ->
            exists ext, (ext = ".mp4" \/ ext = ".jpg") /\
              o = Some (Path.join folder ("instagram_" +:+ pk +:+ ext))).
Proof.
  unfold Downloader._fallback_download_direct. cbv zeta.
  apply wp_try, wp_bind.
  grow_step (get_raw_media_data_quiet E pk); [| apply wp_ret; other_result].
  destruct a as [data |]; [| apply wp_ret; other_result].
  destruct (negb (Py.truthy data)); [apply wp_ret; other_result |].
  destruct (Extract._extract_all_download_urls_from_raw_data data mt) as [|u urls];
    [apply wp_ret; other_result |].
  apply wp_bind.
  grow_step (download_with_url_fallbacks_quiet E (u :: urls)
               (if Py.eqb mt (JInt 2)
                then Path.join folder (("instagram_" +:+ pk) +:+ ".mp4")
                else Path.join folder (("instagram_" +:+ pk) +:+ ".jpg")));
    [| apply wp_ret; other_result].
  apply wp_bind.
  wp_auto; try other_result.
  all: eexists; (split; [trace_norm; reflexivity |]); intros m o Hr; injection Hr as _ <-;
    rewrite !append_assoc_s;
    destruct (Py.eqb mt (JInt 2)); [exists ".mp4" | exists ".jpg"]; auto.
Qed.

Lemma structured_download_path (kind op : string)
    (download : string -> string -> W -> outcome (option string) * W)
    (ext pk folder : string) (s : state W) :
  (forall args o, quiet (EvCall op args o) = true) ->
  wp (Downloader.structured_download E kind op download ext pk folder) s
     (fun r s' =>
        exists evs, trace s' = trace s ++ evs /\
          forall p, r = Ret (inr p) ->
                    p = Path.join folder ("instagram_" +:+ pk +:+ ext)).
Proof.
  intros Hop. unfold Downloader.structured_download, Retry._retry_download_with_backoff.
  cbv zeta. apply wp_try, wp_bind.
  grow_step (attempts_quiet (call op [pk; folder] (download pk folder))
               (Downloader.INSTAGRAM_RETRY_ATTEMPTS W E)
               (Z.to_nat (Downloader.INSTAGRAM_RETRY_ATTEMPTS W E))
               (emits_call quiet op [pk; folder] (download pk folder)
                  (fun o => Hop [pk; folder] o)) 0);
    [| apply wp_ret; other_result].
  wp_auto; try other_result.
  all: eexists; (split; [trace_norm; reflexivity |]); intros p Hp; injection Hp as <-;
    now rewrite append_assoc_s.
Qed.

(** the path that [acquire] gives is [instagram_<pk>.mp4] or
    [instagram_<pk>.jpg] in the folder *)
Lemma acquire_path (pk : string) (mt : json) (fb : bool) (folder : string) (s : state W) :
  wp (Downloader.acquire E pk mt fb folder) s
     (fun r s' =>
        exists evs, trace s' = trace s ++ evs /\
          forall p, r = Ret (inr p) ->
            exists ext, (ext = ".mp4" \/ ext = ".jpg") /\
              p = Path.join folder ("instagram_" +:+ pk +:+ ext)).
Proof.
  unfold Downloader.acquire. destruct fb.
  - apply wp_bind. eapply wp_mono; [apply fallback_download_direct_path |].
    intros [[[success message] o] | e] s1 (evs & Ht & Hv); cbn beta iota; [| other_result].
    destruct success; cbn [negb]; [| apply wp_ret; other_result].
    destruct (Hv _ _ eq_refl) as (ext & Hext & ->). apply wp_ret.
    exists evs. split; [exact Ht |].
    intros p Hp. injection Hp as <-. now exists ext.
  - destruct (Py.eqb mt (JInt 2));
      (eapply wp_mono; [apply structured_download_path; intros; reflexivity |]);
      intros r s1 (evs & Ht & Hv); exists evs; (split; [exact Ht |]);
      intros p Hp; rewrite (Hv p Hp); eexists; split; [| reflexivity | | reflexivity]; auto.
Qed.

Lemma conclude_earned (url p : string) (mi : Downloader.pyobj) (fb : bool) (s : state W) :
  wp (Downloader.conclude E url p mi fb) s
     (fun r s' =>
        exists evs, trace s' = trace s ++ evs /\
          forall msg, r = Ret (true, msg) ->
            msg = "Downloaded: " +:+ Path.name p /\
            In (EvCall "Path.exists" [p] None) evs /\
            exists size,
              In (EvCall "Path.stat" [p] None) evs /\
              In (EvAuth "INSTAGRAM_DOWNLOAD_SUCCESS"
                    [JStr url; JStr (Path.name p); JInt size]) evs).
Proof.
  unfold Downloader.conclude.
  wp_step. wp_step; cbn beta iota; [| other_result].
  destruct a; [| apply wp_ret; other_result].
  wp_step. wp_step; cbn beta iota; [| other_result].
  wp_step. wp_step. cbn beta iota. wp_step.
  assert (Hend : forall mi' s1 pre, trace s1 = trace s ++
              [EvCall "Path.exists" [p] None; EvCall "Path.stat" [p] None;
               EvAuth "INSTAGRAM_DOWNLOAD_SUCCESS" [JStr url; JStr (Path.name p); JInt a]]
              ++ pre ->
    wp (Downloader._trigger_content_processing E p url mi' ;;;
        ret (true, "Downloaded: " +:+ Path.name p)) s1
       (fun r s' =>
          exists evs, trace s' = trace s ++ evs /\
            forall msg, r = Ret (true, msg) ->
              msg = "Downloaded: " +:+ Path.name p /\
              In (EvCall "Path.exists" [p] None) evs /\
              exists size,
                In (EvCall "Path.stat" [p] None) evs /\
                In (EvAuth "INSTAGRAM_DOWNLOAD_SUCCESS"
                      [JStr url; JStr (Path.name p); JInt size]) evs)).
  { intros mi' sa pre Hsa. apply wp_bind.
    grow_step (trigger_content_processing_quiet E p url mi'); [| other_result].
    apply wp_ret. eexists. split; [trace_norm; reflexivity |].
    intros msg Hmsg. injection Hmsg as <-. split; [reflexivity |].
    split; [now left |]. exists a. split; [right; now left | right; right; now left]. }
  destruct fb.
  - wp_step. grow_step (detect_post_download_metadata_quiet E p); [| other_result].
    destruct a0 as [|kv md].
    + apply wp_ret. eapply Hend. trace_norm. reflexivity.
    + wp_step. wp_step. cbn beta iota. apply wp_ret. eapply Hend. trace_norm. reflexivity.
  - apply wp_ret. eapply Hend. trace_norm. reflexivity.
Qed.

Local Abbreviation delivered url folder pk msg evs :=
  (exists mt ext size,
     let p := Path.join (Downloader.route E mt folder) ("instagram_" +:+ pk +:+ ext) in
     (ext = ".mp4" \/ ext = ".jpg") /\
     msg = "Downloaded: " +:+ Path.name p /\
     In (EvCall "Path.mkdir" [Downloader.route E mt folder] None) evs /\
     In (EvCall "Path.exists" [p] None) evs /\
     In (EvCall "Path.stat" [p] None) evs /\
     In (EvAuth "INSTAGRAM_DOWNLOAD_SUCCESS" [JStr url; JStr (Path.name p); JInt size]) evs).

Lemma deliver_earned (url : string) (folder : option string) (pk : string)
    (mi : Downloader.pyobj) (fb : bool) (s : state W) :
  wp (Downloader.deliver E url folder pk mi fb) s
     (fun r s' =>
        exists evs, trace s' = trace s ++ evs /\
          forall msg, r = Ret (true, msg) -> delivered url folder pk msg evs).
Proof.
  unfold Downloader.deliver. cbv zeta.
  wp_step. grow_step (getattr_quiet (W := W) mi "media_type"); [| other_result].
  wp_step. wp_step; cbn beta iota; [| other_result].
  wp_step. eapply wp_mono; [apply acquire_path |].
  intros [[message | p] | e] s1 (evs1 & Ht1 & Hp); cbn beta iota; cbn [trace] in Ht1;
    [apply wp_ret; other_result | | other_result].
  destruct (Hp p eq_refl) as (ext & Hext & ->).
  eapply wp_mono; [apply conclude_earned |].
  intros r s2 (evs2 & Ht2 & Hv). eexists. split; [trace_norm; reflexivity |].
  intros msg Hmsg. destruct (Hv msg Hmsg) as (-> & Hex & size & Hst & Hlog).
  exists a, ext, size. cbv zeta. split; [exact Hext |]. split; [reflexivity |].
  rewrite !in_app_iff. cbn [In]. auto 8.
Qed.

Lemma download_body_earned (url : string) (folder : option string) (s : state W) :
  wp (Downloader.download_body E url folder) s
     (fun r s' =>
        exists evs, trace s' = trace s ++ evs /\
          forall msg, r = Ret (true, msg) ->
            Url._validate_instagram_url url = true /\
            exists pk,
              In (EvCall "client.media_pk_from_url" [url] None) evs /\
              In (EvAuth "MEDIA_PK_EXTRACTED" [JStr url; JStr pk]) evs /\
              delivered url folder pk msg evs).
Proof.
  unfold Downloader.download_body.
  wp_step. eapply wp_mono; [apply prepare_earned |].
  intros [[message | pk] | e] s1 (evs1 & Ht1 & Hpk); cbn beta iota;
    [apply wp_ret; other_result | | other_result].
  destruct (Hpk pk eq_refl) as (Hurl & Hcall & Hlog).
  wp_step.
  intros r s2 Hrun. destruct (retrieve_spec E pk url s1 r s2 Hrun) as (o & rest & Ht2 & _).
  destruct r as [[message | [mi fb]] | e]; [apply wp_ret; other_result | | other_result].
  eapply wp_mono; [apply deliver_earned |].
  intros r s3 (evs3 & Ht3 & Hv). eexists. split; [trace_norm; reflexivity |].
  intros msg Hmsg. split; [exact Hurl |]. exists pk.
  destruct (Hv msg Hmsg) as (mt & ext & size & Hd). cbv zeta in Hd.
  destruct Hd as (Hext & -> & Hmk & Hex & Hst & Hok).
  split; [rewrite !in_app_iff; auto |]. split; [rewrite !in_app_iff; auto |].
  exists mt, ext, size. cbv zeta. split; [exact Hext |]. split; [reflexivity |].
  rewrite !in_app_iff. cbn [In]. auto 8.
Qed.

(** [download_single_reel] answers [True] only for a URL that passed the
    URL check, after the primary key was extracted and recorded, and after
    the file [instagram_<pk>.mp4] or [instagram_<pk>.jpg] of the routed
    folder was found on disk and measured; the success is in the audit
    log and the message names that file. *)
Theorem download_success_is_checked (url : string) (folder : option string)
    (s s' : state W) (msg : string) :
  Downloader.download_single_reel E url folder s = (Ret (true, msg), s') ->
  Downloader.client W E = true /\
  Url._validate_instagram_url url = true /\
  exists evs pk mt ext size,
    let p := Path.join (Downloader.route E mt folder) ("instagram_" +:+ pk +:+ ext) in
    trace s' = trace s ++ evs /\
    (ext = ".mp4" \/ ext = ".jpg") /\
    msg = "Downloaded: " +:+ Path.name p /\
    In (EvCall "client.media_pk_from_url" [url] None) evs /\
    In (EvAuth "MEDIA_PK_EXTRACTED" [JStr url; JStr pk]) evs /\
    In (EvCall "Path.mkdir" [Downloader.route E mt folder] None) evs /\
    In (EvCall "Path.exists" [p] None) evs /\
    In (EvCall "Path.stat" [p] None) evs /\
    In (EvAuth "INSTAGRAM_DOWNLOAD_SUCCESS" [JStr url; JStr (Path.name p); JInt size]) evs.
Proof.
  unfold Downloader.download_single_reel. intros Hrun.
  destruct (Downloader.client W E); cbn [negb] in Hrun; [| discriminate Hrun].
  split; [reflexivity |].
  assert (Hwp : wp (try_except (Downloader.download_body E url folder)
                      (fun e =>
                         auth_log "INSTAGRAM_DOWNLOAD_FAILED" [JStr url; JStr (exn_msg e)] ;;;
                         ret (false, Downloader.boundary_message (exn_msg e)))) s
                   (fun r s' =>
                      exists evs, trace s' = trace s ++ evs /\
                        forall msg, r = Ret (true, msg) ->
                          Url._validate_instagram_url url = true /\
                          exists pk,
                            In (EvCall "client.media_pk_from_url" [url] None) evs /\
                            In (EvAuth "MEDIA_PK_EXTRACTED" [JStr url; JStr pk]) evs /\
                            delivered url folder pk msg evs)).
  { apply wp_try. eapply wp_mono; [apply download_body_earned |].
    intros [v | e] s1 (evs & Ht & Hv); cbn beta iota; [now exists evs |].
    wp_auto. other_result. }
  destruct (Hwp _ _ Hrun) as (evs & Ht & Hv).
  destruct (Hv msg eq_refl) as (Hurl & pk & Hcall & Hlog & mt & ext & size & Hd).
  split; [exact Hurl |]. exists evs, pk, mt, ext, size. cbv zeta in Hd |- *.
  destruct Hd as (Hext & Hmsg & Hmk & Hex & Hst & Hok). auto 12.
Qed.

End Success.

Lemma download_success_is_checked_witness :
  Url._validate_instagram_url Scenario.reel_url = true /\
  exists evs pk,
    In (EvAuth "MEDIA_PK_EXTRACTED" [JStr Scenario.reel_url; JStr pk]) evs.
Proof.
  pose proof (download_success_is_checked
                (Scenario.dl_env (Ret Cases.reel_info) true true)
                Scenario.reel_url None Scenario.net0
                (snd (Downloader.download_single_reel
                        (Scenario.dl_env (Ret Cases.reel_info) true true)
                        Scenario.reel_url None Scenario.net0))
                "Downloaded: instagram_3141592653589793238.mp4") as H.
  specialize (H ltac:(vm_compute; reflexivity)).
  destruct H as (_ & Hurl & evs & pk & mt & ext & size & H). cbv zeta in H.
  destruct H as (_ & _ & _ & _ & Hpk & _).
  split; [exact Hurl |]. exists evs, pk.
  exact Hpk.
Defined.

(** ** A URL that fails the check *)

(** a step of which the footprint is kept, by its footprint lemma *)
Ltac foot_step lem :=
  eapply wp_mono;
  [ apply wp_of_emits; apply lem
  | let r := fresh "r" in let s1 := fresh "s" in let evs := fresh "evs" in
    let Ht := fresh "Ht" in let Hk := fresh "Hk" in
    intros r s1 (evs & Ht & Hk); cbn [trace] in Ht; cbn beta iota; destruct r ].

(** closes [exists evs, trace s' = trace s ++ evs /\ forallb q evs = true]
    from the footprints of the steps taken *)
Ltac foot_done :=
  eexists; split; [trace_norm; reflexivity |];
  rewrite ?forallb_app;
  repeat match goal with
         | Hk : forallb _ ?e = true |- context [forallb _ ?e] => rewrite Hk
         end;
  reflexivity.

Section InvalidUrl.
Context {W : Type} (E : Downloader.env W).

Local Abbreviation session_events :=
  (only ["keyring.get_password"; "Path.exists"; "client.load_settings"; "client.account_info";
         "client.get_timeline_feed"; "client.login"; "client.dump_settings"; "Path.stat"]
        ["INSTAGRAM_LOGIN_ATTEMPT"; "INSTAGRAM_LOGIN_SUCCESS"; "INSTAGRAM_LOGIN_FAILED";
         "INSTAGRAM_SESSION_LOADED_SUCCESSFULLY"]).

Lemma prepare_invalid (url : string) (s : state W) :
  Url._validate_instagram_url url = false ->
  wp (Downloader.prepare E url) s
     (fun r s' =>
        (forall pk, r <> Ret (inr pk)) /\
        exists evs, trace s' = trace s ++ evs /\ forallb session_events evs = true).
Proof.
  intros Hurl. unfold Downloader.prepare. rewrite Hurl. cbn [negb].
  apply wp_bind. foot_step (get_session_status_session E);
    [| split; [discriminate | foot_done]].
  apply wp_bind.
  destruct (negb (String.eqb a "active")).
  - foot_step (setup_session_session E); [| split; [discriminate | foot_done]].
    destruct (negb (fst a0)); apply wp_ret; (split; [discriminate | foot_done]).
  - apply wp_ret. cbn [fst negb]. apply wp_ret. split; [discriminate | foot_done].
Qed.

Lemma session_events_weaken (evs : list event) :
  forallb session_events evs = true ->
  forallb (only ["keyring.get_password"; "Path.exists"; "client.load_settings";
                 "client.account_info"; "client.get_timeline_feed"; "client.login";
                 "client.dump_settings"; "Path.stat"]
                ["INSTAGRAM_LOGIN_ATTEMPT"; "INSTAGRAM_LOGIN_SUCCESS";
                 "INSTAGRAM_LOGIN_FAILED"; "INSTAGRAM_SESSION_LOADED_SUCCESSFULLY";
                 "INSTAGRAM_DOWNLOAD_FAILED"]) evs = true.
Proof.
  induction evs as [|ev evs IH]; [reflexivity |]. cbn [forallb]. intros H.
  apply andb_true_iff in H as [Hev Hevs]. rewrite (IH Hevs), andb_true_r.
  destruct ev as [op args o | tag fields]; [exact Hev |].
  cbn [only existsb] in Hev |- *. rewrite !orb_false_r in Hev.
  repeat (apply orb_true_iff in Hev as [Hev | Hev]; [rewrite Hev, ?orb_true_r; reflexivity |]).
  rewrite Hev, ?orb_true_r. reflexivity.
Qed.

(** A URL that fails the URL check is never handed to Instagram:
    [download_single_reel] answers [False] and what it did are operations
    of the session alone, with at most the record of a failed download
    after them; no primary key is asked for, no media call is made and
    nothing is downloaded. *)
Theorem invalid_url_is_not_fetched (url : string) (folder : option string)
    (s : state W) (r : outcome (bool * string)) (s' : state W) :
  Url._validate_instagram_url url = false ->
  Downloader.download_single_reel E url folder s = (r, s') ->
  exists message evs,
    r = Ret (false, message) /\
    trace s' = trace s ++ evs /\
    forallb (only ["keyring.get_password"; "Path.exists"; "client.load_settings";
                   "client.account_info"; "client.get_timeline_feed"; "client.login";
                   "client.dump_settings"; "Path.stat"]
                  ["INSTAGRAM_LOGIN_ATTEMPT"; "INSTAGRAM_LOGIN_SUCCESS";
                   "INSTAGRAM_LOGIN_FAILED"; "INSTAGRAM_SESSION_LOADED_SUCCESSFULLY";
                   "INSTAGRAM_DOWNLOAD_FAILED"]) evs = true /\
    calls_of "client.media_pk_from_url" evs = 0%nat /\
    calls_of "client.media_info" evs = 0%nat /\
    calls_of "client.private.get" evs = 0%nat /\
    calls_of "client.video_download" evs = 0%nat /\
    calls_of "client.photo_download" evs = 0%nat.
Proof.
  intros Hurl Hrun.
  assert (Hwp : wp (Downloader.download_single_reel E url folder) s
                  (fun r s' =>
                     (exists message, r = Ret (false, message)) /\
                     exists evs, trace s' = trace s ++ evs /\
                       forallb (only ["keyring.get_password"; "Path.exists";
                                      "client.load_settings"; "client.account_info";
                                      "client.get_timeline_feed"; "client.login";
                                      "client.dump_settings"; "Path.stat"]
                                     ["INSTAGRAM_LOGIN_ATTEMPT"; "INSTAGRAM_LOGIN_SUCCESS";
                                      "INSTAGRAM_LOGIN_FAILED";
                                      "INSTAGRAM_SESSION_LOADED_SUCCESSFULLY";
                                      "INSTAGRAM_DOWNLOAD_FAILED"]) evs = true)).
  { unfold Downloader.download_single_reel.
    destruct (negb (Downloader.client W E));
      [apply wp_ret; split; [eauto | exists []; split; [now rewrite app_nil_r | reflexivity]] |].
    apply wp_try. unfold Downloader.download_body. apply wp_bind.
    eapply wp_mono; [apply prepare_invalid, Hurl |].
    intros [[message | pk] | e] s1 (Hno & evs & Ht & Hk); cbn beta iota;
      [| now destruct (Hno pk) |]; apply session_events_weaken in Hk.
    - apply wp_ret. split; [eauto | foot_done].
    - wp_auto. split; [eauto | foot_done]. }
  destruct (Hwp _ _ Hrun) as ((message & ->) & evs & Ht & Hk).
  exists message, evs. split; [reflexivity |]. split; [exact Ht |]. split; [exact Hk |].
  repeat split; (eapply only_no_calls; [| exact Hk]; reflexivity).
Qed.

End InvalidUrl.

Lemma invalid_url_is_not_fetched_witness :
  exists message evs,
    fst (Downloader.download_single_reel (Scenario.dl_env (Ret Cases.reel_info) true true)
           "https://example.com/reel/Cxyz123AbC/" None Scenario.net0)
    = Ret (false, message) /\
    calls_of "client.media_pk_from_url" evs = 0%nat.
Proof.
  destruct (invalid_url_is_not_fetched
              (Scenario.dl_env (Ret Cases.reel_info) true true)
              "https://example.com/reel/Cxyz123AbC/" None Scenario.net0
              (fst (Downloader.download_single_reel
                      (Scenario.dl_env (Ret Cases.reel_info) true true)
                      "https://example.com/reel/Cxyz123AbC/" None Scenario.net0))
              (snd (Downloader.download_single_reel
                      (Scenario.dl_env (Ret Cases.reel_info) true true)
                      "https://example.com/reel/Cxyz123AbC/" None Scenario.net0)))
    as (message & evs & Hr & _ & _ & Hpk & _).
  - vm_compute; reflexivity.
  - vm_compute; reflexivity.
  - exists message, evs. split; [exact Hr | exact Hpk].
Defined.

(** ** The download endpoint *)

Lemma download_single_reel_returns {W : Type} (E : Downloader.env W) (url : string)
    (folder : option string) (s : state W) :
  exists ok message s',
    Downloader.download_single_reel E url folder s = (Ret (ok, message), s').
Proof.
  unfold Downloader.download_single_reel, try_except.
  destruct (negb (Downloader.client W E)); [now eexists _, _, _ |].
  destruct (Downloader.download_body E url folder s) as [[[ok message] | e] s1];
    now eexists _, _, _.
Qed.

(** [POST /download] always answers, with status 200, 400 or 500; the
    reply has a message and its [success] is true exactly at status 200.
    A reply of status 400 comes with nothing done: the state is the one
    before the request. *)
Theorem download_endpoint_replies {W : Type} (E : Downloader.env W) (body : outcome json)
    (s : state W) :
  exists reply s',
    Server.download_content E body s = (Ret reply, s') /\
    (Server.status reply = 200 \/ Server.status reply = 400 \/ Server.status reply = 500) /\
    Py.assoc "success" (Server.items reply) = Some (JBool (Server.status reply =? 200)) /\
    (exists message, Py.assoc "message" (Server.items reply) = Some (JStr message)) /\
    (Server.status reply = 400 -> s' = s).
Proof.
  assert (Hwp : wp (Server.download_content E body) s
                  (fun r s' =>
                     exists reply, r = Ret reply /\
                       (Server.status reply = 200 \/ Server.status reply = 400 \/
                        Server.status reply = 500) /\
                       Py.assoc "success" (Server.items reply)
                       = Some (JBool (Server.status reply =? 200)) /\
                       (exists message,
                           Py.assoc "message" (Server.items reply) = Some (JStr message)) /\
                       (Server.status reply = 400 -> s' = s))).
  { unfold Server.download_content, PyOps.getitem, PyOps.get.
    apply wp_try, wp_bind. intros r s1 Hrun. injection Hrun as <- <-.
    destruct body as [data | e]; [| wp_auto; eexists; split; [reflexivity |]; cbn;
                                    repeat split; eauto; discriminate].
    wp_auto.
    all: try (eexists; split; [reflexivity |]; cbn; repeat split; eauto; discriminate).
    all: intros r s1 Hrun;
      match type of Hrun with
      | Downloader.download_single_reel _ ?u _ _ = _ =>
          destruct (download_single_reel_returns E u None s) as (ok & m & s2 & Hok)
      end;
      rewrite Hok in Hrun; injection Hrun as <- <-; destruct ok; apply wp_ret;
      eexists; (split; [reflexivity |]); cbn; repeat split; eauto; discriminate. }
  destruct (Server.download_content E body s) as [r s'] eqn:Hrun.
  destruct (Hwp _ _ Hrun) as (reply & -> & H). now exists reply, s'.
Qed.

(** A request whose document is a dict with a [url]: when the URL fails
    the check the reply is 400 and nothing was done; otherwise the reply
    carries what [download_single_reel] answered for it, with status 200
    on success and 500 on failure. *)
Theorem download_endpoint_forwards {W : Type} (E : Downloader.env W)
    (d : list (string * json)) (url : json) (s : state W) :
  Py.assoc "url" d = Some url ->
  match Server.accepted_url url with
  | None =>
      Server.download_content E (Ret (JDict d)) s
      = (Ret (Server.Reply 400 [("success", JBool false);
                                ("message", JStr "Invalid Instagram URL")]), s)
  | Some u =>
      exists ok message s',
        Downloader.download_single_reel E u None s = (Ret (ok, message), s') /\
        Server.download_content E (Ret (JDict d)) s
        = (Ret (if ok
                then Server.Reply 200 [("success", JBool true); ("message", JStr message);
                                       ("folder", JStr "auto-routed")]
                else Server.Reply 500 [("success", JBool false); ("message", JStr message)]),
           s')
  end.
Proof.
  intros Hurl.
  assert (Hd : Py.truthy (JDict d) = true) by (destruct d; [discriminate Hurl | reflexivity]).
  assert (Hwp : wp (Server.download_content E (Ret (JDict d))) s
                  (fun r s' =>
                     match Server.accepted_url url with
                     | None =>
                         (r, s') = (Ret (Server.Reply 400
                                           [("success", JBool false);
                                            ("message", JStr "Invalid Instagram URL")]), s)
                     | Some u =>
                         exists ok message,
                           Downloader.download_single_reel E u None s
                           = (Ret (ok, message), s') /\
                           r = Ret (if ok
                                    then Server.Reply 200
                                           [("success", JBool true);
                                            ("message", JStr message);
                                            ("folder", JStr "auto-routed")]
                                    else Server.Reply 500
                                           [("success", JBool false);
                                            ("message", JStr message)])
                     end)).
  { unfold Server.download_content, PyOps.getitem, PyOps.get.
    apply wp_try, wp_bind. intros r s1 Hrun. injection Hrun as <- <-.
    cbn beta iota. rewrite Hd. cbn [negb Server.has_url Py.get]. rewrite Hurl.
    rewrite bool_decide_eq_true_2 by eauto. cbn [negb].
    apply wp_bind, wp_ret. cbn beta iota. apply wp_bind, wp_ret. apply wp_bind, wp_ret.
    destruct (Server.accepted_url url) as [u |]; [| now apply wp_ret].
    apply wp_bind. intros r s1 Hrun.
    destruct (download_single_reel_returns E u None s) as (ok & m & s2 & Hok).
    rewrite Hok in Hrun. injection Hrun as <- <-.
    destruct ok; apply wp_ret; [exists true, m | exists false, m];
      (split; [exact Hok | reflexivity]). }
  destruct (Server.download_content E (Ret (JDict d)) s) as [r s'] eqn:Hrun.
  specialize (Hwp _ _ Hrun). destruct (Server.accepted_url url) as [u |]; [| exact Hwp].
  destruct Hwp as (ok & m & Hok & ->). now exists ok, m, s'.
Qed.

Lemma download_endpoint_forwards_witness :
  exists s',
    Server.download_content (Scenario.dl_env (Ret Cases.reel_info) true true)
      (Ret (JDict [("url", JStr Scenario.reel_url); ("type", JStr "video")])) Scenario.net0
    = (Ret (Server.Reply 200 [("success", JBool true);
                              ("message", JStr "Downloaded: instagram_3141592653589793238.mp4");
                              ("folder", JStr "auto-routed")]), s').
Proof.
  pose proof (download_endpoint_forwards (Scenario.dl_env (Ret Cases.reel_info) true true)
                [("url", JStr Scenario.reel_url); ("type", JStr "video")]
                (JStr Scenario.reel_url) Scenario.net0 eq_refl) as H.
  change (Server.accepted_url (JStr Scenario.reel_url)) with (Some Scenario.reel_url) in H.
  destruct H as (ok & message & s' & Hrun & Hreply).
  vm_compute in Hrun. injection Hrun as <- <- _.
  exists s'. exact Hreply.
Defined.

(** ** The counters of a batch run *)

Section BatchRun.
Context {X : Type} (E : Processor.env X) (U : Batch.ui X).

(** the widgets never raise *)
Local Abbreviation widgets_work :=
  (forall op args x, exists x', Batch.st_call X U op args x = (Ret tt, x')).

Local Abbreviation consistent r :=
  (Batch.processed r
   = Batch.images_processed r + Batch.videos_processed r + Batch.duplicates_skipped r /\
   Batch.failed r = Z.of_nat (length (Batch.errors r)) /\
   0 <= Batch.images_processed r /\ 0 <= Batch.videos_processed r /\
   0 <= Batch.duplicates_skipped r).

(** what [n] iterations make of the counters [r] *)
Local Abbreviation advanced n r r' :=
  (Batch.processed r <= Batch.processed r' <= Batch.processed r + n /\
   Batch.failed r <= Batch.failed r' <= Batch.failed r + n /\
   Batch.processed r + Batch.failed r + n <= Batch.processed r' + Batch.failed r' /\
   (widgets_work ->
    Batch.processed r' + Batch.failed r' = Batch.processed r + Batch.failed r + n)).

Lemma record_failure_counts (r : Batch.results) (error : string) :
  consistent r ->
  consistent (Batch.record_failure r error) /\
  Batch.processed (Batch.record_failure r error) = Batch.processed r /\
  Batch.failed (Batch.record_failure r error) = Batch.failed r + 1.
Proof.
  intros (H1 & H2 & H3). unfold Batch.record_failure. cbn.
  rewrite length_app. cbn. repeat split; try tauto; lia.
Qed.

Lemma record_success_counts (r : Batch.results) (message file_path : string)
    (image_files : list string) :
  consistent r ->
  consistent (Batch.record_success r message file_path image_files) /\
  Batch.processed (Batch.record_success r message file_path image_files)
  = Batch.processed r + 1 /\
  Batch.failed (Batch.record_success r message file_path image_files) = Batch.failed r.
Proof.
  intros (H1 & H2 & H3). unfold Batch.record_success.
  destruct (PyStr.contains "duplicate" (PyStr.lower message));
    [| destruct (Processor.mem file_path image_files)]; cbn; repeat split; try tauto; lia.
Qed.

Lemma widget_raised {A : Type} (HW : widgets_work) (op : string) (args : list string)
    (w : Processor.machine X) (e : exn) (w' : Processor.machine X) :
  (let '(o, x) := Batch.st_call X U op args (Processor.ext w) in
   (o, Processor.Machine (Processor.fs w) (Processor.hash_cache w)
         (Processor.hash_cache_json w) x)) = (Raise e, w') -> False.
Proof.
  destruct (HW op args (Processor.ext w)) as [x' ->]. discriminate.
Qed.

Lemma process_one_counts (total : nat) (image_files : list string) (i : Z)
    (file_path : string) (r : Batch.results) (s : state (Processor.machine X)) :
  consistent r ->
  wp (Batch.process_one E U total image_files i file_path r) s
     (fun o _ => forall r', o = Ret r' -> consistent r' /\ advanced 1 r r').
Proof.
  intros Hr.
  destruct (record_failure_counts r (Path.name file_path +:+ ": Unexpected error") Hr)
    as (Hf1 & Hf2 & Hf3).
  unfold Batch.process_one, Batch.st, Processor.call_ext.
  apply wp_bind, wp_try, wp_bind. wp_step.
  - (* the status text was set *)
    wp_step. intros res s1 Hrun. destruct res as [[success message] | e]; cbn beta iota.
    + destruct success.
      * destruct (record_success_counts r message file_path image_files Hr) as (Hs1 & Hs2 & Hs3).
        destruct (record_failure_counts _ (Path.name file_path +:+ ": Unexpected error") Hs1)
          as (Hg1 & Hg2 & Hg3).
        wp_auto; intros r' Hr'; try discriminate Hr'; injection Hr' as <-;
          (split; [assumption |]).
        all: repeat split; try lia.
        all: try (intros HW; exfalso; eapply (widget_raised (A := unit) HW); eassumption).
        all: intros _; lia.
      * destruct (record_failure_counts r (Path.name file_path +:+ ": " +:+ message) Hr)
          as (Hg1 & Hg2 & Hg3).
        wp_auto; intros r' Hr'; try discriminate Hr'; injection Hr' as <-;
          (split; [assumption |]); repeat split; try lia; intros _; lia.
    + wp_auto; intros r' Hr'; try discriminate Hr'; injection Hr' as <-;
        (split; [assumption |]); repeat split; try lia; intros _; lia.
  - wp_auto; intros r' Hr'; try discriminate Hr'; injection Hr' as <-;
      (split; [assumption |]); repeat split; try lia; intros _; lia.
Qed.

Lemma process_files_counts (total : nat) (image_files : list string)
    (files : list string) :
  forall (i : Z) (r : Batch.results) (s : state (Processor.machine X)),
    consistent r ->
    wp (Batch.process_files E U total image_files i files r) s
       (fun o _ => forall r', o = Ret r' ->
                     consistent r' /\ advanced (Z.of_nat (length files)) r r').
Proof.
  induction files as [|file_path rest IH]; intros i r s Hr; cbn [Batch.process_files].
  - apply wp_ret. intros r' Hr'. injection Hr' as <-. split; [exact Hr |].
    cbn [length]. repeat split; try lia; intros _; lia.
  - apply wp_bind. eapply wp_mono; [apply process_one_counts, Hr |].
    intros [r1 | e] s1 H1; cbn beta iota; [| discriminate].
    destruct (H1 r1 eq_refl) as (Hr1 & Ha1 & Hb1 & Hc1 & Hd1).
    eapply wp_mono; [apply IH, Hr1 |].
    intros o s2 H2 r' Hr'. destruct (H2 r' Hr') as (Hr2 & Ha2 & Hb2 & Hc2 & Hd2).
    split; [exact Hr2 |]. cbn [length]. rewrite Nat2Z.inj_succ.
    repeat split; try lia. intros HW. specialize (Hd1 HW). specialize (Hd2 HW). lia.
Qed.

Lemma slice_to_length {A : Type} (n : Z) (l : list A) :
  0 <= n -> Z.of_nat (length (Batch.slice_to n l)) <= n.
Proof.
  intros Hn. unfold Batch.slice_to. destruct (0 <=? n) eqn:H0; [| lia].
  rewrite length_firstn. lia.
Qed.

Lemma process_batch_counts (s : state (Processor.machine X)) :
  wp (Batch.process_batch E U) s
     (fun o _ =>
        forall r, o = Ret (inr r) ->
          consistent r /\
          (0 <= Batch.MAX_BATCH_SIZE X U ->
           Batch.processed r <= Batch.MAX_BATCH_SIZE X U /\
           Batch.failed r <= Batch.MAX_BATCH_SIZE X U /\
           (widgets_work ->
            Batch.processed r + Batch.failed r <= Batch.MAX_BATCH_SIZE X U /\
            (1 <= Batch.MAX_BATCH_SIZE X U -> 1 <= Batch.processed r + Batch.failed r)))).
Proof.
  unfold Batch.process_batch, Processor.call_ext.
  wp_step. wp_step; cbn beta iota; [| discriminate].
  destruct (negb a); [apply wp_ret; discriminate |].
  destruct (negb (Processor.supabase X E)); [apply wp_ret; discriminate |].
  wp_step. intros o1 s1 _. destruct o1 as [found1 | e]; cbn beta iota; [| discriminate].
  wp_step. intros o2 s2 _. destruct o2 as [[image_files video_files] | e]; cbn beta iota;
    [| discriminate].
  destruct (image_files ++ video_files) as [|f all_files] eqn:Hall;
    [apply wp_ret; discriminate |].
  assert (Hloop : forall files s3,
             (0 <= Batch.MAX_BATCH_SIZE X U ->
              Z.of_nat (length files) <= Batch.MAX_BATCH_SIZE X U) ->
             (1 <= Batch.MAX_BATCH_SIZE X U -> 1 <= Z.of_nat (length files)) ->
             wp (Batch.st U "st.progress" ["0"] ;;;
                 Batch.st U "st.empty" [] ;;;
                 r <- Batch.process_files E U (length files) image_files 0 files
                        Batch.fresh_results ;;
                 ret (inr r)) s3
               (fun o _ =>
                  forall r, o = Ret (inr (A := string) r) ->
                    consistent r /\
                    (0 <= Batch.MAX_BATCH_SIZE X U ->
                     Batch.processed r <= Batch.MAX_BATCH_SIZE X U /\
                     Batch.failed r <= Batch.MAX_BATCH_SIZE X U /\
                     (widgets_work ->
                      Batch.processed r + Batch.failed r <= Batch.MAX_BATCH_SIZE X U /\
                      (1 <= Batch.MAX_BATCH_SIZE X U ->
                       1 <= Batch.processed r + Batch.failed r))))).
  { intros files s3 Hle Hge. unfold Batch.st, Processor.call_ext.
    wp_step. wp_step; cbn beta iota; [| discriminate].
    wp_step. wp_step; cbn beta iota; [| discriminate].
    wp_step. eapply wp_mono;
      [apply (process_files_counts (length files) image_files files 0 Batch.fresh_results);
       cbn; repeat split; lia |].
    intros [r | e] s4 Hr; cbn beta iota; [| discriminate].
    apply wp_ret. intros r' Hr'. injection Hr' as <-.
    destruct (Hr r eq_refl) as (Hc & Ha & Hb & Hd & He). cbn in Ha, Hb, Hd, He.
    split; [exact Hc |]. intros Hmax. specialize (Hle Hmax).
    split; [lia |]. split; [lia |]. intros HW. specialize (He HW).
    split; [lia |]. intros H1. specialize (Hge H1). lia. }
  apply wp_bind.
  destruct (Z.gtb_spec (Z.of_nat (length (f :: all_files))) (Batch.MAX_BATCH_SIZE X U))
    as [Hgt | Hgt].
  - unfold Batch.st at 1. unfold Processor.call_ext.
    wp_step. wp_step; cbn beta iota; [| discriminate].
    apply wp_ret. cbn beta iota. apply Hloop.
    + apply slice_to_length.
    + intros H1. unfold Batch.slice_to.
      destruct (0 <=? Batch.MAX_BATCH_SIZE X U) eqn:H0; [| lia].
      rewrite length_firstn. cbn [length]. lia.
  - apply wp_ret. cbn beta iota. apply Hloop; intros _; cbn [length] in *; lia.
Qed.

(** The counters of a finished batch run agree: every processed file is
    counted once as an image, a video or a duplicate, and there is one
    error text for each failure. *)
Theorem batch_counters_agree (s : state (Processor.machine X)) (r : Batch.results)
    (s' : state (Processor.machine X)) :
  Batch.process_batch E U s = (Ret (inr r), s') ->
  Batch.processed r
  = Batch.images_processed r + Batch.videos_processed r + Batch.duplicates_skipped r /\
  Batch.failed r = Z.of_nat (length (Batch.errors r)) /\
  0 <= Batch.images_processed r /\ 0 <= Batch.videos_processed r /\
  0 <= Batch.duplicates_skipped r.
Proof.
  intros Hrun. exact (proj1 (process_batch_counts s _ _ Hrun r eq_refl)).
Qed.

(** A batch run handles at most [MAX_BATCH_SIZE] files: neither counter
    exceeds it.  When no widget raises, each file handled is counted
    once, as processed or as failed, so the two counters together stay
    within the limit, and a run that reaches the loop handles a file. *)
Theorem batch_stays_within_limit (s : state (Processor.machine X)) (r : Batch.results)
    (s' : state (Processor.machine X)) :
  0 <= Batch.MAX_BATCH_SIZE X U ->
  Batch.process_batch E U s = (Ret (inr r), s') ->
  Batch.processed r <= Batch.MAX_BATCH_SIZE X U /\
  Batch.failed r <= Batch.MAX_BATCH_SIZE X U /\
  ((forall op args x, exists x', Batch.st_call X U op args x = (Ret tt, x')) ->
   Batch.processed r + Batch.failed r <= Batch.MAX_BATCH_SIZE X U /\
   (1 <= Batch.MAX_BATCH_SIZE X U -> 1 <= Batch.processed r + Batch.failed r)).
Proof.
  intros Hmax Hrun. exact (proj2 (process_batch_counts s _ _ Hrun r eq_refl) Hmax).
Qed.

(** Without a database, or when the check of the Ollama service answers
    [False], a batch run stops after that check: it reads and writes no
    file and leaves the cache of fingerprints alone. *)
Theorem batch_needs_its_services (s : state (Processor.machine X))
    (r : outcome (string + Batch.results)) (s' : state (Processor.machine X)) :
  Processor.supabase X E = false \/
  fst (Batch.check_ollama_status X U (Processor.ext (world s))) = Ret false ->
  Batch.process_batch E U s = (r, s') ->
  (exists o, trace s' = trace s ++ [EvCall "check_ollama_status" [] o]) /\
  Processor.fs (world s') = Processor.fs (world s) /\
  Processor.hash_cache (world s') = Processor.hash_cache (world s) /\
  (r = Ret (inl "Ollama not available") \/ r = Ret (inl "Database not configured") \/
   exists e, r = Raise e).
Proof.
  unfold Batch.process_batch, Processor.call_ext, bind, call.
  destruct (Batch.check_ollama_status X U (Processor.ext (world s))) as [[ollama | e] x] eqn:Hc;
    cbn [raised_of negb fst].
  - destruct ollama; cbn [negb].
    + intros [Hdb | Hr] Hrun; [| discriminate Hr].
      rewrite Hdb in Hrun. cbn [negb] in Hrun. injection Hrun as <- <-. cbn.
      split; [eauto |]. auto.
    + intros _ Hrun. injection Hrun as <- <-. cbn. split; [eauto |]. auto.
  - intros _ Hrun. injection Hrun as <- <-. cbn. split; [eauto |]. eauto 6.
Qed.

End BatchRun.

Lemma batch_counters_agree_witness :
  exists r s',
    Batch.process_batch (Scenario.proc_env true true) (Runs.widgets 50) Scenario.twins
    = (Ret (inr r), s') /\
    Batch.processed r = 2 /\
    Batch.images_processed r + Batch.videos_processed r + Batch.duplicates_skipped r = 2.
Proof.
  assert (Hrun : exists r s',
             Batch.process_batch (Scenario.proc_env true true) (Runs.widgets 50)
               Scenario.twins = (Ret (inr r), s') /\ Batch.processed r = 2)
    by (vm_compute; eexists _, _; split; reflexivity).
  destruct Hrun as (r & s' & Hrun & Hp).
  destruct (batch_counters_agree _ _ _ _ _ Hrun) as (Hsum & _).
  exists r, s'. split; [exact Hrun |]. split; [exact Hp |]. now rewrite <- Hsum.
Defined.

Lemma batch_stays_within_limit_witness :
  exists r s',
    Batch.process_batch (Scenario.proc_env true true) (Runs.widgets 1) Scenario.twins
    = (Ret (inr r), s') /\
    Batch.processed r + Batch.failed r = 1.
Proof.
  assert (Hrun : exists r s',
             Batch.process_batch (Scenario.proc_env true true) (Runs.widgets 1)
               Scenario.twins = (Ret (inr r), s'))
    by (vm_compute; eexists _, _; reflexivity).
  destruct Hrun as (r & s' & Hrun).
  destruct (batch_stays_within_limit (Scenario.proc_env true true) (Runs.widgets 1)
              Scenario.twins r s' ltac:(discriminate) Hrun) as (_ & _ & Hw).
  destruct (Hw ltac:(intros op args x; exists x; reflexivity)) as (Hle & Hge).
  specialize (Hge ltac:(cbn; lia)). cbn in Hle.
  exists r, s'. split; [exact Hrun |]. lia.
Defined.

Lemma batch_needs_its_services_witness :
  exists s',
    Batch.process_batch (Scenario.proc_env true true)
      Runs.no_ollama Scenario.twins
    = (Ret (inl "Ollama not available"), s') /\
    Processor.fs (world s') = Processor.fs (world Scenario.twins).
Proof.
  destruct (batch_needs_its_services (Scenario.proc_env true true)
              Runs.no_ollama Scenario.twins (Ret (inl "Ollama not available"))
              (St (world Scenario.twins) [EvCall "check_ollama_status" [] None]))
    as (_ & Hfs & _).
  - right. reflexivity.
  - reflexivity.
  - eexists. split; [reflexivity | exact Hfs].
Defined.

(** ** Videos *)

Section Video.
Context {X : Type} (E : Processor.env X).

Ltac crack H :=
  repeat (match type of H with
          | context [match ?x with _ => _ end] =>
              match x with
              | context [match _ with _ => _ end] => fail 1
              | _ => destruct x eqn:?
              end
          end;
          cbn [world trace fst snd Processor.fs Processor.hash_cache Processor.hash_cache_json
               Processor.ext negb] in H;
          try discriminate H).

Lemma process_video_input (p : string) (f : Processor.file)
    (s : state (Processor.machine X)) :
  Processor.fs (world s) !! p = Some f ->
  exists ok m s' evs,
    Processor.process_video E p s = (Ret (ok, m), s') /\
    trace s' = trace s ++ evs /\
    Processor.fs (world s') !! p = (if ok then None else Some f) /\
    Processor.hash_cache (world s') = Processor.hash_cache (world s) /\
    (ok = true ->
     exists h, In (EvCall "supabase_insert" [Path.name p; "video"; h] None) evs).
Proof.
  intros Hfs.
  destruct (Processor.process_video E p s) as [r s'] eqn:H.
  revert H.
  unfold Processor.process_video, Processor.save_analysis_only.
  mred. rewrite Hfs. intros H. crack H.
  all: try congruence.
  all: injection H as <- <-; cbn [world trace Processor.fs Processor.hash_cache] in *.
  all: do 4 eexists; (split; [reflexivity |]); cbn [world trace Processor.fs Processor.hash_cache].
  all: rewrite <- ?app_assoc; (split; [reflexivity |]).
  all: rewrite ?lookup_delete_eq; (split; [first [reflexivity | assumption] |]).
  all: (split; [reflexivity |]); intros Hok; try discriminate Hok.
  all: eexists; cbn; eauto.
Qed.

Lemma validate_file_other_cases (p : string) (s : state (Processor.machine X)) :
  Processor.mem (PyStr.lower (Path.suffix p)) Processor.SUPPORTED_IMAGE_FORMATS = false ->
  (exists kind, Processor.validate_file E p s = (Ret (false, kind), s)) \/
  (exists data, Processor.fs (world s) !! p = Some (Processor.Raw data) /\
                Processor.mem (PyStr.lower (Path.suffix p)) Processor.SUPPORTED_VIDEO_FORMATS
                = true /\
                Processor.validate_file E p s = (Ret (true, "video"), s)).
Proof.
  intros Hext. unfold Processor.validate_file. rewrite Hext.
  destruct (Processor.mem (PyStr.lower (Path.suffix p)) Processor.SUPPORTED_VIDEO_FORMATS);
    mred; [| left; eexists; now destruct s].
  destruct (Processor.fs (world s) !! p) as [f |]; mred;
    [| left; eexists; now destruct s].
  destruct (Processor.file_size f >? 50 * 1024 * 1024); [left; eexists; now destruct s |].
  destruct f as [data | doc]; mred; [| left; eexists; now destruct s].
  destruct (Processor.cv2_is_opened X E data); mred; [| left; eexists; now destruct s].
  right. exists data. split; [reflexivity |]. split; [reflexivity | now destruct s].
Qed.

End Video.

(** For a path without an image extension, [process_single_file]
    returns a pair and raises nothing.  It answers [True] only for a file
    with a video extension that was there, after the row of its analysis
    was inserted, and the file is then gone; after any other answer the
    file is as it was.  The fingerprints are never changed. *)
Theorem video_is_deleted_iff_saved {X : Type} (E : Processor.env X) (file_path : string)
    (s : state (Processor.machine X)) :
  Processor.mem (PyStr.lower (Path.suffix file_path)) Processor.SUPPORTED_IMAGE_FORMATS = false ->
  exists ok message s' evs,
    Processor.process_single_file E file_path s = (Ret (ok, message), s') /\
    trace s' = trace s ++ evs /\
    Processor.hash_cache (world s') = Processor.hash_cache (world s) /\
    (ok = true ->
     Processor.mem (PyStr.lower (Path.suffix file_path)) Processor.SUPPORTED_VIDEO_FORMATS
     = true /\
     is_Some (Processor.fs (world s) !! file_path) /\
     Processor.fs (world s') !! file_path = None /\
     exists h, In (EvCall "supabase_insert" [Path.name file_path; "video"; h] None) evs) /\
    (ok = false ->
     Processor.fs (world s') !! file_path = Processor.fs (world s) !! file_path).
Proof.
  intros Hext. unfold Processor.process_single_file.
  unfold try_except at 1. unfold bind at 1.
  destruct (validate_file_other_cases E file_path s Hext)
    as [[kind ->] | (data & Hfs & Hvideo & ->)].
  { cbn [negb]. unfold ret. exists false. do 2 eexists. exists [].
    split; [reflexivity |]. split; [now rewrite app_nil_r |]. split; [reflexivity |].
    split; [discriminate | reflexivity]. }
  cbn [negb String.eqb Ascii.eqb Bool.eqb].
  destruct (process_video_input E file_path _ s Hfs) as (ok & m & s' & evs & -> & Ht & Hp & Hc & Hin).
  exists ok, m, s', evs. split; [reflexivity |]. split; [exact Ht |]. split; [exact Hc |].
  rewrite Hfs. destruct ok; split; try discriminate; intros _; [| exact Hp].
  split; [exact Hvideo |]. split; [eauto |]. split; [exact Hp | now apply Hin].
Qed.

Lemma video_is_deleted_iff_saved_witness :
  exists message s',
    Processor.process_single_file Runs.video_env "input_videos/clip.mp4" Runs.clip
    = (Ret (true, message), s') /\
    Processor.fs (world s') !! "input_videos/clip.mp4" = None.
Proof.
  destruct (video_is_deleted_iff_saved Runs.video_env "input_videos/clip.mp4" Runs.clip
              eq_refl) as (ok & message & s' & evs & Hrun & _ & _ & Hyes & _).
  assert (Hok : ok = true).
  { assert (H : fst (Processor.process_single_file Runs.video_env "input_videos/clip.mp4"
                       Runs.clip)
                = Ret (true, "Video processed (3 frames, audio transcribed)"))
      by (vm_compute; reflexivity).
    rewrite Hrun in H. cbn [fst] in H. now injection H. }
  subst ok. destruct (Hyes eq_refl) as (_ & _ & Hgone & _).
  exists message, s'. split; [exact Hrun | exact Hgone].
Defined.

(** ** The status of the session *)

(** [get_session_status] raises nothing and answers one of five
    statuses.  It answers [active] only after the stored session was
    loaded and the account was read with it, [unavailable] exactly when
    there is no client; all it does is look for the session file, load it
    and read the account: it never logs in. *)
Theorem session_status_is_verified {W : Type} (E : Downloader.env W) (s : state W) :
  exists status s' evs,
    Downloader.get_session_status E s = (Ret status, s') /\
    trace s' = trace s ++ evs /\
    In status ["unavailable"; "active"; "expired"; "not_logged_in"; "error"] /\
    (status = "active" ->
     In (EvCall "client.load_settings" [Downloader.session_file] None) evs /\
     In (EvCall "client.account_info" [] None) evs) /\
    (status = "unavailable" <-> Downloader.client W E = false) /\
    forallb (only ["Path.exists"; "client.load_settings"; "client.account_info"] []) evs = true.
Proof.
  assert (Hwp : wp (Downloader.get_session_status E) s
                  (fun r s' =>
                     exists status evs, r = Ret status /\
                       trace s' = trace s ++ evs /\
                       In status ["unavailable"; "active"; "expired"; "not_logged_in"; "error"] /\
                       (status = "active" ->
                        In (EvCall "client.load_settings" [Downloader.session_file] None) evs /\
                        In (EvCall "client.account_info" [] None) evs) /\
                       (status = "unavailable" <-> Downloader.client W E = false) /\
                       forallb (only ["Path.exists"; "client.load_settings";
                                      "client.account_info"] []) evs = true)).
  { unfold Downloader.get_session_status.
    destruct (Downloader.client W E) eqn:Hclient; cbn [negb].
    - wp_auto; eexists _, _; (split; [reflexivity |]); (split; [trace_eq |]);
        (split; [cbn; tauto |]);
        (split; [first [discriminate | intros _; cbn; tauto] |]);
        (split; [split; discriminate | reflexivity]).
    - apply wp_ret. exists "unavailable", []. split; [reflexivity |].
      split; [now rewrite app_nil_r |]. split; [cbn; tauto |].
      split; [discriminate |]. split; [tauto | reflexivity]. }
  destruct (Downloader.get_session_status E s) as [r s'] eqn:Hrun.
  destruct (Hwp _ _ Hrun) as (status & evs & -> & H). now exists status, s', evs.
Qed.

(** ** The flag of a failure over a whole pass *)




Section PassFrame.
Context {X : Type} (E : Processor.env X).

Ltac crack H :=
  repeat (match type of H with
          | context [match ?x with _ => _ end] =>
              match x with
              | context [match _ with _ => _ end] => fail 1
              | _ => destruct x eqn:?
              end
          end;
          cbn [world trace fst snd Processor.fs Processor.hash_cache Processor.hash_cache_json
               Processor.ext negb] in H;
          try discriminate H).









Lemma process_flag_returns (flag_file : string) (s : state (Processor.machine X)) :
  exists s', Processor.process_flag E flag_file s = (Ret tt, s').
Proof.
  destruct (Processor.process_flag E flag_file s) as [r s'] eqn:H. revert H.
  unfold Processor.process_flag, PyOps.get, PyOps.getitem, Py.get. mred. intros H.
  crack H.
  all: injection H as <- <-; eexists; reflexivity.
Qed.

Lemma process_flags_returns (flags : list string) :
  forall s, exists s', Processor.process_flags E flags s = (Ret tt, s').
Proof.
  induction flags as [|g rest IH]; intros s; cbn [Processor.process_flags].
  - now exists s.
  - destruct (process_flag_returns g s) as [s1 H1]. destruct (IH s1) as [s' H'].
    exists s'. unfold bind. now rewrite H1.
Qed.







End PassFrame.



Section Pass.
Context {X : Type} (E : Processor.env X).






End Pass.



(** With one folder for images and videos a pass scans it twice: the
    flag that the first scan rewrote is deleted by the second scan of
    the same pass. *)
Example failed_flag_dropped_at_once_in_one_folder :
  let s' := snd (Processor.process_instagram_queue Runs.one_folder_env Scenario.notes_queue) in
  logged "INSTAGRAM_CONTENT_PROCESSING_FAILED" (trace s') = true /\
  Processor.fs (world s') !! "input_images/.processing_notes.json" = None.
Proof. cbv zeta. split; vm_compute; reflexivity. Qed.

(** ** Whitespace around a URL *)

(** [str.strip] removes the separators 28 to 31 as it removes blanks: a
    URL with such a character before it passes the check as the URL
    alone does. *)
Example url_check_strips_separators :
  PyStr.strip (String (ascii_of_nat 31) "https://www.instagram.com/reel/Cxyz123AbC/ ")
  = "https://www.instagram.com/reel/Cxyz123AbC/" /\
  Url._validate_instagram_url
    (String (ascii_of_nat 31) "https://www.instagram.com/reel/Cxyz123AbC/") = true /\
  Url._validate_instagram_url
    (String (ascii_of_nat 28) "https://www.instagram.com/reel/Cxyz123AbC/") = true.
Proof. repeat split; vm_compute; reflexivity. Qed.
